(** * pycomm3 / ab_comm / clx.py : the Logix tag-protocol driver

    A shallow embedding of the [Driver] class of [clx.py] and the proofs of
    the properties its specification states.  Python integers are [Z],
    [bytes] are lists of [Byte.byte], tag names are strings of 8-bit
    characters, the attributes of the driver object are a record threaded
    through a state-and-exception monad, and the names imported from
    [pycomm3.cip.cip_base] (tables, request-path builder, packet builders)
    form the interface [CipBase].  The controller is a script of replies:
    what the driver sends is logged, what it receives is taken from the
    script.

    Contents: the codec and the bit masks; the interface; the driver object
    and its monad; the reply parsers and the dispatcher; the transport; the
    tag operations; a small controller for the worked examples; the
    vocabulary of the properties; the properties, one section per claim. *)

From Stdlib Require Import ZArith List String Ascii Bool Lia.
From Stdlib.Strings Require Import Byte.
From stdpp Require Import base option list gmap strings pretty.

Local Open Scope Z_scope.

(** ** Bytes and Python slices *)

Abbreviation bytes := (list Byte.byte).

(** A [str] built with [chr], as its code points. *)
Abbreviation unicode := (list Z).

Global Instance byte_eq_decision : EqDecision Byte.byte := Byte.byte_eq_dec.

Definition Z_of_byte (b : Byte.byte) : Z := Z.of_N (Byte.to_N b).

Definition byte_of_Z (z : Z) : Byte.byte :=
  default Byte.x00 (Byte.of_N (Z.to_N (z mod 256))).

(** [b[lo:hi]] for the non-negative bounds this module uses: out-of-range
    bounds are clipped, an empty range gives the empty sequence. *)
Definition slice {A : Type} (lo hi : Z) (l : list A) : list A :=
  take (Z.to_nat (hi - lo)) (drop (Z.to_nat lo) l).

(** [b[lo:]] *)
Definition slice_from {A : Type} (lo : Z) (l : list A) : list A :=
  drop (Z.to_nat lo) l.

Definition len {A : Type} (l : list A) : Z := Z.of_nat (length l).

(** ** Exceptions *)

(** The exception classes the module raises or catches.  [LookupError]
    stands for [KeyError] and [IndexError] (both are caught as
    [LookupError] in [_write_tag_multi_write]); [StructError] is
    [struct.error]. *)
Inductive exn : Type :=
| DataError
| LookupError
| StructError
| ValueError
| TypeError
| AttributeError
| UnicodeError.

Global Instance exn_eq_dec : EqDecision exn.
Proof. solve_decision. Defined.

(** Pure code that may raise. *)
Definition result (A : Type) : Type := exn + A.

Global Instance result_ret : MRet result := fun A a => inr a.
Global Instance result_bind : MBind result := fun A B f m =>
  match m with inl e => inl e | inr a => f a end.

Definition or_raise {A : Type} (e : exn) (o : option A) : result A :=
  match o with Some a => inr a | None => inl e end.

(** ** Python values carried by tags *)

Inductive pyval : Type :=
| PNone
| PBool (b : bool)
| PInt (z : Z)
| PFloat (raw : bytes)     (* an IEEE value, kept as its little-endian bytes *)
| PStr (s : string)
| PBytes (b : bytes).

Global Instance pyval_eq_dec : EqDecision pyval.
Proof. solve_decision. Defined.

(** ** Codec (little-endian scalars) *)

Fixpoint le_decode (bs : bytes) : Z :=
  match bs with
  | [] => 0
  | b :: r => Z_of_byte b + 256 * le_decode r
  end.

Fixpoint le_encode (n : nat) (z : Z) : bytes :=
  match n with
  | O => []
  | S k => byte_of_Z z :: le_encode k (z / 256)
  end.

(** Truth value of an object, as [if value:] tests it. *)
Definition truthy (v : pyval) : bool :=
  match v with
  | PNone => false
  | PBool b => b
  | PInt z => negb (z =? 0)
  | PFloat raw => negb (le_decode raw mod 2 ^ (8 * len raw - 1) =? 0)
  | PStr s => negb (String.length s =? 0)%nat
  | PBytes b => negb (length b =? 0)%nat
  end.

(** Modelled from the spec: the decoders of [cip_base] ([unpack_usint],
    [unpack_uint], [unpack_dint]), "little-endian encoders/decoders for u8,
    u16, u32, i16, i32": the first [n] bytes are decoded, fewer than [n]
    bytes is a [struct.error]. *)
Definition unpack_unsigned (n : nat) (st : bytes) : result Z :=
  let b := take n st in
  if (length b =? n)%nat then inr (le_decode b) else inl StructError.

Definition unpack_usint : bytes -> result Z := unpack_unsigned 1.
Definition unpack_uint : bytes -> result Z := unpack_unsigned 2.

(** [DINT] is the signed 32-bit type. *)
Definition unpack_dint (st : bytes) : result Z :=
  u ← unpack_unsigned 4 st;
  mret (if u <? 2 ^ 31 then u else u - 2 ^ 32).

(** Modelled from the spec: the encoders of [cip_base]; "fails when a value
    does not fit the declared type" ([struct.error]). *)
Definition pack_unsigned (n : nat) (z : Z) : result bytes :=
  if (0 <=? z) && (z <? 2 ^ (8 * Z.of_nat n)) then inr (le_encode n z)
  else inl StructError.

Definition pack_usint : Z -> result bytes := pack_unsigned 1.
Definition pack_uint : Z -> result bytes := pack_unsigned 2.
Definition pack_udint : Z -> result bytes := pack_unsigned 4.

Definition pack_dint (z : Z) : result bytes :=
  if (- 2 ^ 31 <=? z) && (z <? 2 ^ 31) then inr (le_encode 4 (z mod 2 ^ 32))
  else inl StructError.

(** [bytes([x])]: one byte, [ValueError] outside [range(256)]. *)
Definition bytes_of_int (x : Z) : result bytes :=
  if (0 <=? x) && (x <? 256) then inr [byte_of_Z x] else inl ValueError.

(** [1 << n]: a negative shift count is a [ValueError]. *)
Definition py_lshift (a n : Z) : result Z :=
  if n <? 0 then inl ValueError else inr (Z.shiftl a n).

(** ** Bit writes *)

(** [_make_write_bit_data(bit, value, bool_ary)] *)
Definition _make_write_bit_data (bit : Z) (value : pyval) (bool_ary : bool)
  : result (list bytes) :=
  let or_mask := 0 in
  let and_mask := 0xFFFFFFFF in
  let '(mask_size, bit) :=
    if bool_ary then (4, bit mod 32)
    else ((if bit <? 8 then 1 else if bit <? 16 then 2 else 4), bit) in
  '(or_mask, and_mask) ←
    (if truthy value
     then sh ← py_lshift 1 bit; mret (Z.lor or_mask sh, and_mask)
     else sh ← py_lshift 1 bit; mret (or_mask, Z.land and_mask (Z.lnot sh)));
  m ← pack_uint mask_size;
  o ← pack_udint or_mask;
  a ← pack_udint and_mask;
  mret [m; slice 0 mask_size o; slice 0 mask_size a].



(** ** The names imported from [pycomm3.cip.cip_base]

    [clx.py] starts with [from pycomm3.cip.cip_base import *]; the tables
    and helpers it uses from there, and the few built-ins of the Python
    runtime whose behaviour is not arithmetic, are the fields of this
    interface.  A dictionary that is only indexed with literal keys is a
    total function; one indexed with data received from the controller
    returns [None] where the lookup is a [KeyError]. *)
Class CipBase : Type := {
  I_DATA_TYPE : Z -> option string;
  S_DATA_TYPE : string -> option Z;
  DATA_FUNCTION_SIZE : string -> option positive;
  UNPACK_DATA_FUNCTION : string -> option (bytes -> result pyval);
  PACK_DATA_FUNCTION : string -> option (pyval -> result bytes);
  BITS_PER_INT_TYPE : string -> option Z;
  SERVICE_STATUS : Z -> option string;
  REPLAY_INFO : Z -> option string;
  TAG_SERVICES_REQUEST : string -> Byte.byte;   (* one-byte service codes *)
  I_TAG_SERVICES_REPLY : string -> Z;
  ENCAPSULATION_COMMAND : string -> bytes;
  DATA_ITEM : string -> bytes;
  ADDRESS_ITEM : string -> bytes;
  CLASS_ID : string -> bytes;
  CLASS_CODE : string -> bytes;
  INSTANCE_ID : string -> bytes;
  EXTENDED_SYMBOL : bytes;
  get_extended_status : bytes -> Z -> result string;
  (* [create_tag_rp(tag, multi_requests)]; [None] when the tag cannot be
     tokenised *)
  create_tag_rp : string -> bool -> option bytes;
  build_multiple_service : list bytes -> Z -> list bytes;
  (* [build_common_packet_format(message_type, message, addr_type, addr_data)] *)
  build_common_packet_format : bytes -> bytes -> bytes -> bytes -> bytes;
  build_header : bytes -> Z -> bytes;
  (* how [Base._get_sequence] advances the session counter *)
  next_sequence : Z -> Z;
  (* [int(s)], [None] for a [ValueError] *)
  py_int : string -> option Z;
  (* [b.decode()], [None] for a [UnicodeDecodeError] *)
  py_decode : bytes -> option string;
  (* [s.encode('utf-8')] *)
  py_encode : string -> bytes;
  (* [str(x)] of the objects that are formatted into status texts *)
  str_tags : list string -> string;
  str_writes : list (string * pyval * string) -> string;
  str_exn : exn -> string
}.

Definition SUCCESS : Z := 0.

(** ** Objects held by the driver *)

(** An entry of the symbol table as [_parse_instance_attribute_list]
    stores it. *)
Module Symbol.
Record t : Type := mk {
  instance_id : Z;
  tag_name : bytes;
  symbol_type : Z
}.
End Symbol.

(** A tag as [_isolating_user_tag] emits it; a key a dictionary does not
    hold is [None]. *)
Module Tag.
Record t : Type := mk {
  instance_id : Z;
  template_instance_id : option Z;
  tag_name : string;
  dim : Z;
  tag_type : string;
  data_type : string;
  bit_position : option Z;
  template : option (gmap string pyval);
  udt : option (gmap string pyval)
}.
End Tag.

(** What [_tag_list] may hold: symbol entries, isolated tags, the
    [(position, value)] pairs of a fragmented read, or integers (a list
    extended with bytes). *)
Inductive item : Type :=
| ISymbol (e : Symbol.t)
| ITag (t : Tag.t)
| IValue (pos : Z) (v : pyval)
| IInt (z : Z).

(** [_tag_list] is a list, or the string [read_array] installs for a raw
    read. *)
Inductive tag_list : Type :=
| TLStr (s : string)
| TLList (l : list item).

(** [_buffer] is a dictionary (structure makeup) or bytes (template). *)
Inductive buffer : Type :=
| BufDict (m : gmap string pyval)
| BufBytes (b : bytes).

(** ** The driver object

    The attributes of [Driver] and of its base class that [clx.py] reads or
    writes, and the world outside: [wire_out] logs every frame handed to
    [send_unit_data], [wire_in] holds the replies still to arrive ([None]:
    no reply), [open_script] the answers to the coming [forward_open]
    attempts ([Some cid]: accepted). *)
Record Driver : Type := mkDriver {
  _reply : option bytes;
  _message : bytes;
  _status : Z * string;
  _more_packets_available : bool;
  _target_is_connected : bool;
  _target_cid : bytes;
  _sequence : Z;
  _tag_list : tag_list;
  _last_instance : Z;
  _byte_offset : Z;
  _last_position : Z;
  _output_raw : bool;
  _last_tag_read : option (string * pyval * pyval);
  _last_tag_write : option (string * pyval * string * string);
  _buffer : buffer;
  _get_template_in_progress : bool;
  _struct_cache : gmap Z buffer;
  _template_cache : gmap Z buffer;
  _program_names : list string;
  wire_out : list bytes;
  wire_in : list (option bytes);
  open_script : list (option bytes)
}.

(** Attribute assignment, one function per attribute. *)
Definition set_reply (v : option bytes) (d : Driver) : Driver :=
  mkDriver v (_message d) (_status d) (_more_packets_available d)
    (_target_is_connected d) (_target_cid d) (_sequence d) (_tag_list d)
    (_last_instance d) (_byte_offset d) (_last_position d) (_output_raw d)
    (_last_tag_read d) (_last_tag_write d) (_buffer d)
    (_get_template_in_progress d) (_struct_cache d) (_template_cache d)
    (_program_names d) (wire_out d) (wire_in d) (open_script d).

Definition set_message (v : bytes) (d : Driver) : Driver :=
  mkDriver (_reply d) v (_status d) (_more_packets_available d)
    (_target_is_connected d) (_target_cid d) (_sequence d) (_tag_list d)
    (_last_instance d) (_byte_offset d) (_last_position d) (_output_raw d)
    (_last_tag_read d) (_last_tag_write d) (_buffer d)
    (_get_template_in_progress d) (_struct_cache d) (_template_cache d)
    (_program_names d) (wire_out d) (wire_in d) (open_script d).

Definition set_status (v : Z * string) (d : Driver) : Driver :=
  mkDriver (_reply d) (_message d) v (_more_packets_available d)
    (_target_is_connected d) (_target_cid d) (_sequence d) (_tag_list d)
    (_last_instance d) (_byte_offset d) (_last_position d) (_output_raw d)
    (_last_tag_read d) (_last_tag_write d) (_buffer d)
    (_get_template_in_progress d) (_struct_cache d) (_template_cache d)
    (_program_names d) (wire_out d) (wire_in d) (open_script d).

Definition set_more_packets_available (v : bool) (d : Driver) : Driver :=
  mkDriver (_reply d) (_message d) (_status d) v (_target_is_connected d)
    (_target_cid d) (_sequence d) (_tag_list d) (_last_instance d)
    (_byte_offset d) (_last_position d) (_output_raw d) (_last_tag_read d)
    (_last_tag_write d) (_buffer d) (_get_template_in_progress d)
    (_struct_cache d) (_template_cache d) (_program_names d) (wire_out d)
    (wire_in d) (open_script d).

Definition set_target_is_connected (v : bool) (d : Driver) : Driver :=
  mkDriver (_reply d) (_message d) (_status d) (_more_packets_available d) v
    (_target_cid d) (_sequence d) (_tag_list d) (_last_instance d)
    (_byte_offset d) (_last_position d) (_output_raw d) (_last_tag_read d)
    (_last_tag_write d) (_buffer d) (_get_template_in_progress d)
    (_struct_cache d) (_template_cache d) (_program_names d) (wire_out d)
    (wire_in d) (open_script d).

Definition set_target_cid (v : bytes) (d : Driver) : Driver :=
  mkDriver (_reply d) (_message d) (_status d) (_more_packets_available d)
    (_target_is_connected d) v (_sequence d) (_tag_list d)
    (_last_instance d) (_byte_offset d) (_last_position d) (_output_raw d)
    (_last_tag_read d) (_last_tag_write d) (_buffer d)
    (_get_template_in_progress d) (_struct_cache d) (_template_cache d)
    (_program_names d) (wire_out d) (wire_in d) (open_script d).

Definition set_sequence (v : Z) (d : Driver) : Driver :=
  mkDriver (_reply d) (_message d) (_status d) (_more_packets_available d)
    (_target_is_connected d) (_target_cid d) v (_tag_list d)
    (_last_instance d) (_byte_offset d) (_last_position d) (_output_raw d)
    (_last_tag_read d) (_last_tag_write d) (_buffer d)
    (_get_template_in_progress d) (_struct_cache d) (_template_cache d)
    (_program_names d) (wire_out d) (wire_in d) (open_script d).

Definition set_tag_list (v : tag_list) (d : Driver) : Driver :=
  mkDriver (_reply d) (_message d) (_status d) (_more_packets_available d)
    (_target_is_connected d) (_target_cid d) (_sequence d) v
    (_last_instance d) (_byte_offset d) (_last_position d) (_output_raw d)
    (_last_tag_read d) (_last_tag_write d) (_buffer d)
    (_get_template_in_progress d) (_struct_cache d) (_template_cache d)
    (_program_names d) (wire_out d) (wire_in d) (open_script d).

Definition set_last_instance (v : Z) (d : Driver) : Driver :=
  mkDriver (_reply d) (_message d) (_status d) (_more_packets_available d)
    (_target_is_connected d) (_target_cid d) (_sequence d) (_tag_list d) v
    (_byte_offset d) (_last_position d) (_output_raw d) (_last_tag_read d)
    (_last_tag_write d) (_buffer d) (_get_template_in_progress d)
    (_struct_cache d) (_template_cache d) (_program_names d) (wire_out d)
    (wire_in d) (open_script d).

Definition set_byte_offset (v : Z) (d : Driver) : Driver :=
  mkDriver (_reply d) (_message d) (_status d) (_more_packets_available d)
    (_target_is_connected d) (_target_cid d) (_sequence d) (_tag_list d)
    (_last_instance d) v (_last_position d) (_output_raw d)
    (_last_tag_read d) (_last_tag_write d) (_buffer d)
    (_get_template_in_progress d) (_struct_cache d) (_template_cache d)
    (_program_names d) (wire_out d) (wire_in d) (open_script d).

Definition set_last_position (v : Z) (d : Driver) : Driver :=
  mkDriver (_reply d) (_message d) (_status d) (_more_packets_available d)
    (_target_is_connected d) (_target_cid d) (_sequence d) (_tag_list d)
    (_last_instance d) (_byte_offset d) v (_output_raw d) (_last_tag_read d)
    (_last_tag_write d) (_buffer d) (_get_template_in_progress d)
    (_struct_cache d) (_template_cache d) (_program_names d) (wire_out d)
    (wire_in d) (open_script d).

Definition set_output_raw (v : bool) (d : Driver) : Driver :=
  mkDriver (_reply d) (_message d) (_status d) (_more_packets_available d)
    (_target_is_connected d) (_target_cid d) (_sequence d) (_tag_list d)
    (_last_instance d) (_byte_offset d) (_last_position d) v
    (_last_tag_read d) (_last_tag_write d) (_buffer d)
    (_get_template_in_progress d) (_struct_cache d) (_template_cache d)
    (_program_names d) (wire_out d) (wire_in d) (open_script d).

Definition set_last_tag_read (v : option (string * pyval * pyval)) (d : Driver) : Driver :=
  mkDriver (_reply d) (_message d) (_status d) (_more_packets_available d)
    (_target_is_connected d) (_target_cid d) (_sequence d) (_tag_list d)
    (_last_instance d) (_byte_offset d) (_last_position d) (_output_raw d) v
    (_last_tag_write d) (_buffer d) (_get_template_in_progress d)
    (_struct_cache d) (_template_cache d) (_program_names d) (wire_out d)
    (wire_in d) (open_script d).

Definition set_last_tag_write (v : option (string * pyval * string * string)) (d : Driver) : Driver :=
  mkDriver (_reply d) (_message d) (_status d) (_more_packets_available d)
    (_target_is_connected d) (_target_cid d) (_sequence d) (_tag_list d)
    (_last_instance d) (_byte_offset d) (_last_position d) (_output_raw d)
    (_last_tag_read d) v (_buffer d) (_get_template_in_progress d)
    (_struct_cache d) (_template_cache d) (_program_names d) (wire_out d)
    (wire_in d) (open_script d).

Definition set_buffer (v : buffer) (d : Driver) : Driver :=
  mkDriver (_reply d) (_message d) (_status d) (_more_packets_available d)
    (_target_is_connected d) (_target_cid d) (_sequence d) (_tag_list d)
    (_last_instance d) (_byte_offset d) (_last_position d) (_output_raw d)
    (_last_tag_read d) (_last_tag_write d) v (_get_template_in_progress d)
    (_struct_cache d) (_template_cache d) (_program_names d) (wire_out d)
    (wire_in d) (open_script d).

Definition set_get_template_in_progress (v : bool) (d : Driver) : Driver :=
  mkDriver (_reply d) (_message d) (_status d) (_more_packets_available d)
    (_target_is_connected d) (_target_cid d) (_sequence d) (_tag_list d)
    (_last_instance d) (_byte_offset d) (_last_position d) (_output_raw d)
    (_last_tag_read d) (_last_tag_write d) (_buffer d) v (_struct_cache d)
    (_template_cache d) (_program_names d) (wire_out d) (wire_in d)
    (open_script d).

Definition set_struct_cache (v : gmap Z buffer) (d : Driver) : Driver :=
  mkDriver (_reply d) (_message d) (_status d) (_more_packets_available d)
    (_target_is_connected d) (_target_cid d) (_sequence d) (_tag_list d)
    (_last_instance d) (_byte_offset d) (_last_position d) (_output_raw d)
    (_last_tag_read d) (_last_tag_write d) (_buffer d)
    (_get_template_in_progress d) v (_template_cache d) (_program_names d)
    (wire_out d) (wire_in d) (open_script d).

Definition set_template_cache (v : gmap Z buffer) (d : Driver) : Driver :=
  mkDriver (_reply d) (_message d) (_status d) (_more_packets_available d)
    (_target_is_connected d) (_target_cid d) (_sequence d) (_tag_list d)
    (_last_instance d) (_byte_offset d) (_last_position d) (_output_raw d)
    (_last_tag_read d) (_last_tag_write d) (_buffer d)
    (_get_template_in_progress d) (_struct_cache d) v (_program_names d)
    (wire_out d) (wire_in d) (open_script d).

Definition set_program_names (v : list string) (d : Driver) : Driver :=
  mkDriver (_reply d) (_message d) (_status d) (_more_packets_available d)
    (_target_is_connected d) (_target_cid d) (_sequence d) (_tag_list d)
    (_last_instance d) (_byte_offset d) (_last_position d) (_output_raw d)
    (_last_tag_read d) (_last_tag_write d) (_buffer d)
    (_get_template_in_progress d) (_struct_cache d) (_template_cache d) v
    (wire_out d) (wire_in d) (open_script d).

Definition set_wire_out (v : list bytes) (d : Driver) : Driver :=
  mkDriver (_reply d) (_message d) (_status d) (_more_packets_available d)
    (_target_is_connected d) (_target_cid d) (_sequence d) (_tag_list d)
    (_last_instance d) (_byte_offset d) (_last_position d) (_output_raw d)
    (_last_tag_read d) (_last_tag_write d) (_buffer d)
    (_get_template_in_progress d) (_struct_cache d) (_template_cache d)
    (_program_names d) v (wire_in d) (open_script d).

Definition set_wire_in (v : list (option bytes)) (d : Driver) : Driver :=
  mkDriver (_reply d) (_message d) (_status d) (_more_packets_available d)
    (_target_is_connected d) (_target_cid d) (_sequence d) (_tag_list d)
    (_last_instance d) (_byte_offset d) (_last_position d) (_output_raw d)
    (_last_tag_read d) (_last_tag_write d) (_buffer d)
    (_get_template_in_progress d) (_struct_cache d) (_template_cache d)
    (_program_names d) (wire_out d) v (open_script d).

Definition set_open_script (v : list (option bytes)) (d : Driver) : Driver :=
  mkDriver (_reply d) (_message d) (_status d) (_more_packets_available d)
    (_target_is_connected d) (_target_cid d) (_sequence d) (_tag_list d)
    (_last_instance d) (_byte_offset d) (_last_position d) (_output_raw d)
    (_last_tag_read d) (_last_tag_write d) (_buffer d)
    (_get_template_in_progress d) (_struct_cache d) (_template_cache d)
    (_program_names d) (wire_out d) (wire_in d) v.

(** ** State and exceptions *)

Inductive outcome (A : Type) : Type :=
| Ret (a : A)        (* normal return *)
| Raise (e : exn)    (* an exception propagates *)
| Diverge.           (* a loop ran out of fuel *)
Arguments Ret {A} a.
Arguments Raise {A} e.
Arguments Diverge {A}.

(** A method of the driver: the outcome and the object afterwards (what was
    assigned before an exception stays assigned). *)
Definition M (A : Type) : Type := Driver -> outcome A * Driver.

Global Instance M_ret : MRet M := fun A a d => (Ret a, d).
Global Instance M_bind : MBind M := fun A B f m d =>
  match m d with
  | (Ret a, d') => f a d'
  | (Raise e, d') => (Raise e, d')
  | (Diverge, d') => (Diverge, d')
  end.

Definition raise {A : Type} (e : exn) : M A := fun d => (Raise e, d).
Definition diverge {A : Type} : M A := fun d => (Diverge, d).
Definition gets {A : Type} (f : Driver -> A) : M A := fun d => (Ret (f d), d).
Definition modify (f : Driver -> Driver) : M unit := fun d => (Ret tt, f d).

(** A pure computation inside a method. *)
Definition liftR {A : Type} (r : result A) : M A :=
  match r with inl e => raise e | inr a => mret a end.

(** A dictionary lookup: [KeyError] when absent. *)
Definition lookup_or_raise {A : Type} (o : option A) : M A :=
  liftR (or_raise LookupError o).

(** [try: m  except Exception as e: raise DataError(e)] *)
Definition data_error_on_exception {A : Type} (m : M A) : M A := fun d =>
  match m d with
  | (Raise _, d') => (Raise DataError, d')
  | r => r
  end.

(** [try: m  except Exception: h] *)
Definition try_except {A : Type} (m : M A) (h : exn -> M A) : M A := fun d =>
  match m d with
  | (Raise e, d') => h e d'
  | r => r
  end.

(** [while cond: body], where [body] answers [Some r] when it executes
    [return r]. *)
Fixpoint while_loop {A : Type} (fuel : nat) (cond : Driver -> bool)
    (body : M (option A)) : M (option A) := fun d =>
  if cond d then
    match fuel with
    | O => (Diverge, d)
    | S k =>
        match body d with
        | (Ret None, d') => while_loop k cond body d'
        | r => r
        end
    end
  else (Ret None, d).

(** [for x in l: body x], same convention. *)
Fixpoint for_each {A B : Type} (l : list A) (body : A -> M (option B))
  : M (option B) :=
  match l with
  | [] => mret None
  | x :: r => o ← body x; match o with Some b => mret (Some b) | None => for_each r body end
  end.

Local Open Scope string_scope.
Local Open Scope list_scope.
Local Open Scope Z_scope.

(** ** Attribute helpers *)

(** [self._reply[...]]: subscripting [None] is a [TypeError]. *)
Definition reply_bytes : M bytes :=
  r ← gets _reply;
  match r with Some b => mret b | None => raise TypeError end.

(** [self._tag_list.append(x)]: a string has no [append]. *)
Definition tag_list_append (x : item) : M unit :=
  t ← gets _tag_list;
  match t with
  | TLList l => modify (set_tag_list (TLList (l ++ [x])))
  | TLStr _ => raise AttributeError
  end.

(** [self._tag_list += value] for a [bytes] value: a list is extended with
    the byte values, a string refuses. *)
Definition tag_list_iadd (value : bytes) : M unit :=
  t ← gets _tag_list;
  match t with
  | TLList l => modify (set_tag_list (TLList (l ++ map (fun b => IInt (Z_of_byte b)) value)))
  | TLStr _ => raise TypeError
  end.

(** [self._buffer[key] = v] *)
Definition buffer_setitem (key : string) (v : pyval) : M unit :=
  b ← gets _buffer;
  match b with
  | BufDict m => modify (set_buffer (BufDict (<[key := v]> m)))
  | BufBytes _ => raise TypeError
  end.

(** [self._buffer += data] for a [bytes] value. *)
Definition buffer_iadd (data : bytes) : M unit :=
  b ← gets _buffer;
  match b with
  | BufBytes x => modify (set_buffer (BufBytes (x ++ data)))
  | BufDict _ => raise TypeError
  end.

(** [bool(value & (1 << bit)) if bit < BITS_PER_INT_TYPE[typ] else None],
    the expression of [read_tag] and [_parse_multiple_request_read]. *)
Definition py_and_bit (value : pyval) (bit : Z) : result bool :=
  sh ← py_lshift 1 bit;
  match value with
  | PInt z => mret (negb (Z.land z sh =? 0))
  | PBool b => mret (negb (Z.land (if b then 1 else 0) sh =? 0))
  | _ => inl TypeError
  end.

Section Driver.
Context {cb : CipBase}.

Definition bit_or_none (value : pyval) (bit : Z) (typ : string) : result pyval :=
  bits ← or_raise LookupError (BITS_PER_INT_TYPE typ);
  if bit <? bits then b ← py_and_bit value bit; mret (PBool b) else mret PNone.

(** ** Reply parsers *)

(** The [while idx < tags_returned_length] loop of
    [_parse_instance_attribute_list]; answers the last [instance] read. *)
Fixpoint instance_entries (fuel : nat) (tags_returned : bytes)
    (idx instance : Z) : M Z :=
  if idx <? len tags_returned then
    match fuel with
    | O => diverge
    | S k =>
        instance ← liftR (unpack_dint (slice idx (idx + 4) tags_returned));
        let idx := idx + 4 in
        tag_length ← liftR (unpack_uint (slice idx (idx + 2) tags_returned));
        let idx := idx + 2 in
        let tag_name := slice idx (idx + tag_length) tags_returned in
        let idx := idx + tag_length in
        symbol_type ← liftR (unpack_uint (slice idx (idx + 2) tags_returned));
        let idx := idx + 2 in
        tag_list_append (ISymbol (Symbol.mk instance tag_name symbol_type));;
        instance_entries k tags_returned idx instance
    end
  else mret instance.

(** [_parse_instance_attribute_list(start_tag_ptr, status)] *)
Definition _parse_instance_attribute_list (start_tag_ptr status : Z) : M unit :=
  reply ← reply_bytes;
  let tags_returned := slice_from start_tag_ptr reply in
  instance ← data_error_on_exception
    (instance_entries (length tags_returned) tags_returned 0 0);
  if status =? SUCCESS then modify (set_last_instance (-1))
  else if status =? 0x06 then modify (set_last_instance (instance + 1))
  else
    modify (set_status (1, "unknown status during _parse_tag_list"));;
    modify (set_last_instance (-1)).

(** One attribute of the structure makeup: [Some v] when its status word is
    [SUCCESS]. *)
Definition makeup_attribute (attribute : bytes) (idx : Z)
    (unpack : bytes -> result Z) (width : Z) : result (option Z) :=
  st ← unpack_uint (slice idx (idx + 2) attribute);
  if st =? SUCCESS then
    let idx := idx + 2 in
    v ← unpack (slice idx (idx + width) attribute); mret (Some v)
  else mret None.

(** [_parse_structure_makeup_attributes(start_tag_ptr, status)] *)
Definition _parse_structure_makeup_attributes (start_tag_ptr status : Z)
  : M unit :=
  modify (set_buffer (BufDict ∅));;
  if negb (status =? SUCCESS) then buffer_setitem "Error" (PInt status)
  else
    reply ← reply_bytes;
    let attribute := slice_from start_tag_ptr reply in
    let idx := 4 in
    data_error_on_exception (
      a ← liftR (makeup_attribute attribute idx unpack_dint 4);
      match a with
      | None => buffer_setitem "Error" (PStr "object_definition Error")
      | Some v =>
        buffer_setitem "object_definition_size" (PInt v);;
        let idx := idx + 2 + 6 in
        a ← liftR (makeup_attribute attribute idx unpack_dint 4);
        match a with
        | None => buffer_setitem "Error" (PStr "structure Error")
        | Some v =>
          buffer_setitem "structure_size" (PInt v);;
          let idx := idx + 2 + 6 in
          a ← liftR (makeup_attribute attribute idx unpack_uint 2);
          match a with
          | None => buffer_setitem "Error" (PStr "member_count Error")
          | Some v =>
            buffer_setitem "member_count" (PInt v);;
            let idx := idx + 2 + 4 in
            a ← liftR (makeup_attribute attribute idx unpack_uint 2);
            match a with
            | None => buffer_setitem "Error" (PStr "structure_handle Error")
            | Some v => buffer_setitem "structure_handle" (PInt v)
            end
          end
        end
      end).

(** [_parse_template(start_tag_ptr, status)] *)
Definition _parse_template (start_tag_ptr status : Z) : M unit :=
  reply ← reply_bytes;
  let tags_returned := slice_from start_tag_ptr reply in
  let bytes_received := len tags_returned in
  buffer_iadd tags_returned;;
  if status =? SUCCESS then modify (set_get_template_in_progress false)
  else if status =? 0x06 then
    off ← gets _byte_offset;
    modify (set_byte_offset (off + bytes_received))
  else
    modify (set_status
      (1, "unknown status " +:+ pretty status +:+ " during _parse_template"));;
    modify (set_last_instance (-1)).

(** The [while idx < fragment_returned_length] loop of [_parse_fragment]. *)
Fixpoint fragment_values (fuel : nat) (data_type : Z)
    (fragment_returned : bytes) (idx : Z) : M unit :=
  if idx <? len fragment_returned then
    match fuel with
    | O => diverge
    | S k =>
        raw ← gets _output_raw;
        '(value, idx) ← data_error_on_exception (
          typ ← lookup_or_raise (I_DATA_TYPE data_type);
          size ← lookup_or_raise (DATA_FUNCTION_SIZE typ);
          let chunk := slice idx (idx + Z.pos size) fragment_returned in
          value ← (if (raw : bool) then mret (PBytes chunk)
                   else unpack ← lookup_or_raise (UNPACK_DATA_FUNCTION typ);
                        liftR (unpack chunk));
          mret (value, idx + Z.pos size));
        (if (raw : bool) then
           match value with
           | PBytes b => tag_list_iadd b
           | _ => raise TypeError
           end
         else
           pos ← gets _last_position;
           tag_list_append (IValue pos value);;
           modify (set_last_position (pos + 1)));;
        fragment_values k data_type fragment_returned idx
    end
  else mret tt.

(** [_parse_fragment(start_ptr, status)] *)
Definition _parse_fragment (start_ptr status : Z) : M unit :=
  '(data_type, fragment_returned) ← data_error_on_exception (
    reply ← reply_bytes;
    data_type ← liftR (unpack_uint (slice start_ptr (start_ptr + 2) reply));
    mret (data_type, slice_from (start_ptr + 2) reply));
  let fragment_returned_length := len fragment_returned in
  fragment_values (length fragment_returned) data_type fragment_returned 0;;
  if status =? SUCCESS then modify (set_byte_offset (-1))
  else if status =? 0x06 then
    off ← gets _byte_offset;
    modify (set_byte_offset (off + fragment_returned_length))
  else
    name ← lookup_or_raise (SERVICE_STATUS status);
    reply ← reply_bytes;
    ext ← liftR (get_extended_status reply 48);
    modify (set_status (2, name +:+ ": " +:+ ext));;
    modify (set_byte_offset (-1)).

(** The rows of a multi read: [(name, value, type)]; an absent value or
    type is [PNone]. *)
Definition read_row : Type := string * pyval * pyval.

(** [for bit in tag_bits[tag]: ... tag_list.append((name, val, 'BOOL'))] *)
Fixpoint bit_rows (tag : string) (value : pyval) (typ : string)
    (bits : list Z) : result (list read_row) :=
  match bits with
  | [] => mret []
  | bit :: r =>
      let name := tag +:+ "." +:+ pretty bit in
      val ← bit_or_none value bit typ;
      rest ← bit_rows tag value typ r;
      mret ((name, val, PStr "BOOL") :: rest)
  end.

(** The [for index in range(number_of_service_replies)] loop of
    [_parse_multiple_request_read]; [n] counts the iterations left. *)
Fixpoint multi_read_replies (n : nat) (reply : bytes) (tags : list string)
    (tag_bits : gmap string (list Z)) (index position : Z)
    (tag_list : list read_row) : M (list read_row) :=
  match n with
  | O => mret tag_list
  | S k =>
      let position := position + 2 in
      off ← liftR (unpack_uint (slice position (position + 2) reply));
      let start := 50 + off in
      general_status ← liftR (unpack_usint (slice (start + 2) (start + 3) reply));
      tag ← lookup_or_raise (tags !! Z.to_nat index);
      rows ←
        (if general_status =? 0 then
           code ← liftR (unpack_uint (slice (start + 4) (start + 6) reply));
           typ ← lookup_or_raise (I_DATA_TYPE code);
           let value_begin := start + 6 in
           size ← lookup_or_raise (DATA_FUNCTION_SIZE typ);
           let value_end := value_begin + Z.pos size in
           unpack ← lookup_or_raise (UNPACK_DATA_FUNCTION typ);
           value ← liftR (unpack (slice value_begin value_end reply));
           match tag_bits !! tag with
           | Some bits => liftR (bit_rows tag value typ bits)
           | None =>
               modify (set_last_tag_read (Some (tag, value, PStr typ)));;
               mret [(tag, value, PStr typ)]
           end
         else
           modify (set_last_tag_read (Some (tag, PNone, PNone)));;
           mret [(tag, PNone, PNone)]);
      multi_read_replies k reply tags tag_bits (index + 1) position
        (tag_list ++ rows)
  end.

(** [_parse_multiple_request_read(tags, tag_bits)] *)
Definition _parse_multiple_request_read (tags : list string)
    (tag_bits : gmap string (list Z)) : M (list read_row) :=
  let offset := 50 in
  let position := 50 in
  data_error_on_exception (
    reply ← reply_bytes;
    number_of_service_replies ←
      liftR (unpack_uint (slice offset (offset + 2) reply));
    multi_read_replies (Z.to_nat number_of_service_replies) reply tags
      tag_bits 0 position []).

(** The rows of a multi write: the request tuple and ['GOOD'] or ['BAD']. *)
Definition write_row : Type := string * pyval * string * string.

Fixpoint multi_write_replies (n : nat) (reply : bytes)
    (tags : list (string * pyval * string)) (index position : Z)
    (tag_list : list write_row) : M (list write_row) :=
  match n with
  | O => mret tag_list
  | S k =>
      let position := position + 2 in
      off ← liftR (unpack_uint (slice position (position + 2) reply));
      let start := 50 + off in
      general_status ← liftR (unpack_usint (slice (start + 2) (start + 3) reply));
      t ← lookup_or_raise (tags !! Z.to_nat index);
      let row := (t, if general_status =? 0 then "GOOD" else "BAD") in
      modify (set_last_tag_write (Some row));;
      multi_write_replies k reply tags (index + 1) position (tag_list ++ [row])
  end.

(** [_parse_multiple_request_write(tags)] *)
Definition _parse_multiple_request_write
    (tags : list (string * pyval * string)) : M (list write_row) :=
  let offset := 50 in
  let position := 50 in
  data_error_on_exception (
    reply ← reply_bytes;
    number_of_service_replies ←
      liftR (unpack_uint (slice offset (offset + 2) reply));
    multi_write_replies (Z.to_nat number_of_service_replies) reply tags 0
      position []).

(** ** The reply dispatcher *)

(** The [send_unit_data] branch of [_check_reply]. *)
Definition check_unit_data_reply (reply : bytes) : M bool :=
  status ← liftR (unpack_usint (slice 48 49 reply));
  service ← liftR (unpack_usint (slice 46 47 reply));
  in_progress ← gets _get_template_in_progress;
  if service =? I_TAG_SERVICES_REPLY "Read Tag Fragmented" then
    _parse_fragment 50 status;; mret true
  else if service =? I_TAG_SERVICES_REPLY "Get Instance Attributes List" then
    _parse_instance_attribute_list 50 status;; mret true
  else if service =? I_TAG_SERVICES_REPLY "Get Attributes" then
    _parse_structure_makeup_attributes 50 status;; mret true
  else if (service =? I_TAG_SERVICES_REPLY "Read Template")
          && (in_progress : bool) then
    _parse_template 50 status;; mret true
  else if status =? 0x06 then
    modify (set_status (3, "Insufficient Packet Space"));;
    modify (set_more_packets_available true);;
    mret true
  else if negb (status =? SUCCESS) then
    name ← lookup_or_raise (SERVICE_STATUS status);
    ext ← liftR (get_extended_status reply 48);
    modify (set_status
      (3, "send_unit_data reply:" +:+ name +:+ " - Extend status:" +:+ ext));;
    mret false
  else mret true.

(** [_check_reply()] *)
Definition _check_reply : M bool :=
  modify (set_more_packets_available false);;
  data_error_on_exception (
    r ← gets _reply;
    match r with
    | None =>
        message ← gets _message;
        cmd ← liftR (unpack_dint (slice 0 2 message));
        name ← lookup_or_raise (REPLAY_INFO cmd);
        modify (set_status (3, name +:+ " without reply"));;
        mret false
    | Some reply =>
        typ ← liftR (unpack_uint (slice 0 2 reply));
        enc ← liftR (unpack_dint (slice 8 12 reply));
        if negb (enc =? SUCCESS) then
          name ← lookup_or_raise (REPLAY_INFO typ);
          st ← lookup_or_raise (SERVICE_STATUS enc);
          modify (set_status (3, name +:+ " reply status:" +:+ st));;
          mret false
        else
          rr ← liftR (unpack_uint (ENCAPSULATION_COMMAND "send_rr_data"));
          if typ =? rr then
            status ← liftR (unpack_usint (slice 42 43 reply));
            if negb (status =? SUCCESS) then
              name ← lookup_or_raise (SERVICE_STATUS status);
              ext ← liftR (get_extended_status reply 42);
              modify (set_status
                (3, "send_rr_data reply:" +:+ name +:+ " - Extend status:" +:+ ext));;
              mret false
            else mret true
          else
            ud ← liftR (unpack_uint (ENCAPSULATION_COMMAND "send_unit_data"));
            if typ =? ud then check_unit_data_reply reply
            else mret true
    end).

(** ** The transport of the base class *)

(** Modelled from the spec: [Base.clear], "[_status] is cleared at the start
    of every public call". *)
Definition clear : M unit := modify (set_status (0, "")).

(** Modelled from the spec: [Base.forward_open], "opens a connected session;
    on success sets [target_is_connected] and populates [target_cid]".  The
    controller's answer is the next entry of [open_script]. *)
Definition forward_open : M bool :=
  s ← gets open_script;
  match s with
  | Some cid :: r =>
      modify (set_open_script r);;
      modify (set_target_cid cid);;
      modify (set_target_is_connected true);;
      mret true
  | None :: r => modify (set_open_script r);; mret false
  | [] => mret false
  end.

(** Modelled from the spec: [Base._get_sequence], the per-session
    counter. *)
Definition _get_sequence : M Z :=
  s ← gets _sequence;
  let s' := next_sequence s in
  modify (set_sequence s');;
  mret s'.

(** Modelled from the spec: [Base.send_unit_data], "ships a Common Packet
    Format frame containing the CIP message; returns the raw reply or
    [None]": the frame is sent under an encapsulation header, the next reply
    is received into [_reply] and dispatched by [_check_reply]. *)
Definition send_unit_data (message : bytes) : M (option bytes) :=
  let frame : bytes :=
    build_header (ENCAPSULATION_COMMAND "send_unit_data") (len message)
      ++ message in
  modify (set_message frame);;
  modify (fun d => set_wire_out (wire_out d ++ [frame]) d);;
  w ← gets wire_in;
  match w with
  | r :: rest => modify (set_wire_in rest);; modify (set_reply r)
  | [] => modify (set_reply None)
  end;;
  ok ← _check_reply;
  if (ok : bool) then gets _reply else mret None.

(** The session gate every operation starts with: [if not
    self._target_is_connected: if not self.forward_open(): ... raise
    DataError]. *)
Definition ensure_connected (code : Z) (text : string) : M unit :=
  c ← gets _target_is_connected;
  if (c : bool) then mret tt
  else
    ok ← forward_open;
    if (ok : bool) then mret tt
    else modify (set_status (code, text));; raise DataError.

(** [send_unit_data(build_common_packet_format(DATA_ITEM['Connected'],
    b''.join(message_request), ADDRESS_ITEM['Connection Based'],
    addr_data=self._target_cid))] *)
Definition send_connected (message_request : list bytes) : M (option bytes) :=
  cid ← gets _target_cid;
  send_unit_data
    (build_common_packet_format (DATA_ITEM "Connected")
       (concat message_request) (ADDRESS_ITEM "Connection Based") cid).

(** ** String helpers *)

(** [needle in hay] *)
Fixpoint contains (needle hay : string) : bool :=
  String.prefix needle hay
  || match hay with
     | EmptyString => false
     | String _ r => contains needle r
     end.

(** [s.endswith(c)] for a one-character [c] *)
Fixpoint endswith (s : string) (c : ascii) : bool :=
  match s with
  | EmptyString => false
  | String x EmptyString => Ascii.eqb x c
  | String _ r => endswith r c
  end.

(** [s[:-1]] *)
Fixpoint drop_last (s : string) : string :=
  match s with
  | EmptyString => EmptyString
  | String _ EmptyString => EmptyString
  | String x r => String x (drop_last r)
  end.

(** [s.rsplit(sep, maxsplit=1)] when it has two parts: the text before and
    after the last [sep]; [None] when [sep] does not occur (the list then
    has one element and unpacking it into two names raises). *)
Fixpoint rsplit1 (sep : ascii) (s : string) : option (string * string) :=
  match s with
  | EmptyString => None
  | String c r =>
      match rsplit1 sep r with
      | Some (a, b) => Some (String c a, b)
      | None => if Ascii.eqb c sep then Some (EmptyString, r) else None
      end
  end.

(** ** Tag names carrying a bit *)

(** [_prep_bools(tag, typ, bits_only)] *)
Definition _prep_bools (tag typ : string) (bits_only : bool)
  : string * option Z :=
  if negb (String.eqb typ "BOOL") then (tag, None)
  else if negb bits_only && endswith tag "]" then
    match rsplit1 "[" (drop_last tag) with
    | Some (base, idx) =>
        match py_int idx with
        | Some idx => (base +:+ "[" +:+ pretty (idx / 32) +:+ "]", Some idx)
        | None => (tag, None)
        end
    | None => (tag, None)
    end
  else
    match rsplit1 "." tag with
    | Some (base, bit) =>
        match py_int bit with
        | Some bit => (base, Some bit)
        | None => (tag, None)
        end
    | None => (tag, None)
    end.

(** [_dword_to_boolarray(tag, bit)] *)
Definition _dword_to_boolarray (tag : string) (bit : Z) : result string :=
  '(base, tmp) ← or_raise ValueError (rsplit1 "[" tag);
  i ← or_raise ValueError (py_int (drop_last tmp));
  mret (base +:+ "[" +:+ pretty (i * 32 + bit) +:+ "]").

(** ** Reading *)

(** The argument of [read_tag]: a tag name, or a list of names. *)
Inductive tag_arg : Type :=
| OneTag (tag : string)
| TagList (tags : list string).

(** What [read_tag] returns: [None], [(value, typ)], or the rows of a multi
    read. *)
Inductive read_result : Type :=
| ReadNone
| ReadValue (value : pyval) (typ : string)
| ReadRows (rows : list read_row).

(** The [for t in tag] loop of [read_tag]; [tag] is the whole argument, which
    the status text quotes. *)
Fixpoint read_tag_requests (ts tag : list string)
    (tag_bits : gmap string (list Z)) (tags_read : list string)
    (rp_list : list bytes)
  : M (gmap string (list Z) * list string * list bytes) :=
  match ts with
  | [] => mret (tag_bits, tags_read, rp_list)
  | t :: rest =>
      let '(t, bit) := _prep_bools t "BOOL" true in
      let read :=
        match bit with
        | None => true
        | Some _ => negb (bool_decide (is_Some (tag_bits !! t)))
        end in
      let tag_bits :=
        match bit with
        | Some b => <[t := default [] (tag_bits !! t) ++ [b]]> tag_bits
        | None => tag_bits
        end in
      if read then
        let tags_read := tags_read ++ [t] in
        match create_tag_rp t true with
        | None =>
            modify (set_status (6, "Cannot create tag " +:+ str_tags tag
              +:+ " request packet. read_tag will not be executed."));;
            raise DataError
        | Some rp =>
            let service : bytes := [TAG_SERVICES_REQUEST "Read Tag"] in
            one ← liftR (pack_uint 1);
            read_tag_requests rest tag tag_bits tags_read
              (rp_list ++ [service ++ rp ++ one])
        end
      else read_tag_requests rest tag tag_bits tags_read rp_list
  end.

(** The end of [read_tag] for one tag ("Get the data type"): the value of
    the reply, or the bit of it the tag names. *)
Definition read_tag_value (bit : option Z) : M read_result :=
  st ← gets _status;
  if fst st =? SUCCESS then
    reply ← reply_bytes;
    data_type ← liftR (unpack_uint (slice 50 52 reply));
    typ ← lookup_or_raise (I_DATA_TYPE data_type);
    data_error_on_exception (
      unpack ← lookup_or_raise (UNPACK_DATA_FUNCTION typ);
      value ← liftR (unpack (slice_from 52 reply));
      value ←
        match bit with
        | Some bit => liftR (bit_or_none value bit typ)
        | None => mret value
        end;
      mret (ReadValue value typ))
  else mret ReadNone.

(** [read_tag(tag)] *)
Definition read_tag (tag : tag_arg) : M read_result :=
  clear;;
  ensure_connected 6 "Target did not connected. read_tag will not be executed.";;
  match tag with
  | TagList ts =>
      '(tag_bits, tags_read, rp_list) ← read_tag_requests ts ts ∅ [] [];
      seq ← _get_sequence;
      let message_request := build_multiple_service rp_list seq in
      r ← send_connected message_request;
      match r with
      | None => raise DataError
      | Some _ =>
          rows ← _parse_multiple_request_read tags_read tag_bits;
          mret (ReadRows rows)
      end
  | OneTag tag =>
      let '(tag, bit) := _prep_bools tag "BOOL" true in
      match create_tag_rp tag false with
      | None =>
          modify (set_status (6, "Cannot create tag " +:+ tag
            +:+ " request packet. read_tag will not be executed."));;
          mret ReadNone
      | Some rp =>
          seq ← _get_sequence;
          s ← liftR (pack_uint seq);
          let service : bytes := [TAG_SERVICES_REQUEST "Read Tag"] in
          size ← liftR (bytes_of_int (len rp / 2));
          one ← liftR (pack_uint 1);
          let message_request := [s; service; size; rp; one] in
          r ← send_connected message_request;
          match r with
          | None => raise DataError
          | Some _ => read_tag_value bit
          end
      end
  end.

(** [pack_uint(counts)] for an object: only integers pack. *)
Definition pack_uint_val (v : pyval) : result bytes :=
  match v with
  | PInt z => pack_uint z
  | PBool b => pack_uint (if b then 1 else 0)
  | _ => inl StructError
  end.

(** The body of the [while self._byte_offset != -1] loop of [read_array];
    [Some None] is [return None]. *)
Definition read_array_step (tag : string) (counts : pyval)
  : M (option (option tag_list)) :=
  match create_tag_rp tag false with
  | None =>
      modify (set_status (7, "Cannot create tag " +:+ tag
        +:+ " request packet. read_tag will not be executed."));;
      mret (Some None)
  | Some rp =>
      seq ← _get_sequence;
      s ← liftR (pack_uint seq);
      let service : bytes := [TAG_SERVICES_REQUEST "Read Tag Fragmented"] in
      size ← liftR (bytes_of_int (len rp / 2));
      c ← liftR (pack_uint_val counts);
      off ← gets _byte_offset;
      o ← liftR (pack_dint off);
      let message_request := [s; service; size; rp; c; o] in
      r ← send_connected message_request;
      match r with
      | None => raise DataError
      | Some _ => mret None
      end
  end.

(** The guard of that loop. *)
Definition fragments_pending (d : Driver) : bool :=
  negb (_byte_offset d =? -1).

(** [read_array(tag, counts, raw)].  Every turn of the loop takes one reply
    off the wire and stops when there is none, so the replies still to come
    bound the number of turns. *)
Definition read_array (tag : string) (counts : pyval) (raw : bool)
  : M (option tag_list) :=
  clear;;
  ensure_connected 7 "Target did not connected. read_tag will not be executed.";;
  modify (set_byte_offset 0);;
  modify (set_last_position 0);;
  modify (set_output_raw raw);;
  modify (set_tag_list (if raw then TLStr "" else TLList []));;
  fuel ← gets (fun d => S (length (wire_in d)));
  r ← while_loop fuel fragments_pending (read_array_step tag counts);
  match r with
  | Some v => mret v
  | None => t ← gets _tag_list; mret (Some t)
  end.

(** ** Writing *)

(** A write request: [(name, value, typ)]. *)
Definition write_tuple : Type := string * pyval * string.

(** The [try] block of [_write_tag_multi_write]: the framed sub-request and
    the name the tuple is reported under. *)
Definition frame_write (name : string) (bit : option Z) (value : pyval)
    (typ : string) (rp : bytes) : result (bytes * string) :=
  match bit with
  | Some bit =>
      rp ← or_raise TypeError (create_tag_rp name true);
      let service : bytes := [TAG_SERVICES_REQUEST "Read Modify Write Tag"] in
      let request := service ++ rp in
      data ← _make_write_bit_data bit value (contains "[" name);
      let request := request ++ concat data in
      name ←
        (if String.eqb typ "BOOL" && contains "[" name
         then _dword_to_boolarray name bit
         else mret (name +:+ "." +:+ pretty bit));
      mret (request, name)
  | None =>
      let service : bytes := [TAG_SERVICES_REQUEST "Write Tag"] in
      code ← or_raise LookupError (S_DATA_TYPE typ);
      t ← pack_uint code;
      pack ← or_raise LookupError (PACK_DATA_FUNCTION typ);
      v ← pack value;
      mret (service ++ rp ++ t ++ [Byte.x01; Byte.x00] ++ v, name)
  end.

(** The [for name, value, typ in tags] loop of [_write_tag_multi_write];
    [None] is its [return None]. *)
Fixpoint multi_write_requests (ts tags : list write_tuple)
    (rp_list : list bytes) (tags_added : list write_tuple)
  : M (option (list bytes * list write_tuple)) :=
  match ts with
  | [] => mret (Some (rp_list, tags_added))
  | (name, value, typ) :: rest =>
      let '(name, bit) := _prep_bools name typ false in
      match create_tag_rp name true with
      | None =>
          modify (set_status (8, "Cannot create tag" +:+ str_writes tags
            +:+ " req. packet. write_tag will not be executed"));;
          mret None
      | Some rp =>
          match frame_write name bit value typ rp with
          | inr (request, name) =>
              multi_write_requests rest tags (rp_list ++ [request])
                (tags_added ++ [(name, value, typ)])
          | inl e =>
              if bool_decide (e = LookupError ∨ e = StructError) then
                modify (set_status (8, "Tag:" +:+ name +:+ " type:" +:+ typ
                  +:+ " removed from write list. Error:" +:+ str_exn e +:+ "."));;
                multi_write_requests rest tags rp_list tags_added
              else raise e
          end
      end
  end.

(** [_write_tag_multi_write(tags)] *)
Definition _write_tag_multi_write (tags : list write_tuple)
  : M (option (list bytes * list write_tuple)) :=
  r ← multi_write_requests tags tags [] [];
  match r with
  | None => mret None
  | Some (rp_list, tags_added) =>
      seq ← _get_sequence;
      let message_request := build_multiple_service rp_list seq in
      mret (Some (message_request, tags_added))
  end.

(** [_write_tag_single_write(tag, value, typ)] *)
Definition _write_tag_single_write (tag : string) (value : pyval)
    (typ : string) : M (option (list bytes)) :=
  let '(name, bit) := _prep_bools tag typ false in
  match create_tag_rp name false with
  | None =>
      modify (set_status (8, "Cannot create tag " +:+ tag
        +:+ " request packet. write_tag will not be executed."));;
      mret None
  | Some rp =>
      seq ← _get_sequence;
      s ← liftR (pack_uint seq);
      let service : bytes :=
        [match bit with
         | Some _ => TAG_SERVICES_REQUEST "Read Modify Write Tag"
         | None => TAG_SERVICES_REQUEST "Write Tag"
         end] in
      size ← liftR (bytes_of_int (len rp / 2));
      let message_request := [s; service; size; rp] in
      match bit with
      | Some bit =>
          data ← data_error_on_exception
            (liftR (_make_write_bit_data bit value (contains "[" name)));
          mret (Some (message_request ++ data))
      | None =>
          code ← lookup_or_raise (S_DATA_TYPE typ);
          t ← liftR (pack_uint code);
          one ← liftR (pack_uint 1);
          pack ← lookup_or_raise (PACK_DATA_FUNCTION typ);
          v ← liftR (pack value);
          mret (Some (message_request ++ [t; one; v]))
      end
  end.

(** The argument of [write_tag]: one tag with its value and type, or a list
    of tuples. *)
Inductive write_arg : Type :=
| WriteOne (tag : string) (value : pyval) (typ : string)
| WriteMany (tags : list write_tuple).

(** What [write_tag] returns: the reply, or the rows of a multi write. *)
Inductive write_result : Type :=
| WroteReply (reply : bytes)
| WroteRows (rows : list write_row).

(** [write_tag(tag, value, typ)].  Unpacking the [None] that
    [_write_tag_multi_write] returns, and joining the [None] that
    [_write_tag_single_write] returns, are [TypeError]s. *)
Definition write_tag (arg : write_arg) : M write_result :=
  clear;;
  ensure_connected 8 "Target did not connected. write_tag will not be executed.";;
  match arg with
  | WriteMany tags =>
      r ← _write_tag_multi_write tags;
      match r with
      | None => raise TypeError
      | Some (message_request, tag) =>
          send_connected message_request;;
          rows ← _parse_multiple_request_write tag;
          mret (WroteRows rows)
      end
  | WriteOne name value typ =>
      r ← _write_tag_single_write name value typ;
      match r with
      | None => raise TypeError
      | Some message_request =>
          ret_val ← send_connected message_request;
          match ret_val with
          | None => raise DataError
          | Some reply => mret (WroteReply reply)
          end
      end
  end.

(** ** Symbol enumeration *)

(** The body of the [while self._last_instance != -1] loop of
    [_get_instance_attribute_list_service]; it answers the (re-assigned)
    [program]. *)
Definition instance_list_request (program : option string)
  : M (option string) :=
  let program :=
    match program with
    | Some p => if negb (String.prefix "Program:" p)
                then Some ("Program:" +:+ p) else Some p
    | None => None
    end in
  path ←
    match program with
    | Some p =>
        if negb (String.length p =? 0)%nat then
          n ← liftR (pack_usint (Z.of_nat (String.length p)));
          mret ([EXTENDED_SYMBOL; n; py_encode p]
                ++ (if Z.of_nat (String.length p) mod 2 =? 0 then []
                    else [[Byte.x00]]))
        else mret []
    | None => mret []
    end;
  last ← gets _last_instance;
  inst ← liftR (pack_uint last);
  let path := path ++ [CLASS_ID "8-bit"; CLASS_CODE "Symbol Object";
                       INSTANCE_ID "16-bit"; [Byte.x00]; inst] in
  let path := concat path in
  path_size ← liftR (pack_usint (len path / 2));
  seq ← _get_sequence;
  s ← liftR (pack_uint seq);
  let service : bytes := [TAG_SERVICES_REQUEST "Get Instance Attributes List"] in
  two ← liftR (pack_uint 2);
  one ← liftR (pack_uint 1);
  let message_request := [s; service; path_size; path; two; one; two] in
  r ← send_connected message_request;
  match r with
  | None => raise DataError
  | Some _ => mret program
  end.

(** The loop itself; the guard is [self._last_instance != -1]. *)
Fixpoint instance_list_loop (fuel : nat) (program : option string) : M unit :=
  last ← gets _last_instance;
  if negb (last =? -1) then
    match fuel with
    | O => diverge
    | S k =>
        program ← instance_list_request program;
        instance_list_loop k program
    end
  else mret tt.

(** [_get_instance_attribute_list_service(program)] *)
Definition _get_instance_attribute_list_service (program : option string)
  : M unit :=
  data_error_on_exception (
    ensure_connected 10
      "Target did not connected. get_tag_list will not be executed.";;
    modify (set_last_instance 0);;
    modify (set_get_template_in_progress true);;
    fuel ← gets (fun d => S (length (wire_in d)));
    instance_list_loop fuel program;;
    modify (set_get_template_in_progress false)).

(** ** Templates *)

(** The request both template services start with: sequence, service, path
    to the Template Object instance. *)
Definition template_request (service_name : string) (instance_id : Z)
  : M (list bytes) :=
  seq ← _get_sequence;
  s ← liftR (pack_uint seq);
  let service : bytes := [TAG_SERVICES_REQUEST service_name] in
  three ← liftR (bytes_of_int 3);
  inst ← liftR (pack_uint instance_id);
  mret [s; service; three; CLASS_ID "8-bit"; CLASS_CODE "Template Object";
        INSTANCE_ID "16-bit"; [Byte.x00]; inst].

(** [_get_structure_makeup(instance_id)] *)
Definition _get_structure_makeup (instance_id : Z) : M buffer :=
  cache ← gets _struct_cache;
  match cache !! instance_id with
  | Some _ => mret tt
  | None =>
      ensure_connected 10
        "Target did not connected. get_tag_list will not be executed.";;
      head ← template_request "Get Attributes" instance_id;
      n4 ← liftR (pack_uint 4);
      n5 ← liftR (pack_uint 5);
      n2 ← liftR (pack_uint 2);
      n1 ← liftR (pack_uint 1);
      let message_request := head ++ [n4; n4; n5; n2; n1] in
      r ← send_connected message_request;
      match r with
      | None => raise DataError
      | Some _ =>
          b ← gets _buffer;
          modify (fun d => set_struct_cache (<[instance_id := b]> (_struct_cache d)) d)
      end
  end;;
  cache ← gets _struct_cache;
  lookup_or_raise (cache !! instance_id).

(** The body of the [while self._get_template_in_progress] loop of
    [_read_template]. *)
Definition read_template_step (instance_id object_definition_size : Z)
  : M (option unit) :=
  head ← template_request "Read Template" instance_id;
  off ← gets _byte_offset;
  o ← liftR (pack_dint off);
  n ← liftR (pack_uint (object_definition_size * 4 - 21 - off));
  let message_request := head ++ [o; n] in
  r ← send_connected message_request;
  match r with
  | Some (_ :: _) => mret None
  | _ => raise DataError
  end.

(** [_read_template(instance_id, object_definition_size)] *)
Definition _read_template (instance_id object_definition_size : Z)
  : M buffer :=
  ensure_connected 10
    "Target did not connected. get_tag_list will not be executed.";;
  cache ← gets _template_cache;
  match cache !! instance_id with
  | Some _ => mret tt
  | None =>
      modify (set_byte_offset 0);;
      modify (set_buffer (BufBytes []));;
      modify (set_get_template_in_progress true);;
      data_error_on_exception (
        fuel ← gets (fun d => S (length (wire_in d)));
        while_loop fuel _get_template_in_progress
          (read_template_step instance_id object_definition_size);;
        modify (set_get_template_in_progress false);;
        b ← gets _buffer;
        modify (fun d => set_template_cache (<[instance_id := b]> (_template_cache d)) d))
  end;;
  cache ← gets _template_cache;
  lookup_or_raise (cache !! instance_id).

(** ** Isolating the user tags *)

(** The body of the [for tag in lst] loop of [_isolating_user_tag] for one
    symbol entry. *)
Definition isolate_symbol (tag : Symbol.t) : M unit :=
  tag_name ← liftR (or_raise UnicodeError (py_decode (Symbol.tag_name tag)));
  let symbol_type := Symbol.symbol_type tag in
  if contains "Program:" tag_name then
    modify (fun d => set_program_names (_program_names d ++ [tag_name]) d)
  else if contains ":" tag_name || contains "__" tag_name then mret tt
  else if negb (Z.land symbol_type 0x1000 =? 0) then mret tt
  else
    let dimension := Z.shiftr (Z.land symbol_type 0x6000) 13 in
    if negb (Z.land symbol_type 0x8000 =? 0) then
      let template_instance_id := Z.land symbol_type 0x0FFF in
      tag_list_append (ITag
        {| Tag.instance_id := Symbol.instance_id tag;
           Tag.template_instance_id := Some template_instance_id;
           Tag.tag_name := tag_name;
           Tag.dim := dimension;
           Tag.tag_type := "struct";
           Tag.data_type := "user-created";
           Tag.bit_position := None;
           Tag.template := Some ∅;
           Tag.udt := Some ∅ |})
    else
      let datatype := Z.land symbol_type 0x00FF in
      data_type ← lookup_or_raise (I_DATA_TYPE datatype);
      bool_code ← lookup_or_raise (S_DATA_TYPE "BOOL");
      let bit_position :=
        if datatype =? bool_code
        then Some (Z.shiftr (Z.land symbol_type 0x0700) 8) else None in
      tag_list_append (ITag
        {| Tag.instance_id := Symbol.instance_id tag;
           Tag.template_instance_id := None;
           Tag.tag_name := tag_name;
           Tag.dim := dimension;
           Tag.tag_type := "atomic";
           Tag.data_type := data_type;
           Tag.bit_position := bit_position;
           Tag.template := None;
           Tag.udt := None |}).

(** One turn of the loop: anything but a symbol entry cannot be indexed
    with ['tag_name'] and decoded. *)
Definition isolate_item (x : item) : M (option unit) :=
  match x with
  | ISymbol tag => isolate_symbol tag;; mret None
  | ITag _ => raise AttributeError
  | IValue _ _ | IInt _ => raise TypeError
  end.

(** [_isolating_user_tag()] *)
Definition _isolating_user_tag : M unit :=
  data_error_on_exception (
    lst ← gets _tag_list;
    modify (set_tag_list (TLList []));;
    match lst with
    | TLList l => for_each l isolate_item;; mret tt
    | TLStr EmptyString => mret tt
    | TLStr (String _ _) => raise TypeError
    end).

(** ** Strings *)

(** [chr(i)] *)
Definition py_chr (i : Z) : result Z :=
  if (0 <=? i) && (i <? 0x110000) then inr i else inl ValueError.

(** [chr(v + 256) if v < 0 else chr(v)] *)
Definition char_of_value (v : pyval) : result Z :=
  match v with
  | PInt z => if z <? 0 then py_chr (z + 256) else py_chr z
  | PBool b => py_chr (if b then 1 else 0)
  | _ => inl TypeError
  end.

(** [_, values = zip( *values )]: the second components of a list of pairs.
    A list that holds anything else makes the unpacking or the comparison
    that follows raise. *)
Fixpoint second_components (l : list item) : result (list pyval) :=
  match l with
  | [] => mret []
  | IValue _ v :: r => vs ← second_components r; mret (v :: vs)
  | _ :: _ => inl TypeError
  end.

(** [[chr(v + 256) if v < 0 else chr(v) for v in values]] *)
Fixpoint chars_of_values (values : list pyval) : result unicode :=
  match values with
  | [] => mret []
  | v :: r => c ← char_of_value v; cs ← chars_of_values r; mret (c :: cs)
  end.

(** [''.join(ch for ch in chars if ch != '\x00')] *)
Definition join_non_nul (chars : unicode) : unicode :=
  filter (fun ch => ch ≠ 0) chars.

(** The first lines of [read_string]: the length, read from the [LEN]
    member unless the caller gave it ([length, _ = tmp or (None, None)]). *)
Definition string_length (tag : string) (str_len : option pyval) : M pyval :=
  match str_len with
  | None =>
      let len_tag := tag +:+ ".LEN" in
      tmp ← read_tag (OneTag len_tag);
      match tmp with
      | ReadValue v _ => mret v
      | ReadNone => mret PNone
      | ReadRows [] => mret PNone
      | ReadRows _ => raise ValueError
      end
  | Some n => mret n
  end.

(** [read_string(tag, str_len)] *)
Definition read_string (tag : string) (str_len : option pyval)
  : M (option unicode) :=
  let data_tag := tag +:+ ".DATA" in
  length ← string_length tag str_len;
  if truthy length then
    values ← read_array data_tag length false;
    match values with
    | Some (TLList (x :: l)) =>
        values ← liftR (second_components (x :: l));
        chars ← liftR (chars_of_values values);
        mret (Some (join_non_nul chars))
    | Some (TLStr (String _ _)) => raise TypeError
    | _ => mret None
    end
  else mret None.

(** ** The last tag of a multi request *)

(** [get_last_tag_read()] *)
Definition get_last_tag_read : M (option (string * pyval * pyval)) :=
  gets _last_tag_read.

(** [get_last_tag_write()] *)
Definition get_last_tag_write : M (option write_row) :=
  gets _last_tag_write.

(** ** Writing arrays and strings *)

(** The [values] argument of [write_array]: a list, or any other object. *)
Inductive array_arg : Type :=
| ArrayList (values : list pyval)
| NotAList (v : pyval).

(** The [for i, value in enumerate(values)] loop of [write_array]; [n] is
    [len(values)], [Some tt] is its [return None]. *)
Fixpoint write_array_values (tag data_type : string) (raw : bool) (n : Z)
    (values : list pyval) (i : Z) (array_of_values : bytes)
    (byte_size byte_offset : Z) : M (option unit) :=
  match values with
  | [] => mret None
  | value :: rest =>
      chunk ←
        (if raw then
           match value with
           | PBytes b => mret b
           | _ => raise TypeError
           end
         else
           pack ← lookup_or_raise (PACK_DATA_FUNCTION data_type);
           liftR (pack value));
      let array_of_values := array_of_values ++ chunk in
      size ← lookup_or_raise (DATA_FUNCTION_SIZE data_type);
      let byte_size := byte_size + Z.pos size in
      if (450 <=? byte_size) || (i =? n - 1) then
        match create_tag_rp tag false with
        | None =>
            modify (set_status (9, "Cannot create tag " +:+ tag
              +:+ " request packet.                         write_array will not be executed."));;
            mret (Some tt)
        | Some rp =>
            seq ← _get_sequence;
            s ← liftR (pack_uint seq);
            let service : bytes := [TAG_SERVICES_REQUEST "Write Tag Fragmented"] in
            path_size ← liftR (bytes_of_int (len rp / 2));
            code ← lookup_or_raise (S_DATA_TYPE data_type);
            t ← liftR (pack_uint code);
            c ← liftR (pack_uint n);
            o ← liftR (pack_dint byte_offset);
            let message_request :=
              [s; service; path_size; rp; t; c; o; array_of_values] in
            let byte_offset := byte_offset + byte_size in
            r ← send_connected message_request;
            match r with
            | None => raise DataError
            | Some _ =>
                write_array_values tag data_type raw n rest (i + 1) [] 0
                  byte_offset
            end
        end
      else
        write_array_values tag data_type raw n rest (i + 1) array_of_values
          byte_size byte_offset
  end.

(** [write_array(tag, values, data_type, raw)]; it has no [return] with a
    value. *)
Definition write_array (tag : string) (values : array_arg)
    (data_type : string) (raw : bool) : M unit :=
  clear;;
  match values with
  | NotAList _ =>
      modify (set_status (9, "A list of tags must be passed to write_array."));;
      raise DataError
  | ArrayList values =>
      ensure_connected 9
        "Target did not connected. write_array will not be executed.";;
      write_array_values tag data_type raw (len values) values 0 [] 0 0;;
      mret tt
  end.

(** The [for idx, val in enumerate(value)] loop of [write_string]:
    [data_to_send[idx] = unsigned - 256 if unsigned > 127 else unsigned],
    left at the first index the list does not have ([IndexError]:
    [break]). *)
Fixpoint string_data (value : unicode) (idx : nat) (data_to_send : list Z)
  : list Z :=
  match value with
  | [] => data_to_send
  | val :: rest =>
      let unsigned := val in
      if bool_decide (idx < length data_to_send)%nat then
        string_data rest (S idx)
          (<[idx := if 127 <? unsigned then unsigned - 256 else unsigned]>
             data_to_send)
      else data_to_send
  end.

(** [write_string(tag, value, size)] *)
Definition write_string (tag : string) (value : unicode) (size : Z) : M unit :=
  let data_tag := tag +:+ "." +:+ "DATA" in
  let len_tag := tag +:+ "." +:+ "LEN" in
  let data_to_send := string_data value 0 (replicate (Z.to_nat size) 0) in
  let str_len := len value in
  let str_len := if size <? str_len then size else str_len in
  write_tag (WriteOne len_tag (PInt str_len) "DINT");;
  write_array data_tag (ArrayList (map PInt data_to_send)) "SINT" false.

End Driver.

(** ** A controller for the worked examples *)

Module Logix.

(** [bytes] written as a list of integers. *)
Definition B (l : list Z) : bytes := map byte_of_Z l.

(** A signed little-endian integer of [n] bytes. *)
Definition unpack_signed (n : nat) (st : bytes) : result pyval :=
  u ← unpack_unsigned n st;
  mret (PInt (if u <? 2 ^ (8 * Z.of_nat n - 1) then u
              else u - 2 ^ (8 * Z.of_nat n))).

Definition pack_signed (n : nat) (v : pyval) : result bytes :=
  match v with
  | PInt z =>
      if (- 2 ^ (8 * Z.of_nat n - 1) <=? z) && (z <? 2 ^ (8 * Z.of_nat n - 1))
      then inr (le_encode n (z mod 2 ^ (8 * Z.of_nat n)))
      else inl StructError
  | _ => inl StructError
  end.

Definition type_codes : list (Z * string) :=
  [(0xC1, "BOOL"); (0xC2, "SINT"); (0xC3, "INT"); (0xC4, "DINT")].

Definition type_sizes : list (string * nat) :=
  [("BOOL", 1%nat); ("SINT", 1%nat); ("INT", 2%nat); ("DINT", 4%nat)].

Definition service_codes : list (string * Z) :=
  [("Read Tag", 0x4C); ("Read Tag Fragmented", 0x52); ("Write Tag", 0x4D);
   ("Write Tag Fragmented", 0x53); ("Read Modify Write Tag", 0x4E);
   ("Get Instance Attributes List", 0x55); ("Get Attributes", 0x03);
   ("Read Template", 0x4B); ("Multiple Service Packet", 0x0A)].

Fixpoint assoc (k : string) (l : list (string * Z)) : option Z :=
  match l with
  | [] => None
  | (k', v) :: r => if String.eqb k k' then Some v else assoc k r
  end.

Definition type_of_code (c : Z) : option string :=
  snd <$> List.find (fun p => fst p =? c) type_codes.

Definition code_of_type (t : string) : option Z :=
  fst <$> List.find (fun p => String.eqb (snd p) t) type_codes.

Definition size_of_type (t : string) : option nat :=
  snd <$> List.find (fun p => String.eqb (fst p) t) type_sizes.

(** One symbolic segment [0x91 <len> <ascii> [pad]]; a name that is empty or
    holds a blank cannot be tokenised.  With [multi_requests] the path size
    in words comes first. *)
Definition tag_rp (tag : string) (multi_requests : bool) : option bytes :=
  if (String.length tag =? 0)%nat || contains " " tag then None
  else
    let name := list_byte_of_string tag in
    let pad := if (Nat.even (length name)) then [] else [Byte.x00] in
    let rp := B [0x91; len name] ++ name ++ pad in
    Some (if multi_requests then B [len rp / 2] ++ rp else rp).

(** The body of the Multiple Service Packet: [<n> <offset_i> <request_i>],
    offsets counted from [<n>]. *)
Fixpoint offsets (at_ : Z) (l : list bytes) : list bytes :=
  match l with
  | [] => []
  | r :: rest => le_encode 2 at_ :: offsets (at_ + len r) rest
  end.

Definition multiple_service (rp_list : list bytes) (sequence : Z)
  : list bytes :=
  [le_encode 2 sequence; B [0x0A; 0x02; 0x20; 0x02; 0x24; 0x01];
   le_encode 2 (len rp_list)]
  ++ offsets (2 + 2 * len rp_list) rp_list ++ rp_list.

Fixpoint digits (s : string) (acc : Z) : option Z :=
  match s with
  | EmptyString => Some acc
  | String c r =>
      let n := Z.of_nat (nat_of_ascii c) - 48 in
      if (0 <=? n) && (n <=? 9) then digits r (10 * acc + n) else None
  end.

(** [int(s)] on plain decimal numerals. *)
Definition int_of_string (s : string) : option Z :=
  match s with
  | EmptyString => None
  | String "-" (String c r) => Z.opp <$> digits (String c r) 0
  | String "-" EmptyString => None
  | _ => digits s 0
  end.

Definition ascii_only (b : bytes) : bool :=
  forallb (fun x => Z_of_byte x <? 128) b.

(** Modelled from the spec: the tables and helpers of [pycomm3.cip] that
    [clx.py] imports, for the worked examples: the service codes of the
    specification's table of services (a reply code is the request code with
    bit 7 set), type code 0xC4 for DINT as in its scenario S1 and the
    neighbouring CIP codes for BOOL, SINT and INT, one-segment request
    paths, and plain decimal numerals for [int]. *)
Definition tables : CipBase := {|
  I_DATA_TYPE := type_of_code;
  S_DATA_TYPE := code_of_type;
  DATA_FUNCTION_SIZE t := Pos.of_nat <$> size_of_type t;
  UNPACK_DATA_FUNCTION t := unpack_signed <$> size_of_type t;
  PACK_DATA_FUNCTION t := pack_signed <$> size_of_type t;
  BITS_PER_INT_TYPE t :=
    if String.eqb t "BOOL" then None
    else (fun n => 8 * Z.of_nat n) <$> size_of_type t;
  SERVICE_STATUS s :=
    if s =? 0 then Some "Success"
    else if s =? 4 then Some "Path segment error"
    else if s =? 5 then Some "Path destination unknown"
    else if s =? 6 then Some "Partial transfer"
    else None;
  REPLAY_INFO c :=
    if c =? 0x6F then Some "send_rr_data"
    else if c =? 0x70 then Some "send_unit_data"
    else None;
  TAG_SERVICES_REQUEST name := byte_of_Z (default 0 (assoc name service_codes));
  I_TAG_SERVICES_REPLY name := default 0 (assoc name service_codes) + 0x80;
  ENCAPSULATION_COMMAND name :=
    if String.eqb name "send_rr_data" then B [0x6F; 0] else B [0x70; 0];
  DATA_ITEM _ := B [0xB1; 0];
  ADDRESS_ITEM _ := B [0xA1; 0];
  CLASS_ID _ := B [0x20];
  CLASS_CODE name :=
    if String.eqb name "Symbol Object" then B [0x6B] else B [0x6C];
  INSTANCE_ID _ := B [0x25];
  EXTENDED_SYMBOL := B [0x91];
  get_extended_status _ _ := inr "";
  create_tag_rp := tag_rp;
  build_multiple_service := multiple_service;
  build_common_packet_format message_type message addr_type addr_data :=
    addr_type ++ le_encode 2 (len addr_data) ++ addr_data
    ++ message_type ++ le_encode 2 (len message) ++ message;
  build_header command length :=
    command ++ le_encode 2 length ++ B (repeat 0 20);
  next_sequence s := (s + 1) mod 65536;
  py_int := int_of_string;
  py_decode b := if ascii_only b then Some (string_of_list_byte b) else None;
  py_encode := list_byte_of_string;
  str_tags l := "[" +:+ String.concat ", " l +:+ "]";
  str_writes l := "[" +:+ String.concat ", " (map (fun t => fst (fst t)) l) +:+ "]";
  str_exn e :=
    match e with
    | LookupError => "KeyError"
    | StructError => "struct.error"
    | _ => "error"
    end
|}.

(** A [send_unit_data] reply: the command word, a clean encapsulation
    status, the reply service at offset 46, the general status at offset 48
    and the payload from offset 50. *)
Definition unit_reply (service status : Z) (payload : list Z) : bytes :=
  B ([0x70; 0] ++ repeat 0 44 ++ [service; 0; status; 0] ++ payload).

(** A connected driver with nothing cached, waiting for [replies]. *)
Definition session (replies : list (option bytes)) : Driver := {|
  _reply := None;
  _message := [];
  _status := (0, "");
  _more_packets_available := false;
  _target_is_connected := true;
  _target_cid := B [1; 2; 3; 4];
  _sequence := 0;
  _tag_list := TLList [];
  _last_instance := 0;
  _byte_offset := 0;
  _last_position := 0;
  _output_raw := false;
  _last_tag_read := None;
  _last_tag_write := None;
  _buffer := BufDict ∅;
  _get_template_in_progress := false;
  _struct_cache := ∅;
  _template_cache := ∅;
  _program_names := [];
  wire_out := [];
  wire_in := replies;
  open_script := []
|}.

(** A Get Attributes reply for a template: definition size 30, structure
    size 16, 3 members, handle 0xABCD. *)
Definition makeup_reply : bytes :=
  unit_reply 0x83 0
    [4; 0;  4; 0; 0; 0; 30; 0; 0; 0;  5; 0; 0; 0; 16; 0; 0; 0;
     2; 0; 0; 0; 3; 0;  1; 0; 0; 0; 0xCD; 0xAB].

Definition makeup : buffer :=
  BufDict (<["structure_handle" := PInt 0xABCD]>
          (<["member_count" := PInt 3]>
          (<["structure_size" := PInt 16]>
          (<["object_definition_size" := PInt 30]> ∅)))).

(** A template delivered in two fragments. *)
Definition template_replies : list (option bytes) :=
  [Some (unit_reply 0xCB 6 [1; 2; 3]); Some (unit_reply 0xCB 0 [4; 5])].

(** A page of the symbol table: instance 103 ["AB"] (a DINT) and instance
    104 ["C"] (a BOOL), status "more to come". *)
Definition symbols_page : bytes :=
  unit_reply 0xD5 6
    [103; 0; 0; 0;  2; 0;  65; 66;  0xC4; 0;
     104; 0; 0; 0;  1; 0;  67;      0xC1; 0].

(** The driver holding [reply], about to parse it. *)
Definition received (reply : bytes) : Driver :=
  set_reply (Some reply) (session []).

(** A symbol table: a structure, a DINT, bit 3 of a word, a system tag and
    a program header. *)
Definition symbols : list Symbol.t :=
  [Symbol.mk 101 (list_byte_of_string "Motor") 0x8ABC;
   Symbol.mk 102 (list_byte_of_string "Count") 0x00C4;
   Symbol.mk 103 (list_byte_of_string "Flag") 0x03C1;
   Symbol.mk 104 (list_byte_of_string "Sys") 0x10C4;
   Symbol.mk 105 (list_byte_of_string "Program:Main") 0x1068].




(** The reply to a Multiple Service Packet of two writes, both accepted. *)
Definition two_writes_done : bytes :=
  unit_reply 0x8A 0 [2; 0;  6; 0;  10; 0;  0xCD; 0; 0; 0;  0xCE; 0; 0; 0].

End Logix.

(** ** The vocabulary of the properties *)

(** One reply of a fragmented read as the controller sends it, with the
    elements it carries and the values they stand for. *)
Module Fragment.
Record t : Type := mk {
  reply : bytes;
  elements : list bytes;
  values : list pyval
}.
End Fragment.

Section Vocabulary.
Context {cb : CipBase}.


(** [preserves f m]: whatever [m] does, also when it raises, the view [f] of
    the driver is the same afterwards. *)
Definition preserves {A X : Type} (f : Driver -> X) (m : M A) : Prop :=
  forall d o d', m d = (o, d') -> f d' = f d.

(** The part of the driver no reply parser touches: the wire, the session,
    the caches and the reply itself. *)
Definition link (d : Driver) :=
  (wire_out d, wire_in d, open_script d, _target_is_connected d,
   _target_cid d, _sequence d, _struct_cache d, _template_cache d, _reply d).

(** What sending leaves alone: the session and the caches. *)
Definition session_state (d : Driver) :=
  (open_script d, _target_is_connected d, _target_cid d,
   _struct_cache d, _template_cache d).

(** The gate lets the call through: the session is open, or the controller
    accepts the next [forward_open]. *)
Definition session_opens (d : Driver) : bool :=
  _target_is_connected d
  || match open_script d with Some _ :: _ => true | _ => false end.

(** The base tag [read_tag] builds the request path of. *)
Definition read_base (t : string) : string := fst (_prep_bools t "BOOL" true).


(** The last instance id among [seen], [start] when none was seen. *)
Definition last_seen (seen : list Symbol.t) (start : Z) : Z :=
  List.last (map Symbol.instance_id seen) start.

(** What decoding the values of a fragment leaves alone. *)
Definition exchange_state (d : Driver) :=
  (_byte_offset d, _reply d, _status d, _get_template_in_progress d).

(** The entries [_isolating_user_tag] turns into tags: the name decodes,
    is neither a program header nor a system name, and bit 12 is clear. *)
Definition is_user_symbol (e : Symbol.t) : bool :=
  match py_decode (Symbol.tag_name e) with
  | Some name =>
      negb (contains "Program:" name)
      && negb (contains ":" name || contains "__" name)
      && (Z.land (Symbol.symbol_type e) 0x1000 =? 0)
  | None => false
  end.

(** What the specification says of the tag [t] made from the entry [e]. *)
Definition classified (e : Symbol.t) (t : Tag.t) : Prop :=
  let S := Symbol.symbol_type e in
  Tag.instance_id t = Symbol.instance_id e
  /\ (Tag.tag_type t = "struct" <-> Z.land S 0x8000 <> 0)
  /\ (Z.land S 0x8000 <> 0 ->
      Tag.template_instance_id t = Some (Z.land S 0x0FFF))
  /\ (Z.land S 0x8000 = 0 ->
      Tag.tag_type t = "atomic"
      /\ I_DATA_TYPE (Z.land S 0xFF) = Some (Tag.data_type t)
      /\ (Tag.data_type t = "BOOL" ->
          Tag.bit_position t = Some (Z.land (Z.shiftr S 8) 7))).





(** The frame [send_connected] puts on the wire for a message request. *)
Definition connected_frame (message_request : list bytes) (cid : bytes) : bytes :=
  let message :=
    build_common_packet_format (DATA_ITEM "Connected")
      (concat message_request) (ADDRESS_ITEM "Connection Based") cid in
  build_header (ENCAPSULATION_COMMAND "send_unit_data") (len message) ++ message.






(** [total m]: the method comes to an end, by returning or by raising. *)
Definition total {A : Type} (m : M A) : Prop :=
  forall d, fst (m d) <> Diverge.

(** The replies that have not arrived yet. *)
Definition pending (d : Driver) : nat := length (wire_in d).

(** [steady m]: the method does not put replies back on the wire. *)
Definition steady {A : Type} (m : M A) : Prop :=
  forall d o d', m d = (o, d') -> (pending d' <= pending d)%nat.

(** [consuming_if P m]: when the method returns a value that satisfies [P],
    it has taken a reply off the wire. *)
Definition consuming_if {A : Type} (P : A -> Prop) (m : M A) : Prop :=
  forall d a d', m d = (Ret a, d') -> P a -> (pending d' < pending d)%nat.

(** [maintains I m]: whatever [m] does, also when it raises, a driver that
    satisfies [I] still does afterwards. *)
Definition maintains {A : Type} (I : Driver -> Prop) (m : M A) : Prop :=
  forall d o d', m d = (o, d') -> I d -> I d'.

(** [ensures P m Q]: started in a driver that satisfies [P], the method [m]
    ends with an outcome and a driver that satisfy [Q]. *)
Definition ensures {A : Type} (P : Driver -> Prop) (m : M A)
    (Q : outcome A -> Driver -> Prop) : Prop :=
  forall d o d', m d = (o, d') -> P d -> Q o d'.

(** More that no reply parser touches. *)
Definition flags (d : Driver) :=
  (_more_packets_available d, _output_raw d, _message d, _last_tag_read d,
   _last_tag_write d, _program_names d).

(** The positions of the [(position, value)] pairs of a list. *)
Definition positions (l : list item) : list Z :=
  omap (fun x => match x with IValue pos _ => Some pos | _ => None end) l.

(** The pairs collected by a fragmented read are numbered from 0, and
    [_last_position] is the number the next pair gets. *)
Definition numbered (d : Driver) : Prop :=
  exists l, _tag_list d = TLList l
    /\ 0 <= _last_position d
    /\ positions l = seqZ 0 (_last_position d).

(** A reply to [send_unit_data] as [_check_reply] wants it before it looks
    at the service: the command word of [send_unit_data], a clean
    encapsulation status, the reply service at byte 46 and the general
    status at byte 48. *)
Definition unit_data_reply (reply : bytes) (service status : Z) : Prop :=
  exists typ rr,
    unpack_uint (slice 0 2 reply) = inr typ
    /\ unpack_dint (slice 8 12 reply) = inr SUCCESS
    /\ unpack_uint (ENCAPSULATION_COMMAND "send_rr_data") = inr rr
    /\ typ <> rr
    /\ unpack_uint (ENCAPSULATION_COMMAND "send_unit_data") = inr typ
    /\ unpack_usint (slice 48 49 reply) = inr status
    /\ unpack_usint (slice 46 47 reply) = inr service.

(** What a Read Tag Fragmented reply carries: the code of the type [typ] at
    bytes 50..52 and, from byte 52 on, the [elements], each of the size of
    the type and decoding to the value beside it. *)
Definition carries (reply : bytes) (typ : string) (size : positive)
    (unpack : bytes -> result pyval) (elements : list bytes)
    (values : list pyval) : Prop :=
  (exists code, unpack_uint (slice 50 52 reply) = inr code
                /\ I_DATA_TYPE code = Some typ)
  /\ slice_from 52 reply = concat elements
  /\ Forall2 (fun e v => len e = Z.pos size /\ unpack e = inr v)
       elements values.

(** A fragment of a read of elements of type [typ], answered with the
    general status [status]. *)
Definition fragment_answer (typ : string) (size : positive)
    (unpack : bytes -> result pyval) (status : Z) (f : Fragment.t) : Prop :=
  unit_data_reply (Fragment.reply f)
    (I_TAG_SERVICES_REPLY "Read Tag Fragmented") status
  /\ carries (Fragment.reply f) typ size unpack (Fragment.elements f)
       (Fragment.values f).

(** The [(position, value)] pairs of the values, numbered from [start]. *)
Definition numbered_from (start : Z) (values : list pyval) : list item :=
  imap (fun i v => IValue (start + Z.of_nat i) v) values.

(** A symbol entry as it stands in a Get Instance Attributes List reply: the
    instance id (a DINT), the length of the name (a UINT), the name, and the
    symbol type (a UINT). *)
Definition symbol_record (e : Symbol.t) : bytes :=
  le_encode 4 (Symbol.instance_id e mod 2 ^ 32)
  ++ le_encode 2 (len (Symbol.tag_name e))
  ++ Symbol.tag_name e
  ++ le_encode 2 (Symbol.symbol_type e).

(** The fields of the entry fit their widths. *)
Definition symbol_fits (e : Symbol.t) : Prop :=
  - 2 ^ 31 <= Symbol.instance_id e < 2 ^ 31
  /\ len (Symbol.tag_name e) < 2 ^ 16
  /\ 0 <= Symbol.symbol_type e < 2 ^ 16.

(** How many elements of [size] bytes [write_array] puts into one fragment:
    the least [k] with [450 <= k * size]. *)
Definition per_fragment (size : positive) : nat :=
  Z.to_nat ((449 + Z.pos size) / Z.pos size).

(** [l] cut into pieces of [k] elements; the last piece may be shorter. *)
Definition pieces {A : Type} (k : nat) (l : list A) : list (list A) :=
  reshape (replicate ((length l + k - 1) / k) k) l.

(** The bytes [write_array] sends for one value: the value itself in raw
    mode, else its encoding. *)
Definition array_element (data_type : string) (raw : bool) (value : pyval)
  : result bytes :=
  if raw then
    match value with
    | PBytes b => inr b
    | _ => inl TypeError
    end
  else
    pack ← or_raise LookupError (PACK_DATA_FUNCTION data_type);
    pack value.

(** The message request of one fragment of [write_array]: sequence number,
    service, path, type code, the number [n] of elements of the whole
    array, the byte offset of the fragment, and its data. *)
Definition array_fragment (rp : bytes) (data_type : string)
    (n seq offset : Z) (data : bytes) : result (list bytes) :=
  s ← pack_uint seq;
  path_size ← bytes_of_int (len rp / 2);
  code ← or_raise LookupError (S_DATA_TYPE data_type);
  t ← pack_uint code;
  c ← pack_uint n;
  o ← pack_dint offset;
  mret [s; [TAG_SERVICES_REQUEST "Write Tag Fragmented"]; path_size; rp; t; c;
        o; data].


(** The general status of sub-response [i] of a Multiple Service Packet
    reply: the word at [52 + 2 i] is the offset of the sub-response, counted
    from byte 50, and its status is the third byte. *)
Definition sub_status (reply : bytes) (i : Z) : result Z :=
  off ← unpack_uint (slice (52 + 2 * i) (54 + 2 * i) reply);
  unpack_usint (slice (50 + off + 2) (50 + off + 3) reply).

End Vocabulary.

(** * Properties *)

(** ** Arithmetic of the codec *)

Lemma Z_of_byte_range (b : Byte.byte) : 0 <= Z_of_byte b < 256.
Proof.
  unfold Z_of_byte. pose proof (Byte.to_N_bounded b) as H.
  lia.
Qed.

Lemma le_decode_nonneg (bs : bytes) : 0 <= le_decode bs.
Proof.
  induction bs as [|b r IH]; simpl; [lia|].
  pose proof (Z_of_byte_range b). lia.
Qed.

Lemma unpack_unsigned_nonneg (n : nat) (st : bytes) (z : Z) :
  unpack_unsigned n st = inr z -> 0 <= z.
Proof.
  unfold unpack_unsigned. case_match; [|discriminate].
  intros [= <-]. apply le_decode_nonneg.
Qed.




(** ** C4: the masks of a bit write *)

Section BitWrite.






End BitWrite.

(** ** What a method leaves alone *)

Section Preserves.
Context {X : Type} (f : Driver -> X).

Lemma preserves_ret {A} (a : A) : preserves f (mret a).
Proof. intros d o d' [= <- <-]. reflexivity. Qed.

Lemma preserves_raise {A} (e : exn) : preserves f (@raise A e).
Proof. intros d o d' [= <- <-]. reflexivity. Qed.

Lemma preserves_diverge {A} : preserves f (@diverge A).
Proof. intros d o d' [= <- <-]. reflexivity. Qed.

Lemma preserves_gets {A} (g : Driver -> A) : preserves f (gets g).
Proof. intros d o d' [= <- <-]. reflexivity. Qed.

Lemma preserves_modify (g : Driver -> Driver) :
  (forall d, f (g d) = f d) -> preserves f (modify g).
Proof. intros H d o d' [= <- <-]. apply H. Qed.

Lemma preserves_bind {A B} (m : M A) (k : A -> M B) :
  preserves f m -> (forall a, preserves f (k a)) -> preserves f (m ≫= k).
Proof.
  intros Hm Hk d o d'. unfold mbind, M_bind.
  destruct (m d) as [[a| e |] d1] eqn:E; intros H.
  - rewrite (Hk a _ _ _ H). eapply Hm, E.
  - injection H as <- <-. eapply Hm, E.
  - injection H as <- <-. eapply Hm, E.
Qed.

Lemma preserves_liftR {A} (r : result A) : preserves f (liftR r).
Proof. destruct r; [apply preserves_raise | apply preserves_ret]. Qed.

Lemma preserves_lookup {A} (o : option A) : preserves f (lookup_or_raise o).
Proof. destruct o; [apply preserves_ret | apply preserves_raise]. Qed.

Lemma preserves_data_error {A} (m : M A) :
  preserves f m -> preserves f (data_error_on_exception m).
Proof.
  intros Hm d o d'. unfold data_error_on_exception.
  destruct (m d) as [[a| e |] d1] eqn:E; intros [= <- <-]; eapply Hm, E.
Qed.

Lemma preserves_while {A} (fuel : nat) (cond : Driver -> bool)
    (body : M (option A)) :
  preserves f body -> preserves f (while_loop fuel cond body).
Proof.
  intros Hb. induction fuel as [|k IH]; intros d o d'; simpl.
  - destruct (cond d); intros [= <- <-]; reflexivity.
  - destruct (cond d); [|intros [= <- <-]; reflexivity].
    destruct (body d) as [[[a|]| e |] d1] eqn:E.
    + intros [= <- <-]. eapply Hb, E.
    + intros H. rewrite (IH _ _ _ H). eapply Hb, E.
    + intros [= <- <-]. eapply Hb, E.
    + intros [= <- <-]. eapply Hb, E.
Qed.

Lemma preserves_for_each {A B} (l : list A) (body : A -> M (option B)) :
  (forall x, preserves f (body x)) -> preserves f (for_each l body).
Proof.
  intros Hb. induction l as [|x r IH]; simpl.
  - apply preserves_ret.
  - apply preserves_bind; [apply Hb|]. intros [b|]; [apply preserves_ret | apply IH].
Qed.

End Preserves.

(** One step of a proof that a method preserves a view: follow the
    structure of the method. *)
Ltac preserves_step :=
  lazymatch goal with
  | |- preserves _ (mbind _ _) => apply preserves_bind; [|intros ?]
  | |- preserves _ (mret _) => apply preserves_ret
  | |- preserves _ (raise _) => apply preserves_raise
  | |- preserves _ diverge => apply preserves_diverge
  | |- preserves _ (gets _) => apply preserves_gets
  | |- preserves _ (modify _) => apply preserves_modify; intros ?; reflexivity
  | |- preserves _ (liftR _) => apply preserves_liftR
  | |- preserves _ (lookup_or_raise _) => apply preserves_lookup
  | |- preserves _ (data_error_on_exception _) => apply preserves_data_error
  | |- preserves _ (while_loop _ _ _) => apply preserves_while
  | |- preserves _ (for_each _ _) => apply preserves_for_each; intros ?
  | |- preserves _ (match ?x with _ => _ end) => destruct x
  | |- preserves _ (let _ := _ in _) => cbv zeta
  end.

Ltac preserves_tac := repeat (first [solve [auto] | preserves_step]).

Create HintDb keeps.

Section ParsersKeepLink.
Context {cb : CipBase}.

Lemma reply_bytes_keeps {X} (f : Driver -> X) : preserves f reply_bytes.
Proof. unfold reply_bytes. preserves_tac. Qed.

Lemma tag_list_append_keeps_link (x : item) : preserves link (tag_list_append x).
Proof. unfold tag_list_append. preserves_tac. Qed.

Lemma tag_list_iadd_keeps_link (b : bytes) : preserves link (tag_list_iadd b).
Proof. unfold tag_list_iadd. preserves_tac. Qed.

Lemma buffer_setitem_keeps_link k v : preserves link (buffer_setitem k v).
Proof. unfold buffer_setitem. preserves_tac. Qed.

Lemma buffer_iadd_keeps_link b : preserves link (buffer_iadd b).
Proof. unfold buffer_iadd. preserves_tac. Qed.

Hint Resolve reply_bytes_keeps tag_list_append_keeps_link
  tag_list_iadd_keeps_link buffer_setitem_keeps_link buffer_iadd_keeps_link
  : keeps.

Ltac keeps := repeat (first [solve [auto with keeps] | preserves_step]).

Lemma instance_entries_keeps_link fuel bs idx inst :
  preserves link (instance_entries fuel bs idx inst).
Proof.
  revert idx inst. induction fuel as [|k IH]; intros idx inst; simpl; keeps.
Qed.

Lemma parse_instance_attribute_list_keeps_link start status :
  preserves link (_parse_instance_attribute_list start status).
Proof.
  unfold _parse_instance_attribute_list.
  pose proof instance_entries_keeps_link. keeps.
Qed.

Lemma parse_structure_makeup_keeps_link start status :
  preserves link (_parse_structure_makeup_attributes start status).
Proof. unfold _parse_structure_makeup_attributes. keeps. Qed.

Lemma parse_template_keeps_link start status :
  preserves link (_parse_template start status).
Proof. unfold _parse_template. keeps. Qed.

Lemma fragment_values_keeps_link fuel dt fr idx :
  preserves link (fragment_values fuel dt fr idx).
Proof.
  revert idx. induction fuel as [|k IH]; intros idx; simpl; keeps.
Qed.

Lemma parse_fragment_keeps_link start status :
  preserves link (_parse_fragment start status).
Proof.
  unfold _parse_fragment. pose proof fragment_values_keeps_link. keeps.
Qed.

Lemma check_reply_keeps_link : preserves link _check_reply.
Proof.
  unfold _check_reply, check_unit_data_reply.
  pose proof parse_fragment_keeps_link.
  pose proof parse_instance_attribute_list_keeps_link.
  pose proof parse_structure_makeup_keeps_link.
  pose proof parse_template_keeps_link.
  keeps.
Qed.

End ParsersKeepLink.

(** ** Running a method step by step *)

Lemma run_bind_ret {A B} (m : M A) (k : A -> M B) d a d1 :
  m d = (Ret a, d1) -> (m ≫= k) d = k a d1.
Proof. intros H. unfold mbind, M_bind. rewrite H. reflexivity. Qed.

Lemma run_bind_raise {A B} (m : M A) (k : A -> M B) d e d1 :
  m d = (Raise e, d1) -> (m ≫= k) d = (Raise e, d1).
Proof. intros H. unfold mbind, M_bind. rewrite H. reflexivity. Qed.

Lemma bind_ret_inv {A B} (m : M A) (k : A -> M B) d b d' :
  (m ≫= k) d = (Ret b, d') ->
  exists a d1, m d = (Ret a, d1) /\ k a d1 = (Ret b, d').
Proof.
  unfold mbind, M_bind. destruct (m d) as [[a| e |] d1]; intros H;
    [eauto | discriminate | discriminate].
Qed.

Lemma preserves_weaken {A X Y} (f : Driver -> X) (g : Driver -> Y) (m : M A) :
  (forall d d', f d' = f d -> g d' = g d) -> preserves f m -> preserves g m.
Proof. intros Hfg Hm d o d' H. eapply Hfg, Hm, H. Qed.

(** ** The session gate and the transport *)

Section Transport.
Context {cb : CipBase}.

Lemma check_reply_keeps_session : preserves session_state _check_reply.
Proof.
  eapply preserves_weaken; [|apply check_reply_keeps_link].
  unfold link, session_state. intros d d' [= ? ? ? ? ? ? ? ? ?]. congruence.
Qed.

Lemma check_reply_keeps_wire_out : preserves wire_out _check_reply.
Proof.
  eapply preserves_weaken; [|apply check_reply_keeps_link].
  unfold link. intros d d' [= ? ? ? ? ? ? ? ? ?]. congruence.
Qed.

Lemma send_unit_data_keeps_session msg :
  preserves session_state (send_unit_data msg).
Proof.
  unfold send_unit_data. pose proof check_reply_keeps_session. preserves_tac.
Qed.

(** Every call of [send_unit_data] puts exactly one frame on the wire,
    whatever the reply turns out to be. *)
Lemma send_unit_data_wire msg d o d' :
  send_unit_data msg d = (o, d') ->
  wire_out d' = wire_out d
    ++ [build_header (ENCAPSULATION_COMMAND "send_unit_data") (len msg) ++ msg].
Proof.
  unfold send_unit_data.
  set (frame := build_header _ _ ++ msg).
  set (tail := fun ok : bool => if ok then gets _reply else mret None).
  assert (Ht : forall ok, preserves wire_out (tail ok))
    by (intros []; unfold tail; preserves_tac).
  assert (Hc : preserves wire_out (_check_reply ≫= tail))
    by (apply preserves_bind; [apply check_reply_keeps_wire_out | apply Ht]).
  unfold mbind at 1 2 3 4, M_bind at 1 2 3 4, modify, gets. cbv beta iota.
  cbn [wire_in set_wire_out set_message].
  destruct (wire_in d) as [|r rest]; unfold mbind at 1, M_bind at 1, modify;
    cbv beta iota; intros H; apply Hc in H; rewrite H; reflexivity.
Qed.

Lemma send_connected_keeps_session mr :
  preserves session_state (send_connected mr).
Proof.
  unfold send_connected. pose proof send_unit_data_keeps_session. preserves_tac.
Qed.

Lemma ensure_connected_open code text d :
  _target_is_connected d = true -> ensure_connected code text d = (Ret tt, d).
Proof.
  intros H. unfold ensure_connected, mbind, M_bind, gets. rewrite H. reflexivity.
Qed.

Lemma ensure_connected_keeps_wire_out code text :
  preserves wire_out (ensure_connected code text).
Proof. unfold ensure_connected, forward_open. preserves_tac. Qed.

Lemma ensure_connected_ret code text d u d1 :
  ensure_connected code text d = (Ret u, d1) ->
  _target_is_connected d1 = true /\ _status d1 = _status d.
Proof.
  unfold ensure_connected, forward_open, mbind, M_bind, gets, modify, mret,
    M_ret, raise.
  destruct (_target_is_connected d) eqn:E.
  - intros [= <- <-]. auto.
  - destruct (open_script d) as [|[cid|] r]; intros [= <- <-]. auto.
Qed.

Lemma ensure_connected_opens code text d :
  session_opens d = true ->
  exists d1, ensure_connected code text d = (Ret tt, d1)
    /\ _status d1 = _status d /\ wire_out d1 = wire_out d.
Proof.
  unfold session_opens. intros H.
  destruct (ensure_connected code text d) as [o d1] eqn:E.
  pose proof (ensure_connected_keeps_wire_out _ _ _ _ _ E) as Hw.
  revert E.
  unfold ensure_connected, forward_open, mbind, M_bind, gets, modify, mret,
    M_ret, raise.
  destruct (_target_is_connected d) eqn:Ec.
  - intros [= <- <-]. eauto.
  - destruct (open_script d) as [|[cid|] r]; try discriminate.
    intros [= <- <-]. eexists. split; [reflexivity|]. split; [reflexivity|].
    exact Hw.
Qed.

End Transport.

(** ** C9: the template caches *)

Section Caches.
Context {cb : CipBase}.

Lemma send_connected_keeps_connected mr :
  preserves _target_is_connected (send_connected mr).
Proof.
  eapply preserves_weaken; [|apply send_connected_keeps_session].
  unfold session_state. intros d d' [= ? ? ? ? ?]. congruence.
Qed.

Lemma get_structure_makeup_hit i d b :
  _struct_cache d !! i = Some b -> _get_structure_makeup i d = (Ret b, d).
Proof.
  intros H. unfold _get_structure_makeup, mbind, M_bind, gets.
  rewrite H. cbv beta iota. unfold mret, M_ret. cbv beta iota.
  rewrite H. reflexivity.
Qed.

Lemma get_structure_makeup_stores i d b d1 :
  _get_structure_makeup i d = (Ret b, d1) -> _struct_cache d1 !! i = Some b.
Proof.
  unfold _get_structure_makeup. intros H.
  apply bind_ret_inv in H as (cache & d0 & _ & H).
  apply bind_ret_inv in H as (u & d2 & _ & H).
  apply bind_ret_inv in H as (c & d3 & Hc & H).
  injection Hc as <- <-.
  destruct (_struct_cache d2 !! i) as [x|] eqn:E; [|discriminate].
  injection H as <- <-. exact E.
Qed.

Lemma read_template_hit i s d b :
  _target_is_connected d = true -> _template_cache d !! i = Some b ->
  _read_template i s d = (Ret b, d).
Proof.
  intros Hc H. unfold _read_template.
  erewrite run_bind_ret by (apply ensure_connected_open, Hc).
  unfold mbind, M_bind, gets. rewrite H. cbv beta iota.
  unfold mret, M_ret. cbv beta iota. rewrite H. reflexivity.
Qed.

Lemma read_template_stores i s d b d1 :
  _read_template i s d = (Ret b, d1) ->
  _template_cache d1 !! i = Some b /\ _target_is_connected d1 = true.
Proof.
  unfold _read_template. intros H.
  apply bind_ret_inv in H as (u & d0 & Hgate & H).
  apply ensure_connected_ret in Hgate as [Hconn _].
  split.
  - apply bind_ret_inv in H as (cache & d2 & _ & H).
    apply bind_ret_inv in H as (v & d3 & _ & H).
    apply bind_ret_inv in H as (c & d4 & Hc & H).
    injection Hc as <- <-.
    destruct (_template_cache d3 !! i) as [x|] eqn:E; [|discriminate].
    injection H as <- <-. exact E.
  - rewrite <- Hconn.
    match type of H with
    | ?m d0 = _ => assert (Hp : preserves _target_is_connected m)
    end.
    { unfold read_template_step, template_request, _get_sequence.
      pose proof send_connected_keeps_connected. preserves_tac. }
    apply (Hp _ _ _ H).
Qed.

(** C9.  Within one session, a second call of [_get_structure_makeup(i)]
    returns what the first returned, a second call of [_read_template(i, _)]
    returns what the first returned, and the second call leaves the driver
    and the wire as they are: the cached value is returned and nothing is
    sent. *)
Theorem template_caches_idempotent (i s s' : Z) (d d1 : Driver) (b : buffer) :
  (_get_structure_makeup i d = (Ret b, d1) ->
   _get_structure_makeup i d1 = (Ret b, d1)
   /\ wire_out (snd (_get_structure_makeup i d1)) = wire_out d1)
  /\ (_read_template i s d = (Ret b, d1) ->
      _read_template i s' d1 = (Ret b, d1)
      /\ wire_out (snd (_read_template i s' d1)) = wire_out d1).
Proof.
  split; intros H.
  - apply get_structure_makeup_stores in H.
    rewrite (get_structure_makeup_hit _ _ _ H). auto.
  - apply read_template_stores in H as [H Hc].
    rewrite (read_template_hit _ _ _ _ Hc H). auto.
Qed.

End Caches.

(** A template fetched once (one request for the makeup, two for the
    bytes) and asked for again. *)
Lemma template_caches_idempotent_witness :
  (let d1 := snd (_get_structure_makeup (cb := Logix.tables) 7
                    (Logix.session [Some Logix.makeup_reply])) in
   _get_structure_makeup (cb := Logix.tables) 7 d1 = (Ret Logix.makeup, d1)
   /\ length (wire_out d1) = 1%nat)
  /\ (let d1 := snd (_read_template (cb := Logix.tables) 7 30
                       (Logix.session Logix.template_replies)) in
      _read_template (cb := Logix.tables) 7 99 d1
      = (Ret (BufBytes (Logix.B [1; 2; 3; 4; 5])), d1)
      /\ length (wire_out d1) = 2%nat).
Proof.
  split; cbv zeta; (split; [|vm_compute; reflexivity]).
  - apply (proj1 (template_caches_idempotent (cb := Logix.tables) 7 0 0
                    (Logix.session [Some Logix.makeup_reply]) _ Logix.makeup)).
    vm_compute. reflexivity.
  - apply (proj2 (template_caches_idempotent (cb := Logix.tables) 7 30 99
                    (Logix.session Logix.template_replies) _
                    (BufBytes (Logix.B [1; 2; 3; 4; 5])))).
    vm_compute. reflexivity.
Defined.

(** ** C10: a request path that cannot be built, in [read_tag] *)

Section ReadTagPath.
Context {cb : CipBase}.

Lemma read_tag_requests_unbuildable ts tag tag_bits tags_read rp_list d :
  (forall k, is_Some (tag_bits !! k) -> create_tag_rp k true <> None) ->
  (exists t, t ∈ ts /\ create_tag_rp (read_base t) true = None) ->
  exists d', read_tag_requests ts tag tag_bits tags_read rp_list d
             = (Raise DataError, d')
    /\ fst (_status d') = 6 /\ wire_out d' = wire_out d.
Proof.
  revert tag_bits tags_read rp_list.
  induction ts as [|t rest IH]; intros tag_bits tags_read rp_list Hinv (bad & Hin & Hbad).
  { inversion Hin. }
  cbn [read_tag_requests]. unfold read_base in *.
  destruct (_prep_bools t "BOOL" true) as [t' bit] eqn:Ep.
  assert (Hrest : create_tag_rp t' true <> None ->
                  exists t0, t0 ∈ rest /\ create_tag_rp (fst (_prep_bools t0 "BOOL" true)) true = None).
  { intros Hok. apply elem_of_cons in Hin as [->|Hin]; [|eauto].
    rewrite Ep in Hbad. contradiction. }
  assert (Hstep : forall tb tr rp, create_tag_rp t' true = Some rp ->
            (forall k, is_Some (tb !! k) -> create_tag_rp k true <> None) ->
            exists d', (one ← liftR (pack_uint 1);
                        read_tag_requests rest tag tb tr
                          (rp_list ++ [[TAG_SERVICES_REQUEST "Read Tag"] ++ rp ++ one])) d
                       = (Raise DataError, d')
              /\ fst (_status d') = 6 /\ wire_out d' = wire_out d).
  { intros tb tr rp Hrp Htb.
    erewrite run_bind_ret by reflexivity.
    apply IH; [exact Htb | apply Hrest; congruence]. }
  assert (Hfail : create_tag_rp t' true = None ->
            exists d', (modify (set_status (6, "Cannot create tag " +:+ str_tags tag
                          +:+ " request packet. read_tag will not be executed."));;
                        raise DataError
                        : M (gmap string (list Z) * list string * list bytes)) d
                       = (Raise DataError, d')
              /\ fst (_status d') = 6 /\ wire_out d' = wire_out d).
  { intros _. eexists. split; [reflexivity|]. split; reflexivity. }
  destruct bit as [b|].
  - destruct (bool_decide (is_Some (tag_bits !! t'))) eqn:Eb; cbn [negb].
    + apply bool_decide_eq_true in Eb.
      apply IH; [|apply Hrest; auto].
      intros k Hk. destruct (decide (k = t')) as [->|Hne]; [auto|].
      rewrite lookup_insert_ne in Hk by congruence. auto.
    + destruct (create_tag_rp t' true) as [rp|] eqn:Erp; [|apply Hfail; reflexivity].
      apply (Hstep _ _ rp eq_refl).
      intros k Hk. destruct (decide (k = t')) as [->|Hne]; [congruence|].
      rewrite lookup_insert_ne in Hk by congruence. auto.
  - destruct (create_tag_rp t' true) as [rp|] eqn:Erp; [|apply Hfail; reflexivity].
    apply (Hstep _ _ rp eq_refl). exact Hinv.
Qed.

(** C10.  On a session that opens, [read_tag] treats a request path that
    cannot be built in two ways: called with one tag it sets status code 6
    and returns [None] without raising; called with a list that holds such a
    tag it sets status code 6 and raises [DataError]; either way nothing is
    sent. *)
Theorem read_tag_unbuildable_path (d : Driver) :
  session_opens d = true ->
  (forall tag, create_tag_rp (read_base tag) false = None ->
     exists d', read_tag (OneTag tag) d = (Ret ReadNone, d')
       /\ fst (_status d') = 6 /\ wire_out d' = wire_out d)
  /\ (forall tags t, t ∈ tags -> create_tag_rp (read_base t) true = None ->
        exists d', read_tag (TagList tags) d = (Raise DataError, d')
          /\ fst (_status d') = 6 /\ wire_out d' = wire_out d).
Proof.
  intros Hopen.
  destruct (ensure_connected_opens 6
    "Target did not connected. read_tag will not be executed."
    (set_status (0, "") d) Hopen) as (d1 & Hgate & _ & Hw1).
  change (wire_out (set_status (0, "") d)) with (wire_out d) in Hw1.
  split.
  - intros tag Hrp. unfold read_tag, clear.
    erewrite run_bind_ret by reflexivity.
    erewrite run_bind_ret by exact Hgate.
    unfold read_base in Hrp.
    destruct (_prep_bools tag "BOOL" true) as [base bit]. cbn [fst] in Hrp.
    rewrite Hrp. eexists. split; [reflexivity|]. split; [reflexivity|exact Hw1].
  - intros tags t Hin Hrp. unfold read_tag, clear.
    erewrite run_bind_ret by reflexivity.
    erewrite run_bind_ret by exact Hgate.
    destruct (read_tag_requests_unbuildable tags tags ∅ [] [] d1)
      as (d' & Hrun & Hst & Hw).
    { intros k [x Hx]. rewrite lookup_empty in Hx. discriminate. }
    { eauto. }
    erewrite run_bind_raise by exact Hrun.
    eexists. split; [reflexivity|]. split; [exact Hst | congruence].
Qed.

End ReadTagPath.

(** The tag ["bad tag"] cannot be tokenised. *)
Lemma read_tag_unbuildable_path_witness :
  (exists d', read_tag (cb := Logix.tables) (OneTag "bad tag") (Logix.session [])
              = (Ret ReadNone, d')
     /\ fst (_status d') = 6 /\ wire_out d' = [])
  /\ (exists d', read_tag (cb := Logix.tables) (TagList ["A"; "bad tag.3"; "B"])
                   (Logix.session [])
                 = (Raise DataError, d')
        /\ fst (_status d') = 6 /\ wire_out d' = []).
Proof.
  destruct (read_tag_unbuildable_path (cb := Logix.tables) (Logix.session []))
    as [H1 H2]; [reflexivity|].
  split.
  - apply (H1 "bad tag"). reflexivity.
  - apply (H2 ["A"; "bad tag.3"; "B"] "bad tag.3").
    + apply list_elem_of_In. simpl. auto.
    + reflexivity.
Defined.

(** ** C5: reading a bit of an integer *)




Section BitRead.
Context {cb : CipBase}.



End BitRead.


(** ** C6: the symbol enumeration loop *)

Lemma last_seen_cons (e : Symbol.t) (seen : list Symbol.t) (start : Z) :
  last_seen (e :: seen) start = last_seen seen (Symbol.instance_id e).
Proof.
  unfold last_seen. cbn [map].
  generalize (map Symbol.instance_id seen) (Symbol.instance_id e). clear.
  intros l. revert start. induction l as [|x l IH]; intros start a; [reflexivity|].
  change (List.last (a :: x :: l) start) with (List.last (x :: l) start).
  rewrite (IH start x), (IH a x). reflexivity.
Qed.

Lemma data_error_ret_inv {A} (m : M A) d a d' :
  data_error_on_exception m d = (Ret a, d') -> m d = (Ret a, d').
Proof.
  unfold data_error_on_exception.
  destruct (m d) as [[x| e |] d1]; intros H; [exact H | discriminate | discriminate].
Qed.

Lemma or_raise_inv {A} (e : exn) (o : option A) (a : A) :
  or_raise e o = inr a -> o = Some a.
Proof. destruct o; intros [= <-]; reflexivity. Qed.

Lemma liftR_ret_inv {A} (r : result A) d a d' :
  liftR r d = (Ret a, d') -> r = inr a /\ d' = d.
Proof. destruct r; intros [= <- <-]; auto. Qed.

Lemma reply_bytes_ret_inv d r d' :
  reply_bytes d = (Ret r, d') -> _reply d = Some r /\ d' = d.
Proof.
  unfold reply_bytes, mbind, M_bind, gets.
  destruct (_reply d); intros [= <- <-]; auto.
Qed.

Lemma tag_list_append_ret_inv x d u d' :
  tag_list_append x d = (Ret u, d') ->
  exists l, _tag_list d = TLList l /\ d' = set_tag_list (TLList (l ++ [x])) d.
Proof.
  unfold tag_list_append, mbind, M_bind, gets.
  destruct (_tag_list d) as [s|l]; intros [= <- <-]; eauto.
Qed.

Section Enumeration.
Context {cb : CipBase}.


Lemma tag_list_append_no_diverge x d : fst (tag_list_append x d) <> Diverge.
Proof.
  unfold tag_list_append, mbind, M_bind, gets.
  destruct (_tag_list d); discriminate.
Qed.

(** The loop over the entries always ends: every entry takes at least
    eight bytes. *)
Lemma instance_entries_no_diverge fuel bs idx inst d :
  0 <= idx -> (length bs <= fuel + Z.to_nat idx)%nat ->
  fst (instance_entries fuel bs idx inst d) <> Diverge.
Proof.
  revert idx inst d. induction fuel as [|k IH]; intros idx inst d H0 Hf;
    cbn [instance_entries].
  - destruct (Z.ltb_spec idx (len bs)) as [Hlt|]; [unfold len in Hlt; lia|].
    discriminate.
  - destruct (Z.ltb_spec idx (len bs)) as [Hlt|]; [|discriminate].
    unfold mbind, M_bind.
    destruct (unpack_dint _) as [e|instance]; [discriminate|]. cbn [liftR mret M_ret].
    destruct (unpack_uint _) as [e|tag_length] eqn:El; [discriminate|].
    cbn [liftR mret M_ret]. cbv zeta.
    destruct (unpack_uint (slice (idx + 4 + 2 + tag_length) _ _)) as [e|st];
      [discriminate|]. cbn [liftR mret M_ret].
    pose proof (tag_list_append_no_diverge
      (ISymbol (Symbol.mk instance
         (slice (idx + 4 + 2) (idx + 4 + 2 + tag_length) bs) st)) d) as Ha.
    destruct (tag_list_append _ d) as [[u| e |] d1]; [|discriminate|contradiction].
    apply unpack_unsigned_nonneg in El.
    apply IH; lia.
Qed.

Lemma parse_instance_attribute_list_total start status d :
  fst (_parse_instance_attribute_list start status d) <> Diverge.
Proof.
  unfold _parse_instance_attribute_list, mbind at 1, M_bind at 1.
  unfold reply_bytes, mbind at 1, M_bind at 1, gets.
  destruct (_reply d) as [reply|]; [|discriminate]. cbn [mret M_ret]. cbv zeta.
  unfold mbind at 1, M_bind at 1, data_error_on_exception.
  pose proof (instance_entries_no_diverge
    (length (slice_from start reply)) (slice_from start reply) 0 0 d) as Hn.
  destruct (instance_entries _ _ 0 0 d) as [[r| e |] d1];
    [| discriminate | exfalso; apply Hn; [lia | simpl; lia | reflexivity]].
  destruct (status =? SUCCESS); [discriminate|].
  destruct (status =? 6); discriminate.
Qed.


End Enumeration.


(** ** C1: the byte offset of a fragmented exchange *)

Section Fragments.
Context {cb : CipBase}.

Lemma fragment_values_keeps_exchange fuel dt fr idx :
  preserves exchange_state (fragment_values fuel dt fr idx).
Proof.
  revert idx. induction fuel as [|k IH]; intros idx; cbn [fragment_values];
    unfold tag_list_append, tag_list_iadd; preserves_tac.
Qed.

(** Decoding a fragment always ends: every value takes at least a byte. *)
Lemma fragment_values_no_diverge fuel dt fr idx d :
  0 <= idx -> (length fr <= fuel + Z.to_nat idx)%nat ->
  fst (fragment_values fuel dt fr idx d) <> Diverge.
Proof.
  revert idx d. induction fuel as [|k IH]; intros idx d H0 Hf;
    cbn [fragment_values].
  - destruct (Z.ltb_spec idx (len fr)) as [Hlt|]; [unfold len in Hlt; lia|].
    discriminate.
  - destruct (Z.ltb_spec idx (len fr)) as [Hlt|]; [|discriminate].
    unfold mbind at 1, M_bind at 1, gets. cbv beta iota.
    unfold mbind at 1, M_bind at 1, data_error_on_exception.
    unfold mbind at 1, M_bind at 1, lookup_or_raise at 1.
    destruct (I_DATA_TYPE dt) as [typ|]; [|discriminate].
    cbn [or_raise liftR mret M_ret].
    unfold mbind at 1, M_bind at 1, lookup_or_raise at 1.
    destruct (DATA_FUNCTION_SIZE typ) as [size|]; [|discriminate].
    cbn [or_raise liftR mret M_ret]. cbv zeta.
    assert (Hnext : forall d1, fst (fragment_values k dt fr (idx + Z.pos size) d1)
                               <> Diverge) by (intros d1; apply IH; lia).
    destruct (_output_raw d).
    + unfold mbind at 1, M_bind at 1. cbn [mret M_ret]. cbv beta iota.
      unfold mbind at 1, M_bind at 1, tag_list_iadd, mbind at 1, M_bind at 1, gets.
      destruct (_tag_list d); [discriminate|]. apply Hnext.
    + unfold mbind at 1, M_bind at 1.
      unfold mbind at 1, M_bind at 1, lookup_or_raise at 1.
      destruct (UNPACK_DATA_FUNCTION typ) as [unpack|]; [|discriminate].
      cbn [or_raise liftR mret M_ret].
      destruct (unpack _) as [e|value]; [discriminate|].
      cbn [liftR mret M_ret]. cbv beta iota.
      unfold mbind at 1, M_bind at 1.
      unfold mbind at 1, M_bind at 1, gets. cbv beta iota.
      unfold mbind at 1, M_bind at 1, tag_list_append, mbind at 1, M_bind at 1, gets.
      destruct (_tag_list d); [discriminate|]. apply Hnext.
Qed.


Lemma parse_fragment_total start status d :
  fst (_parse_fragment start status d) <> Diverge.
Proof.
  unfold _parse_fragment, mbind at 1, M_bind at 1, data_error_on_exception.
  unfold mbind at 1, M_bind at 1, reply_bytes, mbind at 1, M_bind at 1, gets.
  destruct (_reply d) as [reply|]; [|discriminate]. cbn [mret M_ret].
  cbv beta iota.
  unfold mbind at 1, M_bind at 1.
  destruct (unpack_uint _) as [e|dt]; [discriminate|]. cbn [liftR mret M_ret].
  cbv beta iota zeta. unfold mbind at 1, M_bind at 1.
  pose proof (fragment_values_no_diverge
    (length (slice_from (start + 2) reply)) dt (slice_from (start + 2) reply)
    0 d) as Hn.
  destruct (fragment_values _ dt _ 0 d) as [[u| e |] d1];
    [| discriminate | exfalso; apply Hn; [lia | simpl; lia | reflexivity]].
  destruct (status =? SUCCESS); [discriminate|].
  destruct (status =? 6); [discriminate|].
  unfold mbind at 1, M_bind at 1.
  destruct (SERVICE_STATUS status); [|discriminate].
  cbn [lookup_or_raise or_raise liftR mret M_ret].
  unfold mbind at 1, M_bind at 1, reply_bytes, mbind at 1, M_bind at 1, gets.
  destruct (_reply d1); [|discriminate]. cbn [mret M_ret]. cbv beta iota.
  unfold mbind at 1, M_bind at 1.
  destruct (get_extended_status _ _); discriminate.
Qed.

Lemma parse_template_total start status d :
  fst (_parse_template start status d) <> Diverge.
Proof.
  unfold _parse_template, mbind at 1, M_bind at 1, reply_bytes,
    mbind at 1, M_bind at 1, gets.
  destruct (_reply d) as [reply|]; [|discriminate]. cbn [mret M_ret].
  cbv beta iota zeta.
  unfold mbind at 1, M_bind at 1, buffer_iadd, mbind at 1, M_bind at 1, gets.
  destruct (_buffer d); [discriminate|].
  cbn [modify]. cbv beta iota.
  destruct (status =? SUCCESS); [discriminate|].
  destruct (status =? 6); discriminate.
Qed.


End Fragments.



(** ** C2: the symbol type of a user tag *)

Section Isolation.
Context {cb : CipBase}.

Hypothesis bool_code_agrees :
  forall c, I_DATA_TYPE c = Some "BOOL" -> S_DATA_TYPE "BOOL" = Some c.

Lemma isolate_symbol_ret e d u d' l :
  isolate_symbol e d = (Ret u, d') -> _tag_list d = TLList l ->
  if is_user_symbol e
  then exists t, _tag_list d' = TLList (l ++ [ITag t]) /\ classified e t
  else _tag_list d' = TLList l.
Proof.
  unfold isolate_symbol, is_user_symbol. intros H Hl.
  apply bind_ret_inv in H as (name & d0 & Hn & H).
  apply liftR_ret_inv in Hn as [Hn ->].
  destruct (py_decode (Symbol.tag_name e)) as [name'|]; [|discriminate].
  injection Hn as ->. cbv zeta in H.
  destruct (contains "Program:" name).
  { injection H as <- <-. cbn [negb andb]. exact Hl. }
  destruct (contains ":" name || contains "__" name).
  { injection H as <- <-. cbn [negb andb]. exact Hl. }
  cbn [negb andb].
  destruct (Z.eqb_spec (Z.land (Symbol.symbol_type e) 0x1000) 0) as [E12|N12].
  2:{ injection H as <- <-. exact Hl. }
  cbn [negb] in H.
  destruct (Z.eqb_spec (Z.land (Symbol.symbol_type e) 0x8000) 0) as [E15|N15];
    cbn [negb] in H.
  - apply bind_ret_inv in H as (data_type & d1 & Hd & H).
    unfold lookup_or_raise in Hd. apply liftR_ret_inv in Hd as [Hd ->].
    apply bind_ret_inv in H as (bool_code & d1 & Hb & H).
    unfold lookup_or_raise in Hb. apply liftR_ret_inv in Hb as [Hb ->].
    apply or_raise_inv in Hd as Edt. apply or_raise_inv in Hb as Ebc.
    apply tag_list_append_ret_inv in H as (l' & Hl' & ->).
    rewrite Hl in Hl'. injection Hl' as <-.
    eexists. split; [reflexivity|].
    unfold classified. cbn.
    split; [reflexivity|]. split; [split; [discriminate | contradiction]|].
    split; [contradiction|]. intros _.
    split; [reflexivity|]. split; [exact Edt|].
    intros Hbool. rewrite Hbool in Edt. apply bool_code_agrees in Edt.
    rewrite Ebc in Edt. injection Edt as ->. rewrite Z.eqb_refl.
    rewrite Z.shiftr_land. reflexivity.
  - apply tag_list_append_ret_inv in H as (l' & Hl' & ->).
    rewrite Hl in Hl'. injection Hl' as <-.
    eexists. split; [reflexivity|].
    unfold classified. cbn.
    split; [reflexivity|]. split; [split; [intros _; exact N15 | reflexivity]|].
    split; [reflexivity | contradiction].
Qed.

Lemma isolate_symbols_ret entries d o d' l :
  for_each (map ISymbol entries) isolate_item d = (Ret o, d') ->
  _tag_list d = TLList l ->
  exists tags, _tag_list d' = TLList (l ++ map ITag tags)
    /\ Forall2 classified (List.filter is_user_symbol entries) tags.
Proof.
  revert d l. induction entries as [|e r IH]; intros d l H Hl; cbn in H.
  - injection H as <- <-. exists []. rewrite app_nil_r. split; [exact Hl | constructor].
  - apply bind_ret_inv in H as (x & d1 & He & H).
    unfold isolate_item in He.
    apply bind_ret_inv in He as (u & d2 & He & Hx). injection Hx as <- <-.
    pose proof (isolate_symbol_ret _ _ _ _ _ He Hl) as Hs.
    cbn [List.filter]. destruct (is_user_symbol e).
    + destruct Hs as (t & Ht & Hc).
      destruct (IH _ _ H Ht) as (tags & Ht' & Hf).
      exists (t :: tags). split; [|constructor; assumption].
      rewrite Ht', <- app_assoc. reflexivity.
    + apply (IH _ _ H Hs).
Qed.

(** C2.  The user-tag isolation step turns the entries it keeps, in order,
    into tags such that, [S] being the symbol type of the entry: the tag is
    a struct if and only if [S & 0x8000] is non-zero; a struct has
    [template_instance_id = S & 0x0FFF]; an atomic tag has
    [data_type = I_DATA_TYPE[S & 0xFF]], and a BOOL has
    [bit_position = (S >> 8) & 0b111]. *)
Theorem isolating_user_tag_classifies (entries : list Symbol.t)
    (d d' : Driver) :
  _tag_list d = TLList (map ISymbol entries) ->
  _isolating_user_tag d = (Ret tt, d') ->
  exists tags,
    _tag_list d' = TLList (map ITag tags)
    /\ Forall2 classified (List.filter is_user_symbol entries) tags.
Proof.
  intros Hl H. unfold _isolating_user_tag in H.
  apply data_error_ret_inv in H.
  apply bind_ret_inv in H as (lst & d0 & Hg & H). injection Hg as <- <-.
  apply bind_ret_inv in H as (u & d1 & Hm & H). injection Hm as <- <-.
  rewrite Hl in H.
  apply bind_ret_inv in H as (o & d2 & Hf & H). injection H as <-.
  apply (isolate_symbols_ret _ _ _ _ [] Hf). reflexivity.
Qed.

End Isolation.

Lemma logix_bool_code_agrees (c : Z) :
  I_DATA_TYPE (CipBase := Logix.tables) c = Some "BOOL" ->
  S_DATA_TYPE (CipBase := Logix.tables) "BOOL" = Some c.
Proof.
  cbn [I_DATA_TYPE S_DATA_TYPE Logix.tables].
  unfold Logix.type_of_code, Logix.type_codes. cbn [List.find fst snd].
  destruct (Z.eqb_spec 193 c) as [<-|_]; [reflexivity|].
  repeat (match goal with
          | |- context [if ?x =? c then _ else _] => destruct (x =? c)
          end; [discriminate|]).
  discriminate.
Qed.

(** Of the five symbols three are user tags: a structure with template
    0xABC, a DINT, and a BOOL at bit 3. *)
Lemma isolating_user_tag_classifies_witness :
  let d := set_tag_list (TLList (map ISymbol Logix.symbols)) (Logix.session []) in
  exists tags,
    _tag_list (snd (_isolating_user_tag (cb := Logix.tables) d))
    = TLList (map ITag tags)
    /\ Forall2 (classified (cb := Logix.tables))
         (List.filter (is_user_symbol (cb := Logix.tables)) Logix.symbols) tags
    /\ length tags = 3%nat.
Proof.
  cbv zeta.
  destruct (isolating_user_tag_classifies (cb := Logix.tables)
              logix_bool_code_agrees Logix.symbols
              (set_tag_list (TLList (map ISymbol Logix.symbols)) (Logix.session []))
              _ eq_refl ltac:(vm_compute; reflexivity)) as (tags & Ht & Hf).
  exists tags. split; [exact Ht|]. split; [exact Hf|].
  apply List.Forall2_length in Hf. rewrite <- Hf. vm_compute. reflexivity.
Defined.

(** ** C3: the rows of a multi read *)


Section MultiRead.
Context {cb : CipBase}.




End MultiRead.



(** ** C8: reading a string *)





Section ReadString.
Context {cb : CipBase}.


End ReadString.



(** ** C7: a multi write with tuples that cannot be sent *)

Section MultiWrite.
Context {cb : CipBase}.







Lemma send_connected_wire mr d o d' :
  send_connected mr d = (o, d') ->
  wire_out d' = wire_out d ++ [connected_frame mr (_target_cid d)].
Proof.
  unfold send_connected, mbind, M_bind, gets. cbv beta iota.
  apply send_unit_data_wire.
Qed.



Lemma ensure_connected_keeps_sequence code text :
  preserves _sequence (ensure_connected code text).
Proof. unfold ensure_connected, forward_open. preserves_tac. Qed.


End MultiWrite.



(** ** The loops come to an end

    The loops of the driver are modelled with as many turns as there are
    replies to come, plus one.  That is enough: every turn that goes on has
    taken a reply off the wire, so no operation runs out of turns. *)

Section Total.

Lemma total_ret {A} (a : A) : total (mret a).
Proof. intros d. discriminate. Qed.

Lemma total_raise {A} (e : exn) : total (@raise A e).
Proof. intros d. discriminate. Qed.

Lemma total_gets {A} (g : Driver -> A) : total (gets g).
Proof. intros d. discriminate. Qed.

Lemma total_modify (g : Driver -> Driver) : total (modify g).
Proof. intros d. discriminate. Qed.

Lemma total_liftR {A} (r : result A) : total (liftR r).
Proof. destruct r; intros d; discriminate. Qed.

Lemma total_lookup {A} (o : option A) : total (lookup_or_raise o).
Proof. destruct o; intros d; discriminate. Qed.

Lemma total_bind {A B} (m : M A) (k : A -> M B) :
  total m -> (forall a, total (k a)) -> total (m ≫= k).
Proof.
  intros Hm Hk d. unfold mbind, M_bind. specialize (Hm d).
  destruct (m d) as [[a| e |] d1]; cbn in *;
    [apply Hk | discriminate | contradiction].
Qed.

Lemma total_data_error {A} (m : M A) :
  total m -> total (data_error_on_exception m).
Proof.
  intros Hm d. unfold data_error_on_exception. specialize (Hm d).
  destruct (m d) as [[a| e |] d1]; cbn in *; [discriminate ..|contradiction].
Qed.

Lemma total_for_each {A B} (l : list A) (body : A -> M (option B)) :
  (forall x, total (body x)) -> total (for_each l body).
Proof.
  intros Hb. induction l as [|x r IH]; cbn [for_each].
  - apply total_ret.
  - apply total_bind; [apply Hb|]. intros [b|]; [apply total_ret | apply IH].
Qed.

Lemma steady_of_preserves {A} (m : M A) : preserves wire_in m -> steady m.
Proof. intros H d o d' E. unfold pending. rewrite (H _ _ _ E). lia. Qed.

Lemma steady_bind {A B} (m : M A) (k : A -> M B) :
  steady m -> (forall a, steady (k a)) -> steady (m ≫= k).
Proof.
  intros Hm Hk d o d'. unfold mbind, M_bind.
  destruct (m d) as [[a| e |] d1] eqn:E; intros H.
  - pose proof (Hm _ _ _ E). pose proof (Hk _ _ _ _ H). lia.
  - injection H as <- <-. eapply Hm, E.
  - injection H as <- <-. eapply Hm, E.
Qed.

Lemma consuming_ret {A} (P : A -> Prop) (a : A) : ~ P a -> consuming_if P (mret a).
Proof. intros Hn d a' d' [= <- <-] Hp. contradiction. Qed.

Lemma consuming_raise {A} (P : A -> Prop) (e : exn) : consuming_if P (raise e).
Proof. intros d a d' H. discriminate. Qed.

(** A step that consumes when its value satisfies [Q], followed by steps
    that put nothing back. *)
Lemma consuming_bind_l {A B} (Q : A -> Prop) (P : B -> Prop) (m : M A)
    (k : A -> M B) :
  steady m -> consuming_if Q m -> (forall a, steady (k a)) ->
  (forall a, Q a \/ consuming_if P (k a)) ->
  consuming_if P (m ≫= k).
Proof.
  intros Hst Hm Hs Hk d b d' H Hp.
  apply bind_ret_inv in H as (a & d1 & E & H).
  pose proof (Hst _ _ _ E). pose proof (Hs _ _ _ _ H).
  destruct (Hk a) as [Hq|Hc].
  - pose proof (Hm _ _ _ E Hq). lia.
  - pose proof (Hc _ _ _ H Hp). lia.
Qed.

Lemma consuming_bind_r {A B} (P : B -> Prop) (m : M A) (k : A -> M B) :
  steady m -> (forall a, consuming_if P (k a)) -> consuming_if P (m ≫= k).
Proof.
  intros Hst Hk d b d' H Hp.
  apply bind_ret_inv in H as (a & d1 & E & H).
  pose proof (Hst _ _ _ E). pose proof (Hk _ _ _ _ H Hp). lia.
Qed.

(** A loop whose turns consume comes to an end within the replies that are
    pending, plus one. *)
Lemma while_loop_total {A} (cond : Driver -> bool) (body : M (option A)) :
  total body -> consuming_if (fun r => r = None) body ->
  forall fuel d, (pending d < fuel)%nat ->
    fst (while_loop fuel cond body d) <> Diverge.
Proof.
  intros Ht Hc. induction fuel as [|k IH]; intros d Hf; [lia|].
  cbn [while_loop]. destruct (cond d); [|discriminate].
  specialize (Ht d).
  destruct (body d) as [[[a|]| e |] d1] eqn:E; cbn in *;
    [discriminate | | discriminate | contradiction].
  apply IH. pose proof (Hc _ _ _ E eq_refl). lia.
Qed.

Lemma fueled_while_total {A B} (cond : Driver -> bool) (body : M (option A))
    (k : option A -> M B) :
  total body -> consuming_if (fun r => r = None) body ->
  (forall r, total (k r)) ->
  total (fuel ← gets (fun d => S (length (wire_in d)));
         while_loop fuel cond body ≫= k).
Proof.
  intros Ht Hc Hk d. unfold mbind, M_bind, gets. cbv beta iota.
  pose proof (while_loop_total cond body Ht Hc (S (length (wire_in d))) d
                ltac:(unfold pending; lia)) as Hw.
  destruct (while_loop _ cond body d) as [[r| e |] d1]; cbn in *;
    [apply Hk | discriminate | contradiction].
Qed.

End Total.

Ltac total_step :=
  lazymatch goal with
  | |- total (mbind _ _) => apply total_bind; [|intros ?]
  | |- total (mret _) => apply total_ret
  | |- total (raise _) => apply total_raise
  | |- total (gets _) => apply total_gets
  | |- total (modify _) => apply total_modify
  | |- total (liftR _) => apply total_liftR
  | |- total (lookup_or_raise _) => apply total_lookup
  | |- total (data_error_on_exception _) => apply total_data_error
  | |- total (for_each _ _) => apply total_for_each; intros ?
  | |- total (match ?x with _ => _ end) => destruct x
  | |- total (let _ := _ in _) => cbv zeta
  end.

Ltac total_tac := repeat (first [solve [auto] | total_step]).

Ltac steady_step :=
  lazymatch goal with
  | |- steady (mbind _ _) => apply steady_bind; [|intros ?]
  | |- steady (match ?x with _ => _ end) => destruct x
  | |- steady (let _ := _ in _) => cbv zeta
  | |- steady _ => apply steady_of_preserves; solve [preserves_tac]
  end.

Ltac steady_tac := repeat (first [solve [auto] | steady_step]).

Section Termination.
Context {cb : CipBase}.

Lemma parse_structure_makeup_total start status :
  total (_parse_structure_makeup_attributes start status).
Proof.
  unfold _parse_structure_makeup_attributes, buffer_setitem, reply_bytes.
  total_tac.
Qed.

Lemma check_reply_total : total _check_reply.
Proof.
  unfold _check_reply, check_unit_data_reply.
  pose proof parse_fragment_total as H1.
  pose proof parse_instance_attribute_list_total as H2.
  pose proof parse_structure_makeup_total as H3.
  pose proof parse_template_total as H4.
  total_tac; intros d0; auto.
Qed.

Lemma send_unit_data_total msg : total (send_unit_data msg).
Proof. unfold send_unit_data. pose proof check_reply_total. total_tac. Qed.

(** [send_unit_data] takes the next reply off the wire, and answers a reply
    only when there was one. *)
Lemma send_unit_data_takes msg d o d' :
  send_unit_data msg d = (o, d') ->
  wire_in d' = tail (wire_in d)
  /\ forall r, o = Ret (Some r) -> wire_in d <> [].
Proof.
  unfold send_unit_data.
  unfold mbind at 1 2 3 4, M_bind at 1 2 3 4, modify, gets. cbv beta iota.
  cbn [wire_in set_wire_out set_message].
  destruct (wire_in d) as [|r0 rest] eqn:Ew; unfold mbind at 1, M_bind at 1, modify;
    cbv beta iota; unfold mbind, M_bind;
    match goal with
    | |- context [_check_reply ?s] =>
        destruct (_check_reply s) as [[[|]| e |] s1] eqn:Ec;
        apply check_reply_keeps_link in Ec;
        unfold link in Ec; injection Ec as _ Hin _ _ _ _ _ _ Hrep
    end;
    cbn [wire_in _reply set_reply set_wire_in set_wire_out set_message] in Hin, Hrep;
    rewrite ?Ew in Hin;
    unfold gets, mret, M_ret; intros [= <- <-];
    (split; [exact Hin|]); intros r; try discriminate.
  rewrite Hrep. discriminate.
Qed.

Lemma send_unit_data_steady msg : steady (send_unit_data msg).
Proof.
  intros d o d' H. apply send_unit_data_takes in H as [H _].
  unfold pending. rewrite H. destruct (wire_in d); cbn; lia.
Qed.

Lemma send_unit_data_consuming msg :
  consuming_if (fun r => r <> None) (send_unit_data msg).
Proof.
  intros d [r|] d' H Hr; [|contradiction].
  apply send_unit_data_takes in H as [H Hne].
  unfold pending. rewrite H. specialize (Hne r eq_refl).
  destruct (wire_in d); [contradiction | cbn; lia].
Qed.

Lemma send_connected_total mr : total (send_connected mr).
Proof. unfold send_connected. pose proof send_unit_data_total. total_tac. Qed.

Lemma send_connected_steady mr : steady (send_connected mr).
Proof. unfold send_connected. pose proof send_unit_data_steady. steady_tac. Qed.

Lemma send_connected_consuming mr :
  consuming_if (fun r => r <> None) (send_connected mr).
Proof.
  unfold send_connected. apply consuming_bind_r; [steady_tac|].
  intros cid. apply send_unit_data_consuming.
Qed.

Ltac consuming_step :=
  lazymatch goal with
  | |- consuming_if _ (mbind _ (send_connected _)) =>
      apply (consuming_bind_l (fun r : option bytes => r <> None));
        [ apply send_connected_steady | apply send_connected_consuming
        | intros ?; steady_tac | intros [?|]; [left; discriminate | right] ]
  | |- consuming_if _ (mbind _ _) => apply consuming_bind_r; [steady_tac | intros ?]
  | |- consuming_if _ (mret _) => apply consuming_ret; discriminate
  | |- consuming_if _ (raise _) => apply consuming_raise
  | |- consuming_if _ (match ?x with _ => _ end) => destruct x
  | |- consuming_if _ (let _ := _ in _) => cbv zeta
  end.

Ltac consuming_tac := repeat consuming_step.

Lemma ensure_connected_total code text : total (ensure_connected code text).
Proof. unfold ensure_connected, forward_open. total_tac. Qed.

Lemma multi_read_replies_total n reply tags tag_bits index position acc :
  total (multi_read_replies n reply tags tag_bits index position acc).
Proof.
  revert index position acc. induction n as [|k IH]; intros index position acc;
    cbn [multi_read_replies]; total_tac.
Qed.

Lemma multi_write_replies_total n reply tags index position acc :
  total (multi_write_replies n reply tags index position acc).
Proof.
  revert index position acc. induction n as [|k IH]; intros index position acc;
    cbn [multi_write_replies]; total_tac.
Qed.

Lemma read_tag_requests_total ts tag tag_bits tags_read rp_list :
  total (read_tag_requests ts tag tag_bits tags_read rp_list).
Proof.
  revert tag_bits tags_read rp_list.
  induction ts as [|t r IH]; intros tag_bits tags_read rp_list;
    cbn [read_tag_requests]; total_tac.
Qed.

Lemma read_tag_total tag : total (read_tag tag).
Proof.
  unfold read_tag, clear, _get_sequence, read_tag_value,
    _parse_multiple_request_read, reply_bytes.
  pose proof ensure_connected_total. pose proof send_connected_total.
  pose proof read_tag_requests_total. pose proof multi_read_replies_total.
  total_tac.
Qed.

Lemma read_array_step_consuming tag counts :
  consuming_if (fun r => r = None) (read_array_step tag counts).
Proof. unfold read_array_step, _get_sequence. consuming_tac. Qed.

Lemma read_array_total tag counts raw : total (read_array tag counts raw).
Proof.
  unfold read_array, clear.
  pose proof ensure_connected_total.
  do 6 (apply total_bind; [total_tac | intros ?]).
  apply fueled_while_total.
  - unfold read_array_step, _get_sequence.
    pose proof send_connected_total. total_tac.
  - apply read_array_step_consuming.
  - intros r. total_tac.
Qed.

Lemma multi_write_requests_total ts tags rp_list tags_added :
  total (multi_write_requests ts tags rp_list tags_added).
Proof.
  revert rp_list tags_added.
  induction ts as [|[[name value] typ] r IH]; intros rp_list tags_added;
    cbn [multi_write_requests]; total_tac.
Qed.

Lemma write_tag_total arg : total (write_tag arg).
Proof.
  unfold write_tag, clear, _write_tag_multi_write, _write_tag_single_write,
    _get_sequence, _parse_multiple_request_write, reply_bytes.
  pose proof ensure_connected_total. pose proof send_connected_total.
  pose proof multi_write_requests_total. pose proof multi_write_replies_total.
  total_tac.
Qed.

Lemma instance_list_request_total program : total (instance_list_request program).
Proof.
  unfold instance_list_request, _get_sequence.
  pose proof send_connected_total. total_tac.
Qed.

Lemma instance_list_request_consuming program :
  consuming_if (fun _ => True) (instance_list_request program).
Proof. unfold instance_list_request, _get_sequence. consuming_tac. Qed.

Lemma instance_list_loop_total fuel program d :
  (pending d < fuel)%nat -> fst (instance_list_loop fuel program d) <> Diverge.
Proof.
  revert program d. induction fuel as [|k IH]; intros program d Hf; [lia|].
  cbn [instance_list_loop]. unfold mbind at 1, M_bind at 1, gets. cbv beta iota.
  destruct (negb (_last_instance d =? -1)); [|discriminate].
  unfold mbind, M_bind.
  pose proof (instance_list_request_total program d) as Ht.
  destruct (instance_list_request program d) as [[p| e |] d1] eqn:E; cbn in *;
    [| discriminate | contradiction].
  apply IH. pose proof (instance_list_request_consuming _ _ _ _ E I). lia.
Qed.

Lemma get_instance_attribute_list_service_total program :
  total (_get_instance_attribute_list_service program).
Proof.
  unfold _get_instance_attribute_list_service.
  apply total_data_error.
  pose proof ensure_connected_total.
  do 3 (apply total_bind; [total_tac | intros ?]).
  intros d. unfold mbind, M_bind, gets, modify. cbv beta iota.
  pose proof (instance_list_loop_total (S (length (wire_in d))) program d
                ltac:(unfold pending; lia)) as Hl.
  destruct (instance_list_loop _ program d) as [[u| e |] d1]; cbn in *;
    [discriminate | discriminate | contradiction].
Qed.

Lemma get_structure_makeup_total i : total (_get_structure_makeup i).
Proof.
  unfold _get_structure_makeup, template_request, _get_sequence.
  pose proof ensure_connected_total. pose proof send_connected_total.
  total_tac.
Qed.

Lemma read_template_step_consuming i s :
  consuming_if (fun r => r = None) (read_template_step i s).
Proof.
  unfold read_template_step, template_request, _get_sequence. consuming_tac.
Qed.

Lemma read_template_total i s : total (_read_template i s).
Proof.
  unfold _read_template.
  pose proof ensure_connected_total.
  apply total_bind; [total_tac | intros ?].
  apply total_bind; [total_tac | intros cache].
  apply total_bind; [|intros ?; total_tac].
  destruct (cache !! i); [total_tac|].
  do 3 (apply total_bind; [total_tac | intros ?]).
  apply total_data_error. apply fueled_while_total.
  - unfold read_template_step, template_request, _get_sequence.
    pose proof send_connected_total. total_tac.
  - apply read_template_step_consuming.
  - intros r. total_tac.
Qed.

Lemma isolating_user_tag_total : total _isolating_user_tag.
Proof.
  unfold _isolating_user_tag, isolate_item, isolate_symbol, tag_list_append.
  total_tac.
Qed.

Lemma read_string_total tag str_len : total (read_string tag str_len).
Proof.
  unfold read_string, string_length.
  pose proof read_tag_total. pose proof read_array_total. total_tac.
Qed.

(** No operation of the driver runs out of turns: each comes to an end, by
    returning or by raising. *)
Theorem operations_terminate :
  (forall tag, total (read_tag tag))
  /\ (forall tag counts raw, total (read_array tag counts raw))
  /\ (forall arg, total (write_tag arg))
  /\ (forall tag str_len, total (read_string tag str_len))
  /\ (forall program, total (_get_instance_attribute_list_service program))
  /\ (forall i, total (_get_structure_makeup i))
  /\ (forall i s, total (_read_template i s))
  /\ total _isolating_user_tag.
Proof.
  repeat split; intros.
  - apply read_tag_total.
  - apply read_array_total.
  - apply write_tag_total.
  - apply read_string_total.
  - apply get_instance_attribute_list_service_total.
  - apply get_structure_makeup_total.
  - apply read_template_total.
  - apply isolating_user_tag_total.
Qed.

End Termination.

(** * Further properties *)

(** ** What the operations do beyond the claims *)

(** Taking a run that returned apart, one step at a time. *)
Lemma data_error_raise_inv {A} (m : M A) d e d' :
  data_error_on_exception m d = (Raise e, d') -> e = DataError.
Proof.
  unfold data_error_on_exception.
  destruct (m d) as [[a| e0 |] d1]; intros [= <- <-] || intros [=]; reflexivity.
Qed.

Lemma gets_ret_inv {A} (f : Driver -> A) d a d' :
  gets f d = (Ret a, d') -> a = f d /\ d' = d.
Proof. intros [= <- <-]. auto. Qed.

Lemma modify_ret_inv (g : Driver -> Driver) d u d' :
  modify g d = (Ret u, d') -> d' = g d.
Proof. intros [= <- <-]. reflexivity. Qed.

Lemma mret_ret_inv {A} (a b : A) (d d' : Driver) :
  (mret a : M A) d = (Ret b, d') -> b = a /\ d' = d.
Proof. intros [= <- <-]. auto. Qed.

Lemma lookup_ret_inv {A} (o : option A) d a d' :
  lookup_or_raise o d = (Ret a, d') -> o = Some a /\ d' = d.
Proof.
  unfold lookup_or_raise. intros H. apply liftR_ret_inv in H as [H ->].
  destruct o; [injection H as ->; auto | discriminate].
Qed.

Lemma get_sequence_ret {cb : CipBase} d s d' :
  _get_sequence d = (Ret s, d') ->
  s = next_sequence (_sequence d) /\ d' = set_sequence s d.
Proof. intros [= <- <-]. auto. Qed.

(** [step H as a d E]: the first action of the run [H] returned [a] and left
    the driver [d]; what is known of it is [E], and [H] is the run of the
    rest. *)
Ltac step_with H a d E :=
  apply bind_ret_inv in H as (a & d & E & H);
  lazymatch type of E with
  | gets _ _ = _ => apply gets_ret_inv in E as [-> ->]
  | modify _ _ = _ => apply modify_ret_inv in E as ->
  | mret _ _ = _ => apply mret_ret_inv in E as [-> ->]
  | lookup_or_raise _ _ = _ => apply lookup_ret_inv in E as [E ->]
  | liftR _ _ = _ => apply liftR_ret_inv in E as [E ->]
  | reply_bytes _ = _ => apply reply_bytes_ret_inv in E as [E ->]
  | _get_sequence _ = _ => apply get_sequence_ret in E as [-> ->]
  | _ => idtac
  end;
  cbv zeta in H.

Tactic Notation "step" hyp(H) "as" ident(a) ident(d) ident(E) :=
  step_with H a d E.

Tactic Notation "step" hyp(H) "as" ident(a) ident(E) :=
  let d := fresh "d" in step_with H a d E.

Tactic Notation "step" hyp(H) :=
  let a := fresh "a" in let d := fresh "d" in let E := fresh "E" in
  step_with H a d E.

Section Gate.
Context {cb : CipBase}.

Lemma ensure_connected_refuses code text d :
  session_opens d = false ->
  exists d', ensure_connected code text d = (Raise DataError, d')
    /\ _status d' = (code, text) /\ wire_out d' = wire_out d
    /\ wire_in d' = wire_in d.
Proof.
  unfold session_opens, ensure_connected, forward_open, mbind, M_bind, gets,
    modify, mret, M_ret, raise.
  destruct (_target_is_connected d); [discriminate|]. cbn [orb].
  destruct (open_script d) as [|[cid|] r]; [|discriminate|];
    intros _; eexists; repeat split.
Qed.

(** No operation runs without a session.  When the target is not connected
    and [forward_open] is refused, each of them raises [DataError], leaves
    its own status code (6 to 10) and sends nothing; [_read_template]
    refuses even a template it has cached, [_get_structure_makeup] only a
    makeup it has not. *)
Theorem operations_need_a_session (d : Driver) :
  session_opens d = false ->
  (forall tag, exists d', read_tag tag d = (Raise DataError, d')
     /\ fst (_status d') = 6 /\ wire_out d' = wire_out d)
  /\ (forall tag counts raw, exists d',
        read_array tag counts raw d = (Raise DataError, d')
        /\ fst (_status d') = 7 /\ wire_out d' = wire_out d)
  /\ (forall arg, exists d', write_tag arg d = (Raise DataError, d')
        /\ fst (_status d') = 8 /\ wire_out d' = wire_out d)
  /\ (forall tag values data_type raw, exists d',
        write_array tag (ArrayList values) data_type raw d
        = (Raise DataError, d')
        /\ fst (_status d') = 9 /\ wire_out d' = wire_out d)
  /\ (forall program, exists d',
        _get_instance_attribute_list_service program d = (Raise DataError, d')
        /\ fst (_status d') = 10 /\ wire_out d' = wire_out d)
  /\ (forall i, _struct_cache d !! i = None -> exists d',
        _get_structure_makeup i d = (Raise DataError, d')
        /\ fst (_status d') = 10 /\ wire_out d' = wire_out d)
  /\ (forall i s, exists d', _read_template i s d = (Raise DataError, d')
        /\ fst (_status d') = 10 /\ wire_out d' = wire_out d).
Proof.
  intros Hno.
  assert (Hgate : forall code text d0,
            session_opens d0 = session_opens d -> wire_out d0 = wire_out d ->
            exists d', ensure_connected code text d0 = (Raise DataError, d')
              /\ fst (_status d') = code /\ wire_out d' = wire_out d).
  { intros code text d0 Hs Hw. rewrite Hno in Hs.
    destruct (ensure_connected_refuses code text d0 Hs) as (d' & H & Hst & Hw' & _).
    exists d'. rewrite Hst. split; [exact H|]. split; [reflexivity | congruence]. }
  repeat split.
  - intros tag.
    destruct (Hgate 6 "Target did not connected. read_tag will not be executed."
                (set_status (0, "") d) eq_refl eq_refl) as (d' & H & ?).
    exists d'. split; [|assumption]. unfold read_tag, clear.
    erewrite run_bind_ret by reflexivity. erewrite run_bind_raise by exact H.
    reflexivity.
  - intros tag counts raw.
    destruct (Hgate 7 "Target did not connected. read_tag will not be executed."
                (set_status (0, "") d) eq_refl eq_refl) as (d' & H & ?).
    exists d'. split; [|assumption]. unfold read_array, clear.
    erewrite run_bind_ret by reflexivity. erewrite run_bind_raise by exact H.
    reflexivity.
  - intros arg.
    destruct (Hgate 8 "Target did not connected. write_tag will not be executed."
                (set_status (0, "") d) eq_refl eq_refl) as (d' & H & ?).
    exists d'. split; [|assumption]. unfold write_tag, clear.
    erewrite run_bind_ret by reflexivity. erewrite run_bind_raise by exact H.
    reflexivity.
  - intros tag values data_type raw.
    destruct (Hgate 9 "Target did not connected. write_array will not be executed."
                (set_status (0, "") d) eq_refl eq_refl) as (d' & H & ?).
    exists d'. split; [|assumption]. unfold write_array, clear.
    erewrite run_bind_ret by reflexivity. erewrite run_bind_raise by exact H.
    reflexivity.
  - intros program.
    destruct (Hgate 10 "Target did not connected. get_tag_list will not be executed."
                d eq_refl eq_refl) as (d' & H & ?).
    exists d'. split; [|assumption].
    unfold _get_instance_attribute_list_service, data_error_on_exception.
    erewrite run_bind_raise by exact H. reflexivity.
  - intros i Hi.
    destruct (Hgate 10 "Target did not connected. get_tag_list will not be executed."
                d eq_refl eq_refl) as (d' & H & ?).
    exists d'. split; [|assumption]. unfold _get_structure_makeup.
    erewrite run_bind_ret by reflexivity. rewrite Hi.
    erewrite run_bind_raise by (erewrite run_bind_raise by exact H; reflexivity).
    reflexivity.
  - intros i s.
    destruct (Hgate 10 "Target did not connected. get_tag_list will not be executed."
                d eq_refl eq_refl) as (d' & H & ?).
    exists d'. split; [|assumption]. unfold _read_template.
    erewrite run_bind_raise by exact H. reflexivity.
Qed.

End Gate.

(** ** Invariants and postconditions *)

Section Maintains.
Context (I : Driver -> Prop).

Lemma maintains_of_preserves {A X} (f : Driver -> X) (m : M A) :
  (forall d d', f d' = f d -> I d -> I d') -> preserves f m -> maintains I m.
Proof. intros Hf Hm d o d' H. apply Hf. eapply Hm, H. Qed.

Lemma maintains_ret {A} (a : A) : maintains I (mret a).
Proof. intros d o d' [= <- <-]. auto. Qed.

Lemma maintains_raise {A} (e : exn) : maintains I (@raise A e).
Proof. intros d o d' [= <- <-]. auto. Qed.

Lemma maintains_diverge {A} : maintains I (@diverge A).
Proof. intros d o d' [= <- <-]. auto. Qed.

Lemma maintains_gets {A} (g : Driver -> A) : maintains I (gets g).
Proof. intros d o d' [= <- <-]. auto. Qed.

Lemma maintains_modify (g : Driver -> Driver) :
  (forall d, I d -> I (g d)) -> maintains I (modify g).
Proof. intros H d o d' [= <- <-]. apply H. Qed.

Lemma maintains_bind {A B} (m : M A) (k : A -> M B) :
  maintains I m -> (forall a, maintains I (k a)) -> maintains I (m ≫= k).
Proof.
  intros Hm Hk d o d'. unfold mbind, M_bind.
  destruct (m d) as [[a| e |] d1] eqn:E; intros H Hd.
  - eapply Hk; [exact H|]. eapply Hm; eauto.
  - injection H as <- <-. eapply Hm; eauto.
  - injection H as <- <-. eapply Hm; eauto.
Qed.

Lemma maintains_liftR {A} (r : result A) : maintains I (liftR r).
Proof. destruct r; [apply maintains_raise | apply maintains_ret]. Qed.

Lemma maintains_lookup {A} (o : option A) : maintains I (lookup_or_raise o).
Proof. destruct o; [apply maintains_ret | apply maintains_raise]. Qed.

Lemma maintains_data_error {A} (m : M A) :
  maintains I m -> maintains I (data_error_on_exception m).
Proof.
  intros Hm d o d'. unfold data_error_on_exception.
  destruct (m d) as [[a| e |] d1] eqn:E; intros [= <- <-]; eapply Hm, E.
Qed.

Lemma maintains_while {A} (fuel : nat) (cond : Driver -> bool)
    (body : M (option A)) :
  maintains I body -> maintains I (while_loop fuel cond body).
Proof.
  intros Hb. induction fuel as [|k IH]; intros d o d'; simpl.
  - destruct (cond d); intros [= <- <-]; auto.
  - destruct (cond d); [|intros [= <- <-]; auto].
    destruct (body d) as [[[a|]| e |] d1] eqn:E.
    + intros [= <- <-]. eapply Hb, E.
    + intros H Hd. eapply IH; [exact H|]. eapply Hb; eauto.
    + intros [= <- <-]. eapply Hb, E.
    + intros [= <- <-]. eapply Hb, E.
Qed.

End Maintains.

Ltac maintains_step :=
  lazymatch goal with
  | |- maintains _ (mbind _ _) => apply maintains_bind; [|intros ?]
  | |- maintains _ (mret _) => apply maintains_ret
  | |- maintains _ (raise _) => apply maintains_raise
  | |- maintains _ diverge => apply maintains_diverge
  | |- maintains _ (gets _) => apply maintains_gets
  | |- maintains _ (modify _) =>
      apply maintains_modify; let Hm := fresh in intros ? Hm; exact Hm
  | |- maintains _ (liftR _) => apply maintains_liftR
  | |- maintains _ (lookup_or_raise _) => apply maintains_lookup
  | |- maintains _ (data_error_on_exception _) => apply maintains_data_error
  | |- maintains _ (while_loop _ _ _) => apply maintains_while
  | |- maintains _ (match ?x with _ => _ end) => destruct x
  | |- maintains _ (let _ := _ in _) => cbv zeta
  end.

Ltac maintains_tac := repeat (first [solve [auto] | maintains_step]).

Section Ensures.
Context {A : Type} (P : Driver -> Prop) (Q : outcome A -> Driver -> Prop).

Lemma ensures_ret (a : A) :
  (forall d, P d -> Q (Ret a) d) -> ensures P (mret a) Q.
Proof. intros H d o d' [= <- <-]. apply H. Qed.

Lemma ensures_raise (e : exn) :
  (forall d, P d -> Q (Raise e) d) -> ensures P (raise e) Q.
Proof. intros H d o d' [= <- <-]. apply H. Qed.

(** A first step that keeps [P], whatever it does. *)
Lemma ensures_bind {B} (m : M B) (k : B -> M A) :
  maintains P m ->
  (forall e d, P d -> Q (Raise e) d) -> (forall d, P d -> Q Diverge d) ->
  (forall b, ensures P (k b) Q) ->
  ensures P (m ≫= k) Q.
Proof.
  intros Hm He Hd Hk d o d'. unfold mbind, M_bind.
  destruct (m d) as [[b| e |] d1] eqn:E; intros H Hp;
    pose proof (Hm _ _ _ E Hp) as Hp1.
  - eapply Hk; eauto.
  - injection H as <- <-. auto.
  - injection H as <- <-. auto.
Qed.

Lemma ensures_of_maintains (m : M A) :
  maintains P m -> (forall o d, P d -> Q o d) -> ensures P m Q.
Proof. intros Hm Hq d o d' H Hp. apply Hq. eapply Hm; eauto. Qed.

Lemma ensures_data_error (m : M A) :
  ensures P m (fun o d =>
    Q (match o with Raise _ => Raise DataError | _ => o end) d) ->
  ensures P (data_error_on_exception m) Q.
Proof.
  intros Hm d o d'. unfold data_error_on_exception.
  destruct (m d) as [[a| e |] d1] eqn:E; intros [= <- <-] Hp;
    apply (Hm _ _ _ E Hp).
Qed.

End Ensures.

Ltac ensures_step :=
  lazymatch goal with
  | |- ensures _ (mbind _ (modify _)) _ =>
      let Hp := fresh "Hp" in intros ? ? ? [= <- <-] Hp
  | |- ensures _ (mbind _ _) _ =>
      apply ensures_bind; [ | intros ? ? ? | intros ? ? | intros ? ]
  | |- ensures _ (mret _) _ => apply ensures_ret; intros ? ?
  | |- ensures _ (raise _) _ => apply ensures_raise; intros ? ?
  | |- ensures _ (data_error_on_exception _) _ => apply ensures_data_error
  | |- ensures _ (match ?x with _ => _ end) _ => destruct x eqn:?
  | |- ensures _ (let _ := _ in _) _ => cbv zeta
  end.

(** ** The verdict of [_check_reply] *)

Section Dispatcher.
Context {cb : CipBase}.

Lemma tag_list_append_keeps_flags (x : item) : preserves flags (tag_list_append x).
Proof. unfold tag_list_append. preserves_tac. Qed.

Lemma tag_list_iadd_keeps_flags (b : bytes) : preserves flags (tag_list_iadd b).
Proof. unfold tag_list_iadd. preserves_tac. Qed.

Lemma buffer_setitem_keeps_flags k v : preserves flags (buffer_setitem k v).
Proof. unfold buffer_setitem. preserves_tac. Qed.

Lemma buffer_iadd_keeps_flags b : preserves flags (buffer_iadd b).
Proof. unfold buffer_iadd. preserves_tac. Qed.

Lemma instance_entries_keeps_flags fuel bs idx inst :
  preserves flags (instance_entries fuel bs idx inst).
Proof.
  pose proof tag_list_append_keeps_flags.
  revert idx inst. induction fuel as [|k IH]; intros idx inst; simpl;
    preserves_tac.
Qed.

Lemma parse_instance_attribute_list_keeps_flags start status :
  preserves flags (_parse_instance_attribute_list start status).
Proof.
  unfold _parse_instance_attribute_list, reply_bytes.
  pose proof instance_entries_keeps_flags. preserves_tac.
Qed.

Lemma parse_structure_makeup_keeps_flags start status :
  preserves flags (_parse_structure_makeup_attributes start status).
Proof.
  unfold _parse_structure_makeup_attributes, reply_bytes.
  pose proof buffer_setitem_keeps_flags. preserves_tac.
Qed.

Lemma parse_template_keeps_flags start status :
  preserves flags (_parse_template start status).
Proof.
  unfold _parse_template, reply_bytes.
  pose proof buffer_iadd_keeps_flags. preserves_tac.
Qed.

Lemma fragment_values_keeps_flags fuel dt fr idx :
  preserves flags (fragment_values fuel dt fr idx).
Proof.
  pose proof tag_list_append_keeps_flags. pose proof tag_list_iadd_keeps_flags.
  revert idx. induction fuel as [|k IH]; intros idx; simpl; preserves_tac.
Qed.

Lemma parse_fragment_keeps_flags start status :
  preserves flags (_parse_fragment start status).
Proof.
  unfold _parse_fragment, reply_bytes.
  pose proof fragment_values_keeps_flags. preserves_tac.
Qed.

Lemma keeps_no_more_packets {A} (m : M A) :
  preserves flags m ->
  maintains (fun d => _more_packets_available d = false) m.
Proof.
  apply maintains_of_preserves. unfold flags. intros d d' [= ? _ _ _ _ _].
  congruence.
Qed.

(** [_check_reply] answers [False] only with a status of code 3 recorded;
    it lets no exception out but [DataError]; and it leaves
    [_more_packets_available] set only when it has recorded "Insufficient
    Packet Space", in which case its answer is [True]. *)
Theorem check_reply_verdict (d : Driver) (o : outcome bool) (d' : Driver) :
  _check_reply d = (o, d') ->
  (o = Ret false -> fst (_status d') = 3)
  /\ (forall e, o = Raise e -> e = DataError)
  /\ (_more_packets_available d' = true ->
      o = Ret true /\ _status d' = (3, "Insufficient Packet Space")).
Proof.
  intros H.
  cut (ensures (fun d => _more_packets_available d = false)
         (data_error_on_exception (
            r ← gets _reply;
            match r with
            | None =>
                message ← gets _message;
                cmd ← liftR (unpack_dint (slice 0 2 message));
                name ← lookup_or_raise (REPLAY_INFO cmd);
                modify (set_status (3, name +:+ " without reply"));;
                mret false
            | Some reply =>
                typ ← liftR (unpack_uint (slice 0 2 reply));
                enc ← liftR (unpack_dint (slice 8 12 reply));
                if negb (enc =? SUCCESS) then
                  name ← lookup_or_raise (REPLAY_INFO typ);
                  st ← lookup_or_raise (SERVICE_STATUS enc);
                  modify (set_status (3, name +:+ " reply status:" +:+ st));;
                  mret false
                else
                  rr ← liftR (unpack_uint (ENCAPSULATION_COMMAND "send_rr_data"));
                  if typ =? rr then
                    status ← liftR (unpack_usint (slice 42 43 reply));
                    if negb (status =? SUCCESS) then
                      name ← lookup_or_raise (SERVICE_STATUS status);
                      ext ← liftR (get_extended_status reply 42);
                      modify (set_status
                        (3, "send_rr_data reply:" +:+ name +:+ " - Extend status:" +:+ ext));;
                      mret false
                    else mret true
                  else
                    ud ← liftR (unpack_uint (ENCAPSULATION_COMMAND "send_unit_data"));
                    if typ =? ud then check_unit_data_reply reply
                    else mret true
            end))
         (fun o d =>
            (o = Ret false -> fst (_status d) = 3)
            /\ (forall e, o = Raise e -> e = DataError)
            /\ (_more_packets_available d = true ->
                o = Ret true /\ _status d = (3, "Insufficient Packet Space")))).
  { intros Hc. unfold _check_reply in H.
    change (modify (set_more_packets_available false);; ?m) with
      (modify (set_more_packets_available false) ≫= fun _ => m) in H.
    eapply Hc; [exact H | reflexivity]. }
  clear.
  pose proof (fun s st => keeps_no_more_packets _ (parse_fragment_keeps_flags s st)) as K1.
  pose proof (fun s st => keeps_no_more_packets _
                (parse_instance_attribute_list_keeps_flags s st)) as K2.
  pose proof (fun s st => keeps_no_more_packets _
                (parse_structure_makeup_keeps_flags s st)) as K3.
  pose proof (fun s st => keeps_no_more_packets _ (parse_template_keeps_flags s st)) as K4.
  unfold check_unit_data_reply.
  repeat first
    [ progress ensures_step
    | solve [maintains_tac]
    | match goal with
      | Hp : _more_packets_available _ = false |- _ /\ _ =>
          cbn [_more_packets_available set_status set_more_packets_available
               _status fst];
          repeat split; intros; first [discriminate | congruence | reflexivity]
      end ].
Qed.

End Dispatcher.

(** ** The structure makeup *)

Section Makeup.
Context {cb : CipBase}.

Lemma buffer_setitem_ret key v d u d' :
  buffer_setitem key v d = (Ret u, d') ->
  exists m, _buffer d = BufDict m /\ d' = set_buffer (BufDict (<[key := v]> m)) d.
Proof.
  unfold buffer_setitem, mbind, M_bind, gets, modify.
  destruct (_buffer d) as [m|b]; [|discriminate].
  intros [= <-]. eauto.
Qed.

Lemma makeup_attribute_some attribute idx unpack width v :
  makeup_attribute attribute idx unpack width = inr (Some v) ->
  unpack (slice (idx + 2) (idx + 2 + width) attribute) = inr v.
Proof.
  unfold makeup_attribute, mbind, result_bind, mret, result_ret.
  destruct (unpack_uint _) as [e|st]; [discriminate|].
  destruct (st =? SUCCESS); [|discriminate].
  destruct (unpack _) as [e|x]; [discriminate|]. congruence.
Qed.

(** The dictionary [_parse_structure_makeup_attributes] leaves in [_buffer]
    is complete or says why not: for a reply whose status is not SUCCESS it
    is [{'Error': status}], and a dictionary without the key ['Error'] holds
    all four attributes, read from bytes 6..10, 14..18, 22..24 and 28..30
    of the attribute data. *)
Theorem structure_makeup_complete_or_error (start status : Z) (d d' : Driver) :
  _parse_structure_makeup_attributes start status d = (Ret tt, d') ->
  exists m, _buffer d' = BufDict m
    /\ (status <> SUCCESS -> m = {[ "Error" := PInt status ]})
    /\ (m !! "Error" = None ->
        exists reply a b c e,
          _reply d = Some reply
          /\ unpack_dint (slice 6 10 (slice_from start reply)) = inr a
          /\ unpack_dint (slice 14 18 (slice_from start reply)) = inr b
          /\ unpack_uint (slice 22 24 (slice_from start reply)) = inr c
          /\ unpack_uint (slice 28 30 (slice_from start reply)) = inr e
          /\ m = <["structure_handle" := PInt e]>
                 (<["member_count" := PInt c]>
                 (<["structure_size" := PInt b]>
                 (<["object_definition_size" := PInt a]> ∅)))).
Proof.
  intros H. unfold _parse_structure_makeup_attributes in H.
  step H.
  destruct (Z.eqb_spec status SUCCESS) as [E0|N0]; cbn [negb] in H.
  2:{ apply buffer_setitem_ret in H as (m & Hm & ->). injection Hm as <-.
      eexists. split; [reflexivity|]. split; [reflexivity|].
      intros Hn. rewrite lookup_insert in Hn. discriminate. }
  step H as reply Hreply. apply data_error_ret_inv in H.
  change (_reply (set_buffer (BufDict ∅) d)) with (_reply d) in Hreply.
  assert (Herr : forall P : gmap string pyval -> Prop, forall text dx,
            buffer_setitem "Error" (PStr text) dx = (Ret tt, d') ->
            exists m, _buffer d' = BufDict m
              /\ (status <> SUCCESS -> m = {[ "Error" := PInt status ]})
              /\ (m !! "Error" = None -> P m)).
  { intros P text dx Hs. apply buffer_setitem_ret in Hs as (m & Hm & ->).
    eexists. split; [reflexivity|]. split; [contradiction|].
    intros Hn. rewrite lookup_insert in Hn. discriminate. }
  step H as a1 E1. destruct a1 as [v1|]; [|exact (Herr _ _ _ H)].
  step H as u1 d1 S1. apply buffer_setitem_ret in S1 as (m1 & Hm1 & ->).
  injection Hm1 as <-.
  step H as a2 E2. destruct a2 as [v2|]; [|exact (Herr _ _ _ H)].
  step H as u2 d2 S2. apply buffer_setitem_ret in S2 as (m2 & Hm2 & ->).
  injection Hm2 as <-.
  step H as a3 E3. destruct a3 as [v3|]; [|exact (Herr _ _ _ H)].
  step H as u3 d3 S3. apply buffer_setitem_ret in S3 as (m3 & Hm3 & ->).
  injection Hm3 as <-.
  step H as a4 E4. destruct a4 as [v4|]; [|exact (Herr _ _ _ H)].
  apply buffer_setitem_ret in H as (m4 & Hm4 & ->). injection Hm4 as <-.
  eexists. split; [reflexivity|]. split; [contradiction|]. intros _.
  apply makeup_attribute_some in E1, E2, E3, E4.
  exists reply, v1, v2, v3, v4. repeat split; assumption.
Qed.

End Makeup.

(** ** The rows of a multi write *)

Section MultiWriteRows.
Context {cb : CipBase}.

Lemma multi_write_replies_rows n reply tags index position acc d rows d' :
  multi_write_replies n reply tags index position acc d = (Ret rows, d') ->
  0 <= index -> position = 50 + 2 * index ->
  exists new, rows = acc ++ new
    /\ length new = n
    /\ (forall i row, new !! i = Some row ->
          exists t st, tags !! (Z.to_nat index + i)%nat = Some t
            /\ sub_status reply (index + Z.of_nat i) = inr st
            /\ row = (t, if st =? 0 then "GOOD" else "BAD"))
    /\ _last_tag_write d'
       = match last new with Some r => Some r | None => _last_tag_write d end.
Proof.
  revert index position acc d.
  induction n as [|k IH]; intros index position acc d H Hi Hp.
  { injection H as <- <-. exists []. rewrite app_nil_r.
    repeat split; try reflexivity. intros i row Hl. discriminate. }
  cbn [multi_write_replies] in H. cbv zeta in H.
  step H as off Eoff. step H as st Est. step H as t Et. step H.
  apply IH in H as (new & -> & Hlen & Hrows & Hlast); [|lia|lia].
  exists ((t, if st =? 0 then "GOOD" else "BAD") :: new).
  split; [rewrite <- app_assoc; reflexivity|].
  split; [cbn; lia|]. split.
  - intros [|i] row Hl.
    + injection Hl as <-. exists t, st. rewrite Nat.add_0_r, Z.add_0_r.
      split; [exact Et|]. split; [|reflexivity].
      unfold sub_status. subst position.
      replace (52 + 2 * index) with (50 + 2 * index + 2) by lia.
      replace (54 + 2 * index) with (50 + 2 * index + 2 + 2) by lia.
      rewrite Eoff. exact Est.
    + cbn in Hl. destruct (Hrows i row Hl) as (t' & st' & Ht' & Hs' & ->).
      exists t', st'. split; [|split; [|reflexivity]].
      * rewrite <- Ht'. f_equal. lia.
      * rewrite <- Hs'. f_equal. lia.
  - rewrite Hlast. cbn [_last_tag_write set_last_tag_write].
    destruct new as [|r new']; [reflexivity|].
    rewrite last_cons_cons. destruct (last (r :: new')) eqn:El; [reflexivity|].
    apply last_None in El. discriminate.
Qed.

(** The rows [_parse_multiple_request_write] returns: one per sub-response
    of the reply, in order; row [i] is the [i]-th tuple handed in, marked
    ['GOOD'] when the general status of sub-response [i] is 0 and ['BAD']
    otherwise; and [get_last_tag_write] then answers the last row.  (With
    fewer tuples than sub-responses the parser raises instead.) *)
Theorem multi_write_rows (tags : list write_tuple) (d : Driver)
    (rows : list write_row) (d' : Driver) :
  _parse_multiple_request_write tags d = (Ret rows, d') ->
  exists reply n,
    _reply d = Some reply
    /\ unpack_uint (slice 50 52 reply) = inr n
    /\ length rows = Z.to_nat n
    /\ (forall i row, rows !! i = Some row ->
          exists t st, tags !! i = Some t
            /\ sub_status reply (Z.of_nat i) = inr st
            /\ row = (t, if st =? 0 then "GOOD" else "BAD"))
    /\ (rows <> [] -> get_last_tag_write d' = (Ret (last rows), d')).
Proof.
  intros H. unfold _parse_multiple_request_write in H. cbv zeta in H.
  apply data_error_ret_inv in H.
  step H as reply Hreply. step H as n Hn.
  apply multi_write_replies_rows in H as (new & -> & Hlen & Hrows & Hlast);
    [|lia|lia].
  exists reply, n. split; [exact Hreply|]. split; [exact Hn|].
  split; [exact Hlen|]. split; [exact Hrows|].
  intros Hne. unfold get_last_tag_write, gets. rewrite Hlast.
  cbn [app]. destruct (last new) eqn:El; [reflexivity|].
  apply last_None in El. contradiction.
Qed.

End MultiWriteRows.

(** ** What [read_tag] answers for one tag *)

Section ReadOne.
Context {cb : CipBase}.

(** A reply that [send_unit_data] hands back is the one that was next on
    the wire, and it is what [_reply] holds. *)
Lemma send_connected_ret mr d r d' :
  send_connected mr d = (Ret (Some r), d') ->
  _reply d' = Some r /\ wire_in d = Some r :: wire_in d'
  /\ _target_is_connected d' = _target_is_connected d.
Proof.
  intros H. unfold send_connected in H. step H.
  unfold send_unit_data in H. cbv zeta in H.
  step H. step H. step H.
  cbn [wire_in set_wire_out set_message] in H.
  step H as u d1 Hrecv. step H as ok d2 Hcheck.
  pose proof (check_reply_keeps_link _ _ _ Hcheck) as Hl.
  unfold link in Hl. injection Hl as _ Hin _ Hc _ _ _ _ Hrep.
  destruct ok.
  2:{ apply mret_ret_inv in H as [[=] _]. }
  apply gets_ret_inv in H as [Hr ->]. rewrite Hrep in Hr.
  destruct (wire_in d) as [|r0 rest] eqn:Ew.
  - apply modify_ret_inv in Hrecv as ->. discriminate.
  - step Hrecv. apply modify_ret_inv in Hrecv as ->.
    cbn in Hr, Hin, Hc, Hrep. rewrite <- Hr in Hrep |- *.
    rewrite Hrep, Hin, Hc. auto.
Qed.

(** What [read_tag] returns for one tag.  [None] comes only with a status
    whose code is not 0.  A pair [(value, typ)] comes only with status code
    0 (no status was recorded since the call began), and it is read from the
    reply that was next on the wire: [typ] is the name of the type code at
    bytes 50..52, and the value is the decoding of the bytes from 52 on, or,
    for a tag that names a bit, that bit of it. *)
Theorem read_tag_one_result (tag : string) (d : Driver) (r : read_result)
    (d' : Driver) :
  read_tag (OneTag tag) d = (Ret r, d') ->
  match r with
  | ReadNone => fst (_status d') <> 0
  | ReadValue value typ =>
      fst (_status d') = 0
      /\ exists reply code unpack whole,
           wire_in d = Some reply :: wire_in d'
           /\ unpack_uint (slice 50 52 reply) = inr code
           /\ I_DATA_TYPE code = Some typ
           /\ UNPACK_DATA_FUNCTION typ = Some unpack
           /\ unpack (slice_from 52 reply) = inr whole
           /\ match snd (_prep_bools tag "BOOL" true) with
              | Some bit => bit_or_none whole bit typ = inr value
              | None => value = whole
              end
  | ReadRows _ => False
  end.
Proof.
  intros H. unfold read_tag, clear in H.
  step H. step H as u d1 Hgate.
  assert (Hw1 : wire_in d1 = wire_in d).
  { assert (Hp : preserves wire_in (ensure_connected 6
              "Target did not connected. read_tag will not be executed."))
      by (unfold ensure_connected, forward_open; preserves_tac).
    exact (Hp _ _ _ Hgate). }
  destruct (_prep_bools tag "BOOL" true) as [base bit]. cbn [snd].
  destruct (create_tag_rp base false) as [rp|].
  2:{ step H. apply mret_ret_inv in H as [-> ->]. cbn. discriminate. }
  step H. step H as s Hs. step H as size Hsize.
  step H as one Hone.
  step H as reply d2 Hsend.
  destruct reply as [reply|]; [|discriminate].
  apply send_connected_ret in Hsend as (Hrep & Hin & _).
  cbn [wire_in set_sequence] in Hin.
  unfold read_tag_value in H. step H.
  destruct (Z.eqb_spec (fst (_status d2)) SUCCESS) as [E0|N0].
  2:{ apply mret_ret_inv in H as [-> ->]. exact N0. }
  step H as reply' Hrep'. rewrite Hrep in Hrep'. injection Hrep' as <-.
  step H as code Hcode. step H as typ Htyp.
  apply data_error_ret_inv in H.
  step H as unpack Hunpack. step H as whole Hwhole.
  destruct bit as [bit|].
  - step H as value Hvalue. apply mret_ret_inv in H as [-> ->].
    split; [exact E0|]. exists reply, code, unpack, whole.
    rewrite <- Hw1. auto 10.
  - step H. apply mret_ret_inv in H as [-> ->].
    split; [exact E0|]. exists reply, code, unpack, whole.
    rewrite <- Hw1. auto 10.
Qed.

End ReadOne.

(** ** What [read_array] collects *)

Lemma while_loop_ret_some {A} (P : A -> Prop) (cond : Driver -> bool)
    (body : M (option A)) :
  (forall d a d', body d = (Ret (Some a), d') -> P a) ->
  forall fuel d a d',
    while_loop fuel cond body d = (Ret (Some a), d') -> P a.
Proof.
  intros Hb. induction fuel as [|k IH]; intros d a d'; cbn [while_loop].
  - destruct (cond d); discriminate.
  - destruct (cond d); [|discriminate].
    destruct (body d) as [[[x|]| e |] d1] eqn:E; try discriminate.
    + intros [= <- <-]. eapply Hb, E.
    + apply IH.
Qed.

Lemma positions_app (l r : list item) :
  positions (l ++ r) = positions l ++ positions r.
Proof. unfold positions. apply omap_app. Qed.

Section Collected.
Context {cb : CipBase}.
Context (I : Driver -> Prop).

(** What an invariant of the collected list has to withstand: the steps that
    do not touch [_tag_list] and [_last_position], the three appends of the
    parsers, and nothing else. *)
Hypothesis I_frame : forall d d',
  _tag_list d' = _tag_list d -> _last_position d' = _last_position d ->
  I d -> I d'.
Hypothesis I_symbol : forall x, maintains I (tag_list_append (ISymbol x)).
Hypothesis I_value : forall v, maintains I (
  (pos ← gets _last_position;
   tag_list_append (IValue pos v);;
   modify (set_last_position (pos + 1))) : M unit).
Hypothesis I_bytes : forall b, maintains I (tag_list_iadd b).

Lemma frame_modify (g : Driver -> Driver) :
  (forall d, _tag_list (g d) = _tag_list d) ->
  (forall d, _last_position (g d) = _last_position d) ->
  maintains I (modify g).
Proof. intros H1 H2. apply maintains_modify. intros d. apply I_frame; auto. Qed.

Ltac frame :=
  repeat first
    [ solve [auto]
    | lazymatch goal with
      | |- maintains _ (modify _) =>
          apply frame_modify; intros ?; reflexivity
      end
    | maintains_step ].

Lemma instance_entries_maintains fuel bs idx inst :
  maintains I (instance_entries fuel bs idx inst).
Proof.
  revert idx inst. induction fuel as [|k IH]; intros idx inst; simpl; frame.
Qed.

Lemma fragment_values_maintains fuel dt fr idx :
  maintains I (fragment_values fuel dt fr idx).
Proof.
  revert idx. induction fuel as [|k IH]; intros idx; simpl; [frame|].
  destruct (idx <? len fr); [|frame].
  apply maintains_bind; [frame|]. intros raw.
  apply maintains_bind; [frame|]. intros [value idx'].
  apply maintains_bind; [|intros ?; apply IH].
  destruct raw; [frame|]. apply I_value.
Qed.

Lemma check_reply_maintains : maintains I _check_reply.
Proof.
  pose proof instance_entries_maintains. pose proof fragment_values_maintains.
  unfold _check_reply, check_unit_data_reply, _parse_fragment,
    _parse_instance_attribute_list, _parse_structure_makeup_attributes,
    _parse_template, reply_bytes, buffer_setitem, buffer_iadd.
  frame.
Qed.

Lemma send_connected_maintains mr : maintains I (send_connected mr).
Proof.
  pose proof check_reply_maintains.
  unfold send_connected, send_unit_data. frame.
Qed.

Lemma read_array_step_maintains tag counts :
  maintains I (read_array_step tag counts).
Proof.
  pose proof send_connected_maintains.
  unfold read_array_step, _get_sequence. frame.
Qed.

(** The list [read_array] answers is the collected list, and it satisfies
    every such invariant that holds of the empty collection. *)
Lemma read_array_collects tag counts (raw : bool) d tl d' :
  (forall d0, _tag_list d0 = (if raw then TLStr "" else TLList []) ->
              _last_position d0 = 0 -> I d0) ->
  read_array tag counts raw d = (Ret (Some tl), d') ->
  I d' /\ _tag_list d' = tl.
Proof.
  intros Hinit H. unfold read_array, clear in H.
  do 6 step H. step H.
  step H as r dl Hloop.
  assert (Hdl : I dl).
  { eapply maintains_while; [apply read_array_step_maintains | exact Hloop |].
    apply Hinit; reflexivity. }
  destruct r as [v|].
  - apply mret_ret_inv in H as [<- ->].
    apply (while_loop_ret_some (fun v => v = None)) in Hloop; [discriminate|].
    clear. intros d a d'. unfold read_array_step.
    destruct (create_tag_rp tag false).
    + intros H. do 6 step H. step H as r d1 Hsend.
      destruct r; [|discriminate]. apply mret_ret_inv in H as [[=] _].
    + intros H. step H. apply mret_ret_inv in H as [[= <-] _]. reflexivity.
  - step H. apply mret_ret_inv in H as [[= ->] ->]. auto.
Qed.

End Collected.

Section Numbered.
Context {cb : CipBase}.

Lemma numbered_frame d d' :
  _tag_list d' = _tag_list d -> _last_position d' = _last_position d ->
  numbered d -> numbered d'.
Proof. unfold numbered. intros -> ->. auto. Qed.

Lemma numbered_symbol x : maintains numbered (tag_list_append (ISymbol x)).
Proof.
  intros d o d' H (l & Hl & Hpos & Hnum).
  unfold tag_list_append, mbind, M_bind, gets, modify in H. rewrite Hl in H.
  injection H as <- <-. exists (l ++ [ISymbol x]).
  split; [reflexivity|]. split; [exact Hpos|].
  rewrite positions_app. cbn. rewrite app_nil_r. exact Hnum.
Qed.

Lemma numbered_value v :
  maintains numbered (
    (pos ← gets _last_position;
     tag_list_append (IValue pos v);;
     modify (set_last_position (pos + 1))) : M unit).
Proof.
  intros d o d' H (l & Hl & Hpos & Hnum).
  unfold tag_list_append, mbind, M_bind, gets, modify in H. rewrite Hl in H.
  injection H as <- <-. exists (l ++ [IValue (_last_position d) v]).
  split; [reflexivity|]. cbn [_last_position set_last_position set_tag_list].
  split; [lia|].
  rewrite positions_app, Hnum, seqZ_app by lia. reflexivity.
Qed.

Lemma numbered_bytes b : maintains numbered (tag_list_iadd b).
Proof.
  intros d o d' H (l & Hl & Hpos & Hnum).
  unfold tag_list_iadd, mbind, M_bind, gets, modify in H. rewrite Hl in H.
  injection H as <- <-. eexists. split; [reflexivity|]. split; [exact Hpos|].
  rewrite positions_app, Hnum.
  assert (Hb : positions (map (fun x => IInt (Z_of_byte x)) b) = []).
  { clear. induction b as [|x r IH]; [reflexivity | exact IH]. }
  rewrite Hb, app_nil_r. reflexivity.
Qed.

(** The pairs [read_array] returns are numbered 0, 1, 2, ... in the order
    they were received, however the values were spread over the replies:
    the numbering goes on from one fragment to the next. *)
Theorem read_array_numbers_its_pairs (tag : string) (counts : pyval)
    (d : Driver) (tl : tag_list) (d' : Driver) :
  read_array tag counts false d = (Ret (Some tl), d') ->
  exists l, tl = TLList l /\ positions l = seqZ 0 (len (positions l)).
Proof.
  intros H.
  apply (read_array_collects numbered numbered_frame numbered_symbol
           numbered_value numbered_bytes) in H as [(l & Hl & Hpos & Hnum) <-].
  - exists l. split; [exact Hl|]. rewrite Hnum at 1. f_equal.
    unfold len. rewrite Hnum, length_seqZ. lia.
  - intros d0 Ht Hp. exists []. rewrite Hp.
    split; [exact Ht|]. split; [lia | reflexivity].
Qed.

(** A raw read never returns data: whatever the controller answers, the
    result of [read_array(tag, counts, raw=True)], when there is one, is the
    empty string the call started with (a fragment with an element in it
    cannot be added to a string, and the call ends in an exception). *)
Theorem read_array_raw_returns_no_data (tag : string) (counts : pyval)
    (d : Driver) (tl : tag_list) (d' : Driver) :
  read_array tag counts true d = (Ret (Some tl), d') -> tl = TLStr "".
Proof.
  intros H.
  apply (read_array_collects (fun d => _tag_list d = TLStr "")) in H
    as [Hd <-]; [exact Hd | | | | | ].
  - intros d0 d1 Ht _ H0. congruence.
  - intros x d0 o d1 H0 Hd. unfold tag_list_append, mbind, M_bind, gets in H0.
    rewrite Hd in H0. injection H0 as <- <-. exact Hd.
  - intros v d0 o d1 H0 Hd. unfold tag_list_append, mbind, M_bind, gets in H0.
    rewrite Hd in H0. injection H0 as <- <-. exact Hd.
  - intros b d0 o d1 H0 Hd. unfold tag_list_iadd, mbind, M_bind, gets in H0.
    rewrite Hd in H0. injection H0 as <- <-. exact Hd.
  - intros d0 Ht _. exact Ht.
Qed.

End Numbered.

(** ** Writing a string and reading it back *)




(** ** The fragments of [write_array] *)

Lemma pieces_nil {A} (k : nat) : (0 < k)%nat -> pieces k (@nil A) = [].
Proof.
  intros Hk. unfold pieces. cbn [length].
  rewrite Nat.div_small by lia. reflexivity.
Qed.

Lemma pieces_full {A} (k : nat) (a b : list A) :
  (0 < k)%nat -> length a = k -> pieces k (a ++ b) = a :: pieces k b.
Proof.
  intros Hk Ha. unfold pieces. rewrite length_app, Ha.
  replace (k + length b + k - 1)%nat with (1 * k + (length b + k - 1))%nat by lia.
  rewrite Nat.div_add_l by lia. cbn [Nat.add replicate reshape].
  rewrite take_app_length' by (symmetry; exact Ha).
  rewrite drop_app_length' by (symmetry; exact Ha).
  reflexivity.
Qed.

Lemma pieces_last {A} (k : nat) (a : list A) :
  (0 < length a <= k)%nat -> pieces k a = [a].
Proof.
  intros Ha. unfold pieces.
  replace ((length a + k - 1) / k)%nat with 1%nat.
  - cbn [replicate reshape]. rewrite take_ge by lia. reflexivity.
  - apply Nat.div_unique with (r := (length a - 1)%nat); lia.
Qed.

Lemma per_fragment_positive (size : positive) : (0 < per_fragment size)%nat.
Proof.
  unfold per_fragment.
  assert (1 <= (449 + Z.pos size) / Z.pos size)
    by (apply Z.div_le_lower_bound; lia).
  lia.
Qed.

(** A fragment is full when its elements take 450 bytes or more. *)
Lemma per_fragment_full (size : positive) (m : nat) :
  450 <= Z.of_nat m * Z.pos size <-> (per_fragment size <= m)%nat.
Proof.
  unfold per_fragment.
  pose proof (Z.div_mod (449 + Z.pos size) (Z.pos size) ltac:(lia)) as Hd.
  pose proof (Z.mod_pos_bound (449 + Z.pos size) (Z.pos size) ltac:(lia)) as Hm.
  assert (0 <= (449 + Z.pos size) / Z.pos size)
    by (apply Z.div_pos; lia).
  split; intros H0.
  - apply Nat2Z.inj_le. rewrite Z2Nat.id by assumption. nia.
  - apply Nat2Z.inj_le in H0. rewrite Z2Nat.id in H0 by assumption. nia.
Qed.

Section ArrayWrite.
Context {cb : CipBase}.

Lemma send_connected_keeps_sequence mr :
  preserves _sequence (send_connected mr).
Proof.
  assert (preserves _sequence _check_reply).
  { eapply preserves_weaken; [|apply check_reply_keeps_link].
    unfold link. intros d d' [= ? ? ? ? ? ? ? ? ?]. congruence. }
  unfold send_connected, send_unit_data. preserves_tac.
Qed.

Lemma send_connected_keeps_cid mr :
  preserves _target_cid (send_connected mr).
Proof.
  eapply preserves_weaken; [|apply send_connected_keeps_session].
  unfold session_state. intros d d' [= ? ? ? ? ?]. congruence.
Qed.

Variables (tag data_type : string) (raw : bool) (n : Z).

Lemma array_element_run value d chunk d1 :
  (if raw then
     match value with
     | PBytes b => mret b
     | _ => raise TypeError
     end
   else
     pack ← lookup_or_raise (PACK_DATA_FUNCTION data_type);
     liftR (pack value)) d = (Ret chunk, d1) ->
  array_element data_type raw value = inr chunk /\ d1 = d.
Proof.
  unfold array_element. destruct raw.
  - destruct value; try discriminate. intros [= <- <-]. auto.
  - intros H. step H as pack Hpack. apply liftR_ret_inv in H as [H ->].
    rewrite Hpack. auto.
Qed.

(** Without a request path the loop stops at the first fragment it would
    send. *)
Lemma write_array_values_no_path values :
  create_tag_rp tag false = None ->
  forall i aov bs bo d r d',
    write_array_values tag data_type raw n values i aov bs bo d = (Ret r, d') ->
    values <> [] -> i + len values = n ->
    r = Some tt /\ fst (_status d') = 9 /\ wire_out d' = wire_out d.
Proof.
  intros Hrp. induction values as [|v rest IH]; intros i aov bs bo d r d' H Hne Hn;
    [contradiction|].
  cbn [write_array_values] in H.
  step H as chunk d1 Hchunk. apply array_element_run in Hchunk as [_ ->].
  step H as size Hsize.
  destruct ((450 <=? bs + Z.pos size) || (i =? n - 1)) eqn:Eflush.
  - rewrite Hrp in H. step H. apply mret_ret_inv in H as [-> ->]. auto.
  - apply orb_false_iff in Eflush as [_ Elast].
    apply Z.eqb_neq in Elast.
    apply IH in H; [exact H | |].
    + intros ->. unfold len in Hn. cbn in Hn. lia.
    + unfold len in *. cbn [length] in Hn. lia.
Qed.

Variables (rp : bytes) (size : positive).
Hypothesis path_builds : create_tag_rp tag false = Some rp.
Hypothesis size_known : DATA_FUNCTION_SIZE data_type = Some size.

Lemma write_array_values_run values :
  forall i acc j aov bs bo d r d',
    write_array_values tag data_type raw n values i aov bs bo d = (Ret r, d') ->
    aov = concat acc -> bs = Z.of_nat (length acc) * Z.pos size ->
    bo = Z.of_nat (j * per_fragment size) * Z.pos size ->
    (length acc < per_fragment size)%nat -> (values = [] -> acc = []) ->
    i + len values = n ->
    r = None
    /\ exists encoded requests,
         Forall2 (fun v e => array_element data_type raw v = inr e)
           values encoded
         /\ length requests = length (pieces (per_fragment size) (acc ++ encoded))
         /\ (forall x piece,
               pieces (per_fragment size) (acc ++ encoded) !! x = Some piece ->
               exists request, requests !! x = Some request
                 /\ array_fragment rp data_type n
                      (Nat.iter (S x) next_sequence (_sequence d))
                      (Z.of_nat ((j + x) * per_fragment size) * Z.pos size)
                      (concat piece) = inr request)
         /\ wire_out d'
            = wire_out d
              ++ map (fun request => connected_frame request (_target_cid d))
                   requests
         /\ _target_cid d' = _target_cid d.
Proof.
  pose proof (per_fragment_positive size) as Hk.
  induction values as [|v rest IH];
    intros i acc j aov bs bo d r d' H Haov Hbs Hbo Hacc Hnil Hn.
  { apply mret_ret_inv in H as [-> ->]. split; [reflexivity|].
    rewrite (Hnil eq_refl). exists [], []. cbn [app].
    rewrite pieces_nil by exact Hk.
    split; [constructor|]. split; [reflexivity|].
    split; [intros x piece Hx; discriminate|].
    split; [cbn; rewrite app_nil_r; reflexivity | reflexivity]. }
  cbn [write_array_values] in H.
  step H as chunk d1 Hchunk. apply array_element_run in Hchunk as [Helem ->].
  step H as size' Hsize. rewrite size_known in Hsize. injection Hsize as <-.
  assert (Hbs' : bs + Z.pos size = Z.of_nat (length (acc ++ [chunk])) * Z.pos size)
    by (rewrite length_app; cbn [length]; lia).
  assert (Hlast : (i =? n - 1) = true <-> rest = []).
  { unfold len in Hn. cbn [length] in Hn. rewrite Z.eqb_eq.
    split; [intros Hi; destruct rest; [reflexivity | cbn in Hn; lia]
           | intros ->; cbn in Hn; lia]. }
  assert (Hfull : (450 <=? bs + Z.pos size) = true
                  <-> length (acc ++ [chunk]) = per_fragment size).
  { rewrite Z.leb_le, Hbs', per_fragment_full, length_app. cbn [length]. lia. }
  destruct ((450 <=? bs + Z.pos size) || (i =? n - 1)) eqn:Eflush.
  - (* a fragment goes out *)
    rewrite path_builds in H.
    step H. step H as s Hs. step H as path_size Hpath. step H as code Hcode.
    step H as t Ht. step H as c Hc. step H as o Ho.
    step H as reply d2 Hsend. destruct reply as [reply|]; [|discriminate].
    pose proof (send_connected_wire _ _ _ _ Hsend) as Hwire.
    pose proof (send_connected_keeps_sequence _ _ _ _ Hsend) as Hseq.
    pose proof (send_connected_keeps_cid _ _ _ _ Hsend) as Hcid.
    cbn [wire_out _sequence _target_cid set_sequence] in Hwire, Hseq, Hcid.
    assert (Hrequest :
      array_fragment rp data_type n (next_sequence (_sequence d))
        (Z.of_nat (j * per_fragment size) * Z.pos size)
        (concat (acc ++ [chunk]))
      = inr [s; [TAG_SERVICES_REQUEST "Write Tag Fragmented"]; path_size; rp;
             t; c; o; aov ++ chunk]).
    { unfold array_fragment. rewrite Hs, Hpath, Hcode. cbn [or_raise].
      unfold mbind, result_bind. rewrite Ht, Hc. rewrite <- Hbo, Ho.
      rewrite concat_app. cbn [concat]. rewrite app_nil_r, <- Haov.
      reflexivity. }
    destruct rest as [|v' rest'].
    + (* the last fragment *)
      apply mret_ret_inv in H as [-> ->]. split; [reflexivity|].
      exists [chunk], [[s; [TAG_SERVICES_REQUEST "Write Tag Fragmented"];
                        path_size; rp; t; c; o; aov ++ chunk]].
      rewrite pieces_last by (rewrite length_app; cbn [length]; lia).
      split; [constructor; [exact Helem | constructor]|].
      split; [reflexivity|]. split.
      * intros [|x] piece Hx; [|discriminate]. injection Hx as <-.
        eexists. split; [reflexivity|]. rewrite Nat.add_0_r. exact Hrequest.
      * rewrite Hcid. split; [exact Hwire | reflexivity].
    + (* a full fragment, and more to come *)
      assert (Hlen : length (acc ++ [chunk]) = per_fragment size).
      { apply Hfull. destruct (proj1 (orb_true_iff _ _) Eflush) as [E|E];
          [exact E|]. apply Hlast in E. discriminate. }
      eapply (IH (i + 1) [] (S j)) in H;
        [ | reflexivity | reflexivity | | exact Hk | discriminate | ].
      2:{ rewrite Hbo, Hbs', Hlen. lia. }
      2:{ unfold len in *. cbn [length] in *. lia. }
      destruct H as (-> & encoded & requests & Henc & Hcount & Hreq & Hw & Hc').
      split; [reflexivity|].
      exists (chunk :: encoded),
        ([s; [TAG_SERVICES_REQUEST "Write Tag Fragmented"]; path_size; rp;
          t; c; o; aov ++ chunk] :: requests).
      cbn [app] in Hcount, Hreq.
      replace (acc ++ chunk :: encoded) with ((acc ++ [chunk]) ++ encoded)
        by (rewrite <- app_assoc; reflexivity).
      rewrite pieces_full by (exact Hk || exact Hlen).
      split; [constructor; assumption|].
      split; [cbn [length]; rewrite Hcount; reflexivity|]. split.
      * intros [|x] piece Hx.
        -- injection Hx as <-. eexists. split; [reflexivity|].
           rewrite Nat.add_0_r. exact Hrequest.
        -- cbn in Hx. destruct (Hreq x piece Hx) as (request & Hr & Hf).
           exists request. split; [exact Hr|].
           rewrite Nat.iter_succ_r, <- Hseq.
           replace (j + S x)%nat with (S j + x)%nat by lia. exact Hf.
      * rewrite Hc', Hcid. split; [|reflexivity].
        rewrite Hw, Hwire, Hcid, <- app_assoc. reflexivity.
  - (* the element is kept for the next fragment *)
    apply orb_false_iff in Eflush as [Enot Elast].
    assert (Hrest : rest <> []).
    { intros Hr. apply Hlast in Hr. congruence. }
    eapply (IH (i + 1) (acc ++ [chunk]) j) in H;
      [ | | exact Hbs' | exact Hbo | | intros Hr; contradiction | ].
    2:{ rewrite concat_app. cbn [concat]. rewrite app_nil_r, Haov. reflexivity. }
    2:{ assert (length (acc ++ [chunk]) <> per_fragment size)
          by (intros Hl; apply Hfull in Hl; congruence).
        rewrite length_app in *. cbn [length] in *. lia. }
    2:{ unfold len in *. cbn [length] in *. lia. }
    destruct H as (-> & encoded & requests & Henc & Hcount & Hreq & Hw & Hc').
    split; [reflexivity|]. exists (chunk :: encoded), requests.
    rewrite <- app_assoc in Hcount, Hreq. cbn [app] in Hcount, Hreq.
    split; [constructor; assumption|]. auto.
Qed.

End ArrayWrite.

Section ArrayFragments.
Context {cb : CipBase}.

(** [write_array] refuses anything but a list before it looks at the
    session.  Of a list it sends the values in order, cut into fragments of
    [per_fragment size] elements (the least number that fills 450 bytes; the
    last fragment may be shorter): fragment [j] carries the number of
    elements of the whole array, the byte offset [j * per_fragment size *
    size] and the next sequence number, and the call returns when every
    fragment has been answered.  With an empty list nothing is sent; when
    the request path cannot be built, status code 9 is recorded and nothing
    is sent. *)
Theorem write_array_fragments (tag data_type : string) (raw : bool)
    (d : Driver) :
  (forall v,
     write_array tag (NotAList v) data_type raw d
     = (Raise DataError,
        set_status (9, "A list of tags must be passed to write_array.") d))
  /\ forall values d',
       write_array tag (ArrayList values) data_type raw d = (Ret tt, d') ->
       (values = [] /\ wire_out d' = wire_out d)
       \/ (values <> [] /\ create_tag_rp tag false = None
           /\ fst (_status d') = 9 /\ wire_out d' = wire_out d)
       \/ exists rp size encoded requests,
            create_tag_rp tag false = Some rp
            /\ DATA_FUNCTION_SIZE data_type = Some size
            /\ Forall2 (fun v e => array_element data_type raw v = inr e)
                 values encoded
            /\ length requests = length (pieces (per_fragment size) encoded)
            /\ (forall j piece,
                  pieces (per_fragment size) encoded !! j = Some piece ->
                  exists request, requests !! j = Some request
                    /\ array_fragment rp data_type (len values)
                         (Nat.iter (S j) next_sequence (_sequence d))
                         (Z.of_nat (j * per_fragment size) * Z.pos size)
                         (concat piece) = inr request)
            /\ wire_out d'
               = wire_out d
                 ++ map (fun request =>
                           connected_frame request (_target_cid d'))
                      requests.
Proof.
  split; [reflexivity|]. intros values d' H.
  unfold write_array, clear in H.
  step H. step H as u d1 Hgate. step H as r d2 Hloop.
  apply mret_ret_inv in H as [_ ->].
  pose proof (ensure_connected_keeps_wire_out _ _ _ _ _ Hgate) as Hw1.
  pose proof (ensure_connected_keeps_sequence _ _ _ _ _ Hgate) as Hs1.
  cbn [wire_out _sequence set_status] in Hw1, Hs1.
  destruct values as [|v vs].
  { left. apply mret_ret_inv in Hloop as [_ ->]. auto. }
  right.
  assert (Hsize : exists size, DATA_FUNCTION_SIZE data_type = Some size).
  { pose proof Hloop as H. cbn [write_array_values] in H.
    step H as chunk dx Hchunk. step H as size Hsize. eauto. }
  destruct Hsize as [size Hsize].
  destruct (create_tag_rp tag false) as [rp|] eqn:Hrp.
  - right.
    apply (write_array_values_run tag data_type raw (len (v :: vs)) rp size
             Hrp Hsize (v :: vs) 0 [] 0%nat) in Hloop;
      [ | reflexivity | reflexivity | reflexivity
        | apply per_fragment_positive | discriminate | lia ].
    destruct Hloop as (_ & encoded & requests & Henc & Hcount & Hreq & Hw & Hc).
    exists rp, size, encoded, requests. cbn [app] in Hcount, Hreq.
    rewrite Hs1 in Hreq. rewrite Hw, Hw1, Hc. auto 10.
  - left.
    apply (write_array_values_no_path tag data_type raw (len (v :: vs)) (v :: vs)
             Hrp) in Hloop as (_ & Hst & Hw); [|discriminate|lia].
    rewrite Hw, Hw1. auto.
Qed.

End ArrayFragments.

(** ** Writing one tag *)

Section WriteOneTag.
Context {cb : CipBase}.

(** [write_tag] for one tag, on a session that opens.  When the request
    path cannot be built, status code 8 is recorded, nothing is sent and the
    call ends in a [TypeError] (joining the [None] that
    [_write_tag_single_write] returned).  When the call returns, it returns
    the reply that was next on the wire, and exactly one frame went out: an
    ordinary Write Tag request with the type code, the count 1 and the
    encoded value, or, for a tag that names a bit, a Read Modify Write
    request with the masks of [_make_write_bit_data]. *)
Theorem write_tag_one_tag (name : string) (value : pyval) (typ : string)
    (d : Driver) :
  session_opens d = true ->
  (create_tag_rp (fst (_prep_bools name typ false)) false = None ->
   exists d', write_tag (WriteOne name value typ) d = (Raise TypeError, d')
     /\ fst (_status d') = 8 /\ wire_out d' = wire_out d)
  /\ forall r d',
       write_tag (WriteOne name value typ) d = (Ret r, d') ->
       exists reply rp s path_size data,
         r = WroteReply reply
         /\ wire_in d = Some reply :: wire_in d'
         /\ create_tag_rp (fst (_prep_bools name typ false)) false = Some rp
         /\ pack_uint (next_sequence (_sequence d)) = inr s
         /\ bytes_of_int (len rp / 2) = inr path_size
         /\ match snd (_prep_bools name typ false) with
            | Some bit =>
                _make_write_bit_data bit value
                  (contains "[" (fst (_prep_bools name typ false))) = inr data
                /\ wire_out d'
                   = wire_out d
                     ++ [connected_frame
                           ([s; [TAG_SERVICES_REQUEST "Read Modify Write Tag"];
                             path_size; rp] ++ data) (_target_cid d')]
            | None =>
                exists code pack,
                  S_DATA_TYPE typ = Some code
                  /\ PACK_DATA_FUNCTION typ = Some pack
                  /\ (t ← pack_uint code; one ← pack_uint 1; v ← pack value;
                      mret [t; one; v]) = inr data
                  /\ wire_out d'
                     = wire_out d
                       ++ [connected_frame
                             ([s; [TAG_SERVICES_REQUEST "Write Tag"];
                               path_size; rp] ++ data) (_target_cid d')]
            end.
Proof.
  intros Hopen.
  destruct (ensure_connected_opens 8
    "Target did not connected. write_tag will not be executed."
    (set_status (0, "") d) Hopen) as (d1 & Hgate & _ & Hw1).
  change (wire_out (set_status (0, "") d)) with (wire_out d) in Hw1.
  pose proof (ensure_connected_keeps_sequence _ _ _ _ _ Hgate) as Hs1.
  change (_sequence (set_status (0, "") d)) with (_sequence d) in Hs1.
  assert (Hin1 : wire_in d1 = wire_in d).
  { assert (Hp : preserves wire_in (ensure_connected 8
              "Target did not connected. write_tag will not be executed."))
      by (unfold ensure_connected, forward_open; preserves_tac).
    exact (Hp _ _ _ Hgate). }
  split.
  - intros Hrp. unfold write_tag, clear.
    erewrite run_bind_ret by reflexivity.
    erewrite run_bind_ret by exact Hgate.
    unfold _write_tag_single_write.
    destruct (_prep_bools name typ false) as [base bit]. cbn [fst] in Hrp.
    rewrite Hrp. eexists. split; [reflexivity|]. split; [reflexivity|exact Hw1].
  - intros r d' H. unfold write_tag, clear in H.
    erewrite run_bind_ret in H by reflexivity.
    erewrite run_bind_ret in H by exact Hgate.
    step H as mr d2 Hframe. destruct mr as [message_request|]; [|discriminate].
    step H as ret_val d3 Hsend. destruct ret_val as [reply|]; [|discriminate].
    apply mret_ret_inv in H as [-> ->].
    pose proof (send_connected_wire _ _ _ _ Hsend) as Hwire.
    pose proof (send_connected_keeps_cid _ _ _ _ Hsend) as Hcid.
    apply send_connected_ret in Hsend as (_ & Hin & _).
    unfold _write_tag_single_write in Hframe.
    destruct (_prep_bools name typ false) as [base bit]. cbn [fst snd].
    destruct (create_tag_rp base false) as [rp|];
      [|step Hframe; apply mret_ret_inv in Hframe as [[=] _]].
    step Hframe. step Hframe as s Hs. step Hframe as path_size Hpath.
    rewrite Hs1 in Hs.
    cbn [wire_in wire_out _target_cid set_sequence] in *.
    destruct bit as [bit|].
    + step Hframe as data dx Hdata. apply mret_ret_inv in Hframe as [[= ->] ->].
      apply data_error_ret_inv in Hdata. apply liftR_ret_inv in Hdata as [Hdata ->].
      exists reply, rp, s, path_size, data.
      cbn [wire_in wire_out _target_cid set_sequence] in *.
      rewrite Hwire, Hw1, Hcid, <- Hin1. auto 10.
    + step Hframe as code Hcode. step Hframe as t Ht. step Hframe as one Hone.
      step Hframe as pack Hpack. step Hframe as v Hv.
      apply mret_ret_inv in Hframe as [[= ->] ->].
      exists reply, rp, s, path_size, [t; one; v].
      cbn [wire_in wire_out _target_cid set_sequence] in *.
      split; [reflexivity|]. split; [rewrite <- Hin1; exact Hin|].
      split; [reflexivity|]. split; [exact Hs|]. split; [exact Hpath|].
      exists code, pack. split; [exact Hcode|]. split; [exact Hpack|].
      split; [|rewrite Hwire, Hw1, Hcid; reflexivity].
      unfold mbind, result_bind. rewrite Ht, Hone, Hv. reflexivity.
Qed.

End WriteOneTag.

(** ** The program names *)

Section ProgramNames.
Context {cb : CipBase}.

Lemma tag_list_append_keeps_programs x :
  preserves _program_names (tag_list_append x).
Proof. unfold tag_list_append. preserves_tac. Qed.

Lemma isolate_symbol_names e d u d' :
  isolate_symbol e d = (Ret u, d') ->
  exists name, py_decode (Symbol.tag_name e) = Some name
    /\ _program_names d'
       = _program_names d ++ (if contains "Program:" name then [name] else []).
Proof.
  intros H. unfold isolate_symbol in H.
  step H as name Hname.
  destruct (py_decode (Symbol.tag_name e)) as [name'|]; [|discriminate].
  injection Hname as ->. exists name. split; [reflexivity|].
  destruct (contains "Program:" name).
  { apply modify_ret_inv in H as ->. reflexivity. }
  rewrite app_nil_r.
  revert H.
  match goal with
  | |- ?m d = _ -> _ => assert (Hp : preserves _program_names m)
  end.
  { pose proof tag_list_append_keeps_programs. preserves_tac. }
  apply Hp.
Qed.

Lemma isolate_symbols_names entries d o d' :
  for_each (map ISymbol entries) isolate_item d = (Ret o, d') ->
  exists names,
    Forall2 (fun e name => py_decode (Symbol.tag_name e) = Some name)
      entries names
    /\ _program_names d'
       = _program_names d ++ List.filter (contains "Program:") names.
Proof.
  revert d. induction entries as [|e r IH]; intros d H; cbn [map for_each] in H.
  - apply mret_ret_inv in H as [_ ->]. exists []. split; [constructor|].
    cbn. rewrite app_nil_r. reflexivity.
  - step H as x d1 He. unfold isolate_item in He.
    step He as u d2 Hsym. apply mret_ret_inv in He as [-> ->].
    apply isolate_symbol_names in Hsym as (name & Hname & Hp).
    apply IH in H as (names & Hnames & Hp').
    exists (name :: names). split; [constructor; assumption|].
    rewrite Hp', Hp. cbn [List.filter].
    destruct (contains "Program:" name); rewrite <- app_assoc; reflexivity.
Qed.

(** [_isolating_user_tag] appends to [_program_names], in the order of the
    symbol table, the name of every entry whose name contains ["Program:"];
    what the list held before stays in front (the list is never
    emptied). *)
Theorem isolating_collects_program_names (entries : list Symbol.t)
    (d d' : Driver) :
  _tag_list d = TLList (map ISymbol entries) ->
  _isolating_user_tag d = (Ret tt, d') ->
  exists names,
    Forall2 (fun e name => py_decode (Symbol.tag_name e) = Some name)
      entries names
    /\ _program_names d'
       = _program_names d ++ List.filter (contains "Program:") names.
Proof.
  intros Hl H. unfold _isolating_user_tag in H.
  apply data_error_ret_inv in H.
  step H. step H. rewrite Hl in H. step H as o d1 Hloop.
  apply mret_ret_inv in H as [_ ->].
  apply isolate_symbols_names in Hloop. exact Hloop.
Qed.

End ProgramNames.

(** ** Decoding what was encoded *)

Lemma Z_of_byte_of_Z (z : Z) : Z_of_byte (byte_of_Z z) = z mod 256.
Proof.
  unfold Z_of_byte, byte_of_Z.
  pose proof (Z.mod_pos_bound z 256 ltac:(lia)) as Hm.
  destruct (Byte.of_N (Z.to_N (z mod 256))) as [b|] eqn:E.
  - apply Byte.to_of_N in E. cbn. rewrite E. lia.
  - apply Byte.of_N_None_iff in E. lia.
Qed.

Lemma length_le_encode (n : nat) (z : Z) : length (le_encode n z) = n.
Proof.
  revert z. induction n as [|k IH]; intros z; [reflexivity|].
  cbn [le_encode length]. rewrite IH. reflexivity.
Qed.

Lemma le_decode_encode (n : nat) (z : Z) :
  le_decode (le_encode n z) = z mod 256 ^ Z.of_nat n.
Proof.
  revert z. induction n as [|k IH]; intros z.
  - cbn. rewrite Z.mod_1_r. reflexivity.
  - cbn [le_encode le_decode]. rewrite IH, Z_of_byte_of_Z.
    rewrite Nat2Z.inj_succ, Z.pow_succ_r by lia.
    rewrite Z.rem_mul_r by lia. reflexivity.
Qed.

Lemma unpack_unsigned_encode (n : nat) (z : Z) :
  0 <= z < 256 ^ Z.of_nat n -> unpack_unsigned n (le_encode n z) = inr z.
Proof.
  intros Hz. unfold unpack_unsigned.
  rewrite take_ge by (rewrite length_le_encode; lia).
  rewrite length_le_encode, Nat.eqb_refl, le_decode_encode.
  rewrite Z.mod_small by exact Hz. reflexivity.
Qed.

Lemma unpack_dint_encode (z : Z) :
  - 2 ^ 31 <= z < 2 ^ 31 -> unpack_dint (le_encode 4 (z mod 2 ^ 32)) = inr z.
Proof.
  intros Hz. unfold unpack_dint.
  pose proof (Z.mod_pos_bound z (2 ^ 32) ltac:(lia)) as Hm.
  rewrite unpack_unsigned_encode by (change (256 ^ Z.of_nat 4) with (2 ^ 32); lia).
  unfold mbind, result_bind, mret, result_ret. f_equal.
  destruct (Z.ltb_spec (z mod 2 ^ 32) (2 ^ 31)) as [Hl|Hl].
  - destruct (Z.le_gt_cases 0 z) as [Hp|Hn].
    + apply Z.mod_small. lia.
    + replace z with (z + 2 ^ 32 - 1 * 2 ^ 32) in Hl by lia.
      rewrite Zminus_mod, Z_mod_mult, Z.sub_0_r, Z.mod_mod in Hl by lia.
      rewrite Z.mod_small in Hl by lia. lia.
  - destruct (Z.le_gt_cases 0 z) as [Hp|Hn].
    + rewrite Z.mod_small in Hl by lia. lia.
    + replace z with (z + 2 ^ 32 - 1 * 2 ^ 32) at 1 by lia.
      rewrite Zminus_mod, Z_mod_mult, Z.sub_0_r, Z.mod_mod by lia.
      rewrite Z.mod_small by lia. lia.
Qed.

Lemma slice_at {A} (pre x post : list A) (lo hi : Z) :
  lo = len pre -> hi = lo + len x -> slice lo hi (pre ++ x ++ post) = x.
Proof.
  intros -> ->. unfold slice, len.
  rewrite Nat2Z.id. rewrite drop_app_length.
  replace (Z.to_nat (Z.of_nat (length pre) + Z.of_nat (length x) - Z.of_nat (length pre)))
    with (length x) by lia.
  apply take_app_length.
Qed.

Section SymbolTable.
Context {cb : CipBase}.

Lemma len_app {A} (l r : list A) : len (l ++ r) = len l + len r.
Proof. unfold len. rewrite length_app. lia. Qed.

Lemma len_le_encode (n : nat) (z : Z) : len (le_encode n z) = Z.of_nat n.
Proof. unfold len. rewrite length_le_encode. reflexivity. Qed.

Lemma instance_entries_decodes entries :
  forall done fuel inst d old,
    Forall symbol_fits entries ->
    _tag_list d = TLList old ->
    (length entries <= fuel)%nat ->
    exists d',
      instance_entries fuel (done ++ concat (map symbol_record entries))
        (len done) inst d = (Ret (last_seen entries inst), d')
      /\ _tag_list d' = TLList (old ++ map ISymbol entries).
Proof.
  induction entries as [|e r IH]; intros done fuel inst d old Hfit Hold Hfuel.
  { exists d. cbn [map concat]. rewrite app_nil_r.
    assert (Hend : (len done <? len done) = false) by (apply Z.ltb_irrefl).
    destruct fuel; cbn [instance_entries]; rewrite Hend;
      (split; [reflexivity | rewrite app_nil_r; exact Hold]). }
  inversion Hfit as [|? ? (Hid & Hname & Htype) Hfit']; subst.
  destruct fuel as [|k]; [cbn in Hfuel; lia|].
  cbn [map concat]. unfold symbol_record at 1.
  set (f1 := le_encode 4 (Symbol.instance_id e mod 2 ^ 32)).
  set (f2 := le_encode 2 (len (Symbol.tag_name e))).
  set (name := Symbol.tag_name e).
  set (f3 := le_encode 2 (Symbol.symbol_type e)).
  set (rest := concat (map symbol_record r)).
  assert (Hl1 : len f1 = 4) by apply len_le_encode.
  assert (Hl2 : len f2 = 2) by apply len_le_encode.
  assert (Hl3 : len f3 = 2) by apply len_le_encode.
  assert (Hn0 : 0 <= len name) by (unfold len; lia).
  cbn [instance_entries].
  assert (Hmore : (len done <? len (done ++ (f1 ++ f2 ++ name ++ f3) ++ rest)) = true).
  { apply Z.ltb_lt. rewrite !len_app. unfold len in *. lia. }
  rewrite Hmore.
  assert (S1 : slice (len done) (len done + 4)
                 (done ++ (f1 ++ f2 ++ name ++ f3) ++ rest) = f1).
  { rewrite <- !app_assoc. apply slice_at; [reflexivity | lia]. }
  assert (S2 : slice (len done + 4) (len done + 4 + 2)
                 (done ++ (f1 ++ f2 ++ name ++ f3) ++ rest) = f2).
  { rewrite <- !app_assoc. rewrite (app_assoc done f1).
    apply slice_at; [rewrite len_app; lia | lia]. }
  assert (S3 : slice (len done + 4 + 2) (len done + 4 + 2 + len name)
                 (done ++ (f1 ++ f2 ++ name ++ f3) ++ rest) = name).
  { rewrite <- !app_assoc. rewrite (app_assoc done f1), (app_assoc _ f2).
    apply slice_at; [rewrite !len_app; lia | lia]. }
  assert (S4 : slice (len done + 4 + 2 + len name) (len done + 4 + 2 + len name + 2)
                 (done ++ (f1 ++ f2 ++ name ++ f3) ++ rest) = f3).
  { rewrite <- !app_assoc.
    rewrite (app_assoc done f1), (app_assoc _ f2), (app_assoc _ name).
    apply slice_at; [rewrite !len_app; lia | lia]. }
  assert (D1 : unpack_dint f1 = inr (Symbol.instance_id e))
    by (apply unpack_dint_encode; exact Hid).
  assert (D2 : unpack_uint f2 = inr (len name)).
  { apply (unpack_unsigned_encode 2).
    change (256 ^ Z.of_nat 2) with (2 ^ 16). unfold name in *. lia. }
  assert (D3 : unpack_uint f3 = inr (Symbol.symbol_type e)).
  { apply (unpack_unsigned_encode 2).
    change (256 ^ Z.of_nat 2) with (2 ^ 16). lia. }
  rewrite S1, D1. cbn [liftR]. erewrite run_bind_ret by reflexivity.
  rewrite S2, D2. cbn [liftR]. erewrite run_bind_ret by reflexivity.
  cbv zeta. rewrite S3, S4, D3. cbn [liftR].
  erewrite run_bind_ret by reflexivity.
  assert (Happ : tag_list_append
            (ISymbol (Symbol.mk (Symbol.instance_id e) name (Symbol.symbol_type e))) d
          = (Ret tt, set_tag_list
               (TLList (old ++ [ISymbol (Symbol.mk (Symbol.instance_id e) name
                                           (Symbol.symbol_type e))])) d)).
  { unfold tag_list_append, mbind, M_bind, gets. rewrite Hold. reflexivity. }
  erewrite run_bind_ret by exact Happ.
  destruct (IH (done ++ f1 ++ f2 ++ name ++ f3) k (Symbol.instance_id e)
              (set_tag_list
                 (TLList (old ++ [ISymbol (Symbol.mk (Symbol.instance_id e) name
                                             (Symbol.symbol_type e))])) d)
              (old ++ [ISymbol (Symbol.mk (Symbol.instance_id e) name
                                  (Symbol.symbol_type e))])
              Hfit' eq_refl ltac:(cbn in Hfuel; lia)) as (d' & Hrun & Hlist).
  exists d'. split.
  - replace (len done + 4 + 2 + len name + 2)
      with (len (done ++ f1 ++ f2 ++ name ++ f3))
      by (rewrite !len_app; lia).
    rewrite (app_assoc done (f1 ++ f2 ++ name ++ f3) rest). subst rest.
    rewrite Hrun, last_seen_cons. reflexivity.
  - rewrite Hlist, <- app_assoc. cbn [app map]. f_equal. f_equal. f_equal.
    destruct e; reflexivity.
Qed.

End SymbolTable.

Section SymbolTableRoundTrip.
Context {cb : CipBase}.

Lemma symbol_records_length (entries : list Symbol.t) :
  (length entries <= length (concat (map symbol_record entries)))%nat.
Proof.
  induction entries as [|e r IH]; [reflexivity|].
  cbn [map concat length]. rewrite length_app.
  assert (8 <= length (symbol_record e))%nat
    by (unfold symbol_record; rewrite !length_app, !length_le_encode; lia).
  lia.
Qed.

(** Parsing a Get Instance Attributes List reply gives back the entries it
    was made of: for entries whose fields fit their widths, laid out one
    after the other behind the header of the reply, the parser appends
    exactly those entries, in order, to the tag list, whatever the status
    of the reply. *)
Theorem symbol_table_round_trip (entries : list Symbol.t) (header : bytes)
    (status : Z) (d : Driver) (old : list item) :
  Forall symbol_fits entries ->
  _reply d = Some (header ++ concat (map symbol_record entries)) ->
  _tag_list d = TLList old ->
  exists d',
    _parse_instance_attribute_list (len header) status d = (Ret tt, d')
    /\ _tag_list d' = TLList (old ++ map ISymbol entries).
Proof.
  intros Hfit Hreply Hold. unfold _parse_instance_attribute_list.
  assert (Hr : reply_bytes d
               = (Ret (header ++ concat (map symbol_record entries)), d)).
  { unfold reply_bytes, mbind, M_bind, gets. rewrite Hreply. reflexivity. }
  erewrite run_bind_ret by exact Hr. cbv zeta.
  assert (Hs : slice_from (len header)
                 (header ++ concat (map symbol_record entries))
               = concat (map symbol_record entries)).
  { unfold slice_from, len. rewrite Nat2Z.id. apply drop_app_length. }
  rewrite Hs.
  destruct (instance_entries_decodes entries []
              (length (concat (map symbol_record entries))) 0 d old
              Hfit Hold (symbol_records_length entries))
    as (d1 & Hrun & Hlist).
  cbn [app] in Hrun. change (len []) with 0 in Hrun.
  assert (Hwrapped : data_error_on_exception
            (instance_entries (length (concat (map symbol_record entries)))
               (concat (map symbol_record entries)) 0 0) d
          = (Ret (last_seen entries 0), d1)).
  { unfold data_error_on_exception. rewrite Hrun. reflexivity. }
  erewrite run_bind_ret by exact Hwrapped.
  destruct (status =? SUCCESS); [eexists; split; [reflexivity | exact Hlist]|].
  destruct (status =? 6); eexists; (split; [reflexivity | exact Hlist]).
Qed.

End SymbolTableRoundTrip.

(** ** Worked examples *)

Lemma run_returns {A} (m : M A) (d : Driver) (a : A) :
  fst (m d) = Ret a -> m d = (Ret a, snd (m d)).
Proof. destruct (m d) as [o d']. cbn. intros ->. reflexivity. Qed.

(** A driver that is not connected, talking to a controller that does not
    answer [forward_open]: reading raises, and so does writing an array,
    with status code 9. *)
Lemma operations_need_a_session_witness :
  let d := set_target_is_connected false (Logix.session []) in
  fst (read_tag (cb := Logix.tables) (OneTag "Counts") d) = Raise DataError
  /\ fst (_status (snd (write_array (cb := Logix.tables) "Tbl"
                          (ArrayList [PInt 1]) "DINT" false d))) = 9.
Proof.
  cbv zeta.
  destruct (operations_need_a_session (cb := Logix.tables)
              (set_target_is_connected false (Logix.session [])) eq_refl)
    as (Hread & _ & _ & Harray & _).
  destruct (Hread (OneTag "Counts")) as (d1 & -> & _).
  destruct (Harray "Tbl" [PInt 1] "DINT" false) as (d2 & -> & Hs & _).
  split; [reflexivity | exact Hs].
Defined.

(** A Read Tag reply with general status 0x06: the answer is [True], with
    "Insufficient Packet Space" recorded. *)
Lemma check_reply_verdict_witness :
  let r := _check_reply (cb := Logix.tables)
             (Logix.received (Logix.unit_reply 0xCC 6 [])) in
  fst r = Ret true /\ _status (snd r) = (3, "Insufficient Packet Space").
Proof.
  cbv zeta.
  destruct (check_reply_verdict (cb := Logix.tables) _ _ _
              (surjective_pairing
                 (_check_reply (cb := Logix.tables)
                    (Logix.received (Logix.unit_reply 0xCC 6 [])))))
    as (_ & _ & H).
  apply H. vm_compute. reflexivity.
Defined.

(** A Get Attributes reply with general status 0x05. *)
Lemma structure_makeup_complete_or_error_witness :
  exists m,
    _buffer (snd (_parse_structure_makeup_attributes 50 5
                    (Logix.received (Logix.unit_reply 0x83 5 []))))
    = BufDict m
    /\ m = {[ "Error" := PInt 5 ]}.
Proof.
  destruct (structure_makeup_complete_or_error 50 5 _ _
              (run_returns
                 (_parse_structure_makeup_attributes 50 5)
                 (Logix.received (Logix.unit_reply 0x83 5 [])) tt
                 ltac:(vm_compute; reflexivity)))
    as (m & Hb & Herr & _).
  exists m. split; [exact Hb | apply Herr; discriminate].
Defined.

(** Two writes, both accepted. *)
Lemma multi_write_rows_witness :
  let tags := [("A", PInt 1, "DINT"); ("C.3", PBool true, "BOOL")] in
  let r := _parse_multiple_request_write tags
             (Logix.received Logix.two_writes_done) in
  exists rows,
    fst r = Ret rows /\ length rows = 2%nat
    /\ forall row, rows !! 1%nat = Some row ->
         row = ("C.3", PBool true, "BOOL", "GOOD").
Proof.
  cbv zeta. eexists. split; [vm_compute; reflexivity|].
  destruct (multi_write_rows _ _ _ _
              (run_returns
                 (_parse_multiple_request_write
                    [("A", PInt 1, "DINT"); ("C.3", PBool true, "BOOL")])
                 (Logix.received Logix.two_writes_done) _
                 ltac:(vm_compute; reflexivity)))
    as (reply & n & Hreply & Hn & Hlen & Hrows & _).
  injection Hreply as <-. vm_compute in Hn. injection Hn as <-.
  split; [exact Hlen|]. intros row Hrow.
  destruct (Hrows 1%nat row Hrow) as (t & st & Ht & Hst & ->).
  vm_compute in Ht, Hst. injection Ht as <-. injection Hst as <-.
  reflexivity.
Defined.

(** Reading the DINT [Counts], whose value is 7. *)
Lemma read_tag_one_result_witness :
  let r := read_tag (cb := Logix.tables) (OneTag "Counts")
             (Logix.session
                [Some (Logix.unit_reply 0xCC 0 [0xC4; 0; 7; 0; 0; 0])]) in
  fst r = Ret (ReadValue (PInt 7) "DINT") /\ fst (_status (snd r)) = 0.
Proof.
  cbv zeta. split; [vm_compute; reflexivity|].
  apply (read_tag_one_result (cb := Logix.tables) "Counts" _
           (ReadValue (PInt 7) "DINT") _
           (run_returns (read_tag (cb := Logix.tables) (OneTag "Counts"))
              (Logix.session
                 [Some (Logix.unit_reply 0xCC 0 [0xC4; 0; 7; 0; 0; 0])]) _
              ltac:(vm_compute; reflexivity))).
Defined.

(** Three DINTs that arrive in two fragments are numbered 0, 1, 2. *)
Lemma read_array_numbers_its_pairs_witness :
  let r := read_array (cb := Logix.tables) "Tbl" (PInt 3) false
             (Logix.session
                [Some (Logix.unit_reply 0xD2 6 [0xC4; 0; 1; 0; 0; 0; 2; 0; 0; 0]);
                 Some (Logix.unit_reply 0xD2 0 [0xC4; 0; 3; 0; 0; 0])]) in
  exists l, fst r = Ret (Some (TLList l)) /\ positions l = [0; 1; 2].
Proof.
  cbv zeta.
  destruct (read_array_numbers_its_pairs (cb := Logix.tables) "Tbl" (PInt 3) _ _ _
              (run_returns (read_array (cb := Logix.tables) "Tbl" (PInt 3) false)
                 (Logix.session
                    [Some (Logix.unit_reply 0xD2 6
                             [0xC4; 0; 1; 0; 0; 0; 2; 0; 0; 0]);
                     Some (Logix.unit_reply 0xD2 0 [0xC4; 0; 3; 0; 0; 0])])
                 (Some (TLList [IValue 0 (PInt 1); IValue 1 (PInt 2);
                                IValue 2 (PInt 3)]))
                 ltac:(vm_compute; reflexivity)))
    as (l & Hl & Hpos).
  injection Hl as <-. eexists. split; [vm_compute; reflexivity | exact Hpos].
Defined.

(** A raw read answered by a fragment without elements returns the empty
    string. *)
Lemma read_array_raw_returns_no_data_witness :
  let r := read_array (cb := Logix.tables) "Tbl" (PInt 3) true
             (Logix.session [Some (Logix.unit_reply 0xD2 0 [0xC4; 0])]) in
  exists tl, fst r = Ret (Some tl) /\ tl = TLStr "".
Proof.
  cbv zeta. eexists. split; [vm_compute; reflexivity|].
  apply (read_array_raw_returns_no_data (cb := Logix.tables) "Tbl" (PInt 3) _ _ _
           (run_returns (read_array (cb := Logix.tables) "Tbl" (PInt 3) true)
              (Logix.session [Some (Logix.unit_reply 0xD2 0 [0xC4; 0])]) _
              ltac:(vm_compute; reflexivity))).
Defined.

(** Writing 5 to the DINT [Counts]: one frame goes out and the reply comes
    back. *)
Lemma write_tag_one_tag_witness :
  let r := write_tag (cb := Logix.tables) (WriteOne "Counts" (PInt 5) "DINT")
             (Logix.session [Some (Logix.unit_reply 0xCD 0 [])]) in
  fst r = Ret (WroteReply (Logix.unit_reply 0xCD 0 []))
  /\ length (wire_out (snd r)) = 1%nat.
Proof.
  cbv zeta. split; [vm_compute; reflexivity|].
  destruct (write_tag_one_tag (cb := Logix.tables) "Counts" (PInt 5) "DINT"
              (Logix.session [Some (Logix.unit_reply 0xCD 0 [])]) eq_refl)
    as [_ H].
  destruct (H _ _ (run_returns
                     (write_tag (cb := Logix.tables)
                        (WriteOne "Counts" (PInt 5) "DINT"))
                     (Logix.session [Some (Logix.unit_reply 0xCD 0 [])]) _
                     ltac:(vm_compute; reflexivity)))
    as (reply & rp & s & path_size & data & _ & _ & _ & _ & _ & Hm).
  cbn [snd fst] in Hm.
  change (snd (_prep_bools (cb := Logix.tables) "Counts" "DINT" false))
    with (@None Z) in Hm.
  destruct Hm as (code & pack & _ & _ & _ & ->). reflexivity.
Defined.

(** Of the five entries of the symbol table one is a program header. *)
Lemma isolating_collects_program_names_witness :
  let d := set_tag_list (TLList (map ISymbol Logix.symbols)) (Logix.session []) in
  _program_names (snd (_isolating_user_tag (cb := Logix.tables) d))
  = ["Program:Main"].
Proof.
  cbv zeta.
  destruct (isolating_collects_program_names (cb := Logix.tables) Logix.symbols
              (set_tag_list (TLList (map ISymbol Logix.symbols))
                 (Logix.session [])) _ eq_refl
              (run_returns (_isolating_user_tag (cb := Logix.tables))
                 (set_tag_list (TLList (map ISymbol Logix.symbols))
                    (Logix.session [])) tt ltac:(vm_compute; reflexivity)))
    as (names & Hnames & ->).
  assert (names = ["Motor"; "Count"; "Flag"; "Sys"; "Program:Main"]) as ->.
  { unfold Logix.symbols in Hnames.
    repeat match goal with
           | H : Forall2 _ (_ :: _) _ |- _ =>
               apply Forall2_cons_inv_l in H as (? & ? & ? & H & ->)
           | H : Forall2 _ [] _ |- _ => apply Forall2_nil_inv_l in H as ->
           | H : py_decode _ = Some _ |- _ => vm_compute in H; injection H as <-
           end.
    reflexivity. }
  reflexivity.
Defined.

(** The page of the symbol table with the entries 103 ["AB"] and 104
    ["C"]. *)
Lemma symbol_table_round_trip_witness :
  let entries :=
    [Symbol.mk 103 (list_byte_of_string "AB") 0xC4;
     Symbol.mk 104 (list_byte_of_string "C") 0xC1] in
  exists d',
    _parse_instance_attribute_list 50 6 (Logix.received Logix.symbols_page)
    = (Ret tt, d')
    /\ _tag_list d' = TLList (map ISymbol entries).
Proof.
  cbv zeta.
  destruct (symbol_table_round_trip
              [Symbol.mk 103 (list_byte_of_string "AB") 0xC4;
               Symbol.mk 104 (list_byte_of_string "C") 0xC1]
              (take 50 Logix.symbols_page) 6
              (Logix.received Logix.symbols_page) [])
    as (d' & Hrun & Hlist).
  - repeat constructor; vm_compute; congruence.
  - vm_compute. reflexivity.
  - reflexivity.
  - exists d'. split; [exact Hrun | exact Hlist].
Defined.

(** ** A fragmented read from end to end *)

Lemma numbered_from_cons (start : Z) (v : pyval) (values : list pyval) :
  numbered_from start (v :: values)
  = IValue start v :: numbered_from (start + 1) values.
Proof.
  unfold numbered_from. cbn [imap]. rewrite Z.add_0_r. f_equal.
  apply imap_ext. intros i x _. cbn. f_equal. lia.
Qed.

Lemma numbered_from_app (start : Z) (l r : list pyval) :
  numbered_from start (l ++ r)
  = numbered_from start l ++ numbered_from (start + len l) r.
Proof.
  revert start. induction l as [|v l IH]; intros start.
  - cbn [app]. unfold len. cbn. rewrite Z.add_0_r. reflexivity.
  - cbn [app]. rewrite !numbered_from_cons, IH. cbn [app]. f_equal. f_equal.
    f_equal. unfold len. cbn [length]. lia.
Qed.

Section FragmentedRead.
Context {cb : CipBase}.
Variables (typ : string) (size : positive) (unpack : bytes -> result pyval).
Hypothesis size_known : DATA_FUNCTION_SIZE typ = Some size.
Hypothesis unpack_known : UNPACK_DATA_FUNCTION typ = Some unpack.

Lemma fragment_values_decodes code elements values :
  I_DATA_TYPE code = Some typ ->
  Forall2 (fun e v => len e = Z.pos size /\ unpack e = inr v) elements values ->
  forall done fuel d acc,
    _output_raw d = false -> _tag_list d = TLList acc ->
    (length elements <= fuel)%nat ->
    exists d',
      fragment_values fuel code (done ++ concat elements) (len done) d
      = (Ret tt, d')
      /\ _tag_list d'
         = TLList (acc ++ numbered_from (_last_position d) values)
      /\ _last_position d' = _last_position d + len values.
Proof.
  intros Htyp Hall.
  induction Hall as [|e v elements values [Hlen Hv] _ IH];
    intros done fuel d acc Hraw Hacc Hfuel.
  { exists d. cbn [concat]. rewrite app_nil_r.
    assert (Hend : (len done <? len done) = false) by apply Z.ltb_irrefl.
    destruct fuel; cbn [fragment_values]; rewrite Hend;
      (split; [reflexivity|]);
      (split; [rewrite app_nil_r; exact Hacc | unfold len; cbn; lia]). }
  destruct fuel as [|k]; [cbn in Hfuel; lia|].
  cbn [concat fragment_values].
  assert (Hmore : (len done <? len (done ++ e ++ concat elements)) = true).
  { apply Z.ltb_lt. rewrite !len_app. unfold len in *. lia. }
  rewrite Hmore.
  erewrite run_bind_ret by reflexivity. rewrite Hraw.
  assert (Hchunk : slice (len done) (len done + Z.pos size)
                     (done ++ e ++ concat elements) = e)
    by (apply slice_at; [reflexivity | lia]).
  assert (Hdecode :
    data_error_on_exception
      (typ0 ← lookup_or_raise (I_DATA_TYPE code);
       size0 ← lookup_or_raise (DATA_FUNCTION_SIZE typ0);
       let chunk := slice (len done) (len done + Z.pos size0)
                      (done ++ e ++ concat elements) in
       value ← (unpack0 ← lookup_or_raise (UNPACK_DATA_FUNCTION typ0);
                liftR (unpack0 chunk));
       mret (value, len done + Z.pos size0)) d
    = (Ret (v, len done + Z.pos size), d)).
  { unfold data_error_on_exception. rewrite Htyp. cbn [lookup_or_raise or_raise liftR].
    erewrite run_bind_ret by reflexivity. rewrite size_known.
    cbn [lookup_or_raise or_raise liftR].
    erewrite run_bind_ret by reflexivity. cbv zeta.
    rewrite unpack_known, Hchunk. unfold lookup_or_raise, or_raise.
    cbn [liftR]. unfold mbind, M_bind, mret, M_ret. cbv beta iota.
    rewrite Hv. reflexivity. }
  erewrite run_bind_ret by exact Hdecode. cbv beta iota.
  assert (Happend :
    (pos ← gets _last_position;
     tag_list_append (IValue pos v);;
     modify (set_last_position (pos + 1))) d
    = (Ret tt,
       set_last_position (_last_position d + 1)
         (set_tag_list (TLList (acc ++ [IValue (_last_position d) v])) d))).
  { unfold tag_list_append, mbind, M_bind, gets, modify. rewrite Hacc.
    reflexivity. }
  erewrite run_bind_ret by exact Happend.
  destruct (IH (done ++ e) k
              (set_last_position (_last_position d + 1)
                 (set_tag_list (TLList (acc ++ [IValue (_last_position d) v])) d))
              (acc ++ [IValue (_last_position d) v])
              Hraw eq_refl ltac:(cbn in Hfuel; lia))
    as (d' & Hrun & Hlist & Hpos).
  exists d'.
  replace (len done + Z.pos size) with (len (done ++ e))
    by (rewrite len_app; lia).
  rewrite (app_assoc done e (concat elements)).
  split; [exact Hrun|]. split.
  - rewrite Hlist, numbered_from_cons, <- app_assoc. reflexivity.
  - rewrite Hpos. cbn [_last_position set_last_position].
    unfold len. cbn [length]. lia.
Qed.

Lemma elements_length (elements : list bytes) (values : list pyval) :
  Forall2 (fun e v => len e = Z.pos size /\ unpack e = inr v) elements values ->
  (length elements <= length (concat elements))%nat.
Proof.
  induction 1 as [|e v elements values [Hlen _] _ IH]; [reflexivity|].
  cbn [concat length]. rewrite length_app. unfold len in Hlen. lia.
Qed.

Lemma parse_fragment_decodes reply elements values status d acc :
  _reply d = Some reply ->
  carries reply typ size unpack elements values ->
  status = SUCCESS \/ status = 0x06 ->
  _output_raw d = false -> _tag_list d = TLList acc ->
  exists d',
    _parse_fragment 50 status d = (Ret tt, d')
    /\ _tag_list d' = TLList (acc ++ numbered_from (_last_position d) values)
    /\ _last_position d' = _last_position d + len values
    /\ _byte_offset d'
       = (if status =? SUCCESS then -1
          else _byte_offset d + len (concat elements)).
Proof.
  intros Hreply ((code & Hcode & Htyp) & Hdata & Hall) Hstatus Hraw Hacc.
  unfold _parse_fragment.
  assert (Hhead :
    data_error_on_exception
      (reply0 ← reply_bytes;
       data_type ← liftR (unpack_uint (slice 50 (50 + 2) reply0));
       mret (data_type, slice_from (50 + 2) reply0)) d
    = (Ret (code, concat elements), d)).
  { unfold data_error_on_exception, reply_bytes, mbind, M_bind, gets.
    rewrite Hreply. cbv beta iota. unfold mret, M_ret.
    change (50 + 2) with 52. rewrite Hcode, Hdata. reflexivity. }
  erewrite run_bind_ret by exact Hhead. cbv beta iota zeta.
  destruct (fragment_values_decodes code elements values Htyp Hall []
              (length (concat elements)) d acc Hraw Hacc
              (elements_length _ _ Hall)) as (d1 & Hrun & Hlist & Hpos).
  cbn [app] in Hrun. change (len []) with 0 in Hrun.
  erewrite run_bind_ret by exact Hrun.
  pose proof (fragment_values_keeps_exchange _ _ _ _ _ _ _ Hrun) as Hx.
  injection Hx as Hoff _ _ _.
  destruct Hstatus as [-> | ->].
  - eexists. split; [reflexivity|]. cbn. auto.
  - eexists. split; [reflexivity|]. cbn. rewrite Hoff. auto.
Qed.

Lemma check_reply_parses_fragment reply status d :
  _reply d = Some reply ->
  unit_data_reply reply (I_TAG_SERVICES_REPLY "Read Tag Fragmented") status ->
  _check_reply d
  = data_error_on_exception (_parse_fragment 50 status;; mret true)
      (set_more_packets_available false d).
Proof.
  intros Hreply (t & rr & Ht & Henc & Hrr & Hne & Hud & Hst & Hsv).
  unfold _check_reply.
  erewrite run_bind_ret by reflexivity.
  unfold data_error_on_exception. f_equal.
  erewrite run_bind_ret by reflexivity.
  cbn [_reply set_more_packets_available]. rewrite Hreply, Ht.
  cbn [liftR]. erewrite run_bind_ret by reflexivity.
  rewrite Henc. cbn [liftR]. erewrite run_bind_ret by reflexivity.
  change (negb (SUCCESS =? SUCCESS)) with false. cbv iota.
  rewrite Hrr. cbn [liftR]. erewrite run_bind_ret by reflexivity.
  rewrite (proj2 (Z.eqb_neq t rr) Hne).
  rewrite Hud. cbn [liftR]. erewrite run_bind_ret by reflexivity.
  rewrite Z.eqb_refl. unfold check_unit_data_reply.
  rewrite Hst, Hsv. cbn [liftR].
  erewrite run_bind_ret by reflexivity. erewrite run_bind_ret by reflexivity.
  erewrite run_bind_ret by reflexivity.
  rewrite Z.eqb_refl. reflexivity.
Qed.

Lemma send_connected_receives mr d reply rest d2 :
  wire_in d = Some reply :: rest ->
  _check_reply
    (set_reply (Some reply)
       (set_wire_in rest
          (set_wire_out (wire_out d ++ [connected_frame mr (_target_cid d)])
             (set_message (connected_frame mr (_target_cid d)) d))))
  = (Ret true, d2) ->
  send_connected mr d = (Ret (Some reply), d2).
Proof.
  intros Hin Hcheck.
  pose proof (check_reply_keeps_link _ _ _ Hcheck) as Hl.
  unfold link in Hl. injection Hl as _ _ _ _ _ _ _ _ Hrep.
  cbn [_reply set_reply] in Hrep.
  unfold send_connected. erewrite run_bind_ret by reflexivity.
  unfold send_unit_data. cbv zeta.
  erewrite run_bind_ret by reflexivity. erewrite run_bind_ret by reflexivity.
  erewrite run_bind_ret by reflexivity.
  cbn [wire_in set_wire_out set_message]. rewrite Hin.
  erewrite run_bind_ret by reflexivity.
  unfold connected_frame in Hcheck. cbv zeta in Hcheck.
  erewrite run_bind_ret by exact Hcheck.
  unfold gets. rewrite Hrep. reflexivity.
Qed.

Variables (tag : string) (counts : pyval) (rp c : bytes).
Hypothesis path_builds : create_tag_rp tag false = Some rp.
Hypothesis path_fits : len rp / 2 < 256.
Hypothesis counts_pack : pack_uint_val counts = inr c.
Hypothesis sequence_fits : forall s, 0 <= next_sequence s < 2 ^ 16.

Lemma get_sequence_run d :
  _get_sequence d
  = (Ret (next_sequence (_sequence d)),
     set_sequence (next_sequence (_sequence d)) d).
Proof. reflexivity. Qed.

Lemma read_array_step_receives status f rest d acc :
  0 <= _byte_offset d < 2 ^ 31 ->
  wire_in d = Some (Fragment.reply f) :: rest ->
  fragment_answer typ size unpack status f ->
  status = SUCCESS \/ status = 0x06 ->
  _output_raw d = false -> _tag_list d = TLList acc ->
  exists d',
    read_array_step tag counts d = (Ret None, d')
    /\ _tag_list d'
       = TLList (acc ++ numbered_from (_last_position d) (Fragment.values f))
    /\ _last_position d' = _last_position d + len (Fragment.values f)
    /\ _byte_offset d'
       = (if status =? SUCCESS then -1
          else _byte_offset d + len (concat (Fragment.elements f)))
    /\ wire_in d' = rest /\ _output_raw d' = false
    /\ length (wire_out d') = S (length (wire_out d)).
Proof.
  intros Hoff Hin [Hreply Hcarries] Hstatus Hraw Hacc.
  unfold read_array_step. rewrite path_builds.
  erewrite run_bind_ret by apply get_sequence_run.
  assert (Hs : pack_uint (next_sequence (_sequence d))
               = inr (le_encode 2 (next_sequence (_sequence d)))).
  { unfold pack_uint, pack_unsigned.
    pose proof (sequence_fits (_sequence d)) as Hseq.
    destruct (Z.leb_spec 0 (next_sequence (_sequence d))); [|lia].
    destruct (Z.ltb_spec (next_sequence (_sequence d)) (2 ^ (8 * Z.of_nat 2)));
      [reflexivity|]. change (2 ^ (8 * Z.of_nat 2)) with (2 ^ 16) in *. lia. }
  rewrite Hs. cbn [liftR]. erewrite run_bind_ret by reflexivity.
  assert (Hp : bytes_of_int (len rp / 2) = inr [byte_of_Z (len rp / 2)]).
  { unfold bytes_of_int.
    assert (0 <= len rp / 2) by (apply Z.div_pos; unfold len; lia).
    destruct (Z.leb_spec 0 (len rp / 2)); [|lia].
    destruct (Z.ltb_spec (len rp / 2) 256); [reflexivity | lia]. }
  rewrite Hp, counts_pack. cbn [liftR].
  erewrite run_bind_ret by reflexivity. erewrite run_bind_ret by reflexivity.
  erewrite run_bind_ret by reflexivity.
  cbn [_byte_offset set_sequence].
  assert (Ho : pack_dint (_byte_offset d)
               = inr (le_encode 4 (_byte_offset d mod 2 ^ 32))).
  { unfold pack_dint.
    destruct (Z.leb_spec (- 2 ^ 31) (_byte_offset d)); [|lia].
    destruct (Z.ltb_spec (_byte_offset d) (2 ^ 31)); [reflexivity | lia]. }
  rewrite Ho. cbn [liftR]. erewrite run_bind_ret by reflexivity.
  match goal with
  | |- context [send_connected ?mr] => set (message_request := mr)
  end.
  set (d0 := set_sequence (next_sequence (_sequence d)) d).
  set (received :=
         set_more_packets_available false
           (set_reply (Some (Fragment.reply f))
              (set_wire_in rest
                 (set_wire_out
                    (wire_out d0
                     ++ [connected_frame message_request (_target_cid d0)])
                    (set_message
                       (connected_frame message_request (_target_cid d0))
                       d0))))).
  destruct (parse_fragment_decodes (Fragment.reply f) (Fragment.elements f)
              (Fragment.values f) status received acc eq_refl Hcarries
              Hstatus Hraw Hacc) as (d' & Hparse & Hlist & Hpos & Hbyte).
  pose proof (parse_fragment_keeps_link _ _ _ _ _ Hparse) as Hl.
  pose proof (parse_fragment_keeps_flags _ _ _ _ _ Hparse) as Hf.
  unfold link in Hl. injection Hl as Hwo Hwi _ _ _ _ _ _ _.
  unfold flags in Hf. injection Hf as _ Hraw' _ _ _ _.
  assert (Hsend : send_connected message_request d0
                  = (Ret (Some (Fragment.reply f)), d')).
  { apply (send_connected_receives _ _ _ rest); [exact Hin|].
    rewrite (check_reply_parses_fragment _ status) by (reflexivity || exact Hreply).
    unfold data_error_on_exception.
    erewrite run_bind_ret by exact Hparse. reflexivity. }
  erewrite run_bind_ret by exact Hsend.
  exists d'. split; [reflexivity|].
  split; [exact Hlist|]. split; [exact Hpos|]. split; [exact Hbyte|].
  split; [exact Hwi|]. split; [rewrite Hraw'; exact Hraw|].
  rewrite Hwo. cbn [wire_out received set_more_packets_available set_reply
                    set_wire_in set_wire_out].
  rewrite length_app. cbn. lia.
Qed.

Lemma read_array_loop_receives fragments :
  forall last rest d acc fuel,
    Forall (fragment_answer typ size unpack 0x06) fragments ->
    fragment_answer typ size unpack SUCCESS last ->
    0 <= _byte_offset d ->
    _byte_offset d
    + len (concat (concat (map Fragment.elements fragments))) < 2 ^ 31 ->
    wire_in d
    = map (fun f => Some (Fragment.reply f)) (fragments ++ [last]) ++ rest ->
    _output_raw d = false -> _tag_list d = TLList acc ->
    (length fragments < fuel)%nat ->
    exists d',
      while_loop fuel fragments_pending (read_array_step tag counts) d
      = (Ret None, d')
      /\ _tag_list d'
         = TLList (acc ++ numbered_from (_last_position d)
                            (concat (map Fragment.values (fragments ++ [last]))))
      /\ wire_in d' = rest
      /\ length (wire_out d')
         = (length (wire_out d) + S (length fragments))%nat.
Proof.
  induction fragments as [|f fs IH];
    intros last rest d acc fuel Hall Hlast Hoff Hbound Hin Hraw Hacc Hfuel;
    (destruct fuel as [|k]; [cbn in Hfuel; lia|]);
    cbn [while_loop];
    assert (Hpending : fragments_pending d = true)
      by (unfold fragments_pending;
          destruct (Z.eqb_spec (_byte_offset d) (-1)); [lia | reflexivity]);
    rewrite Hpending.
  - cbn [map concat app length] in *.
    assert (Hb : 0 <= _byte_offset d < 2 ^ 31)
      by (unfold len in Hbound; cbn in Hbound; lia).
    destruct (read_array_step_receives SUCCESS last rest d acc Hb Hin Hlast
                (or_introl eq_refl) Hraw Hacc)
      as (d1 & Hstep & Hlist & _ & Hbyte & Hwi & _ & Hwo).
    rewrite Hstep. exists d1.
    assert (Hstop : fragments_pending d1 = false)
      by (unfold fragments_pending; rewrite Hbyte; reflexivity).
    split; [destruct k; cbn [while_loop]; rewrite Hstop; reflexivity|].
    rewrite app_nil_r. split; [exact Hlist|]. split; [exact Hwi|]. lia.
  - inversion Hall as [|? ? Hf Hfs]; subst.
    cbn [map concat app length] in *.
    rewrite concat_app, len_app in Hbound.
    assert (Hn : 0 <= len (concat (Fragment.elements f))) by (unfold len; lia).
    assert (Hn' : 0 <= len (concat (concat (map Fragment.elements fs))))
      by (unfold len; lia).
    destruct (read_array_step_receives 0x06 f _ d acc ltac:(lia) Hin Hf
                (or_intror eq_refl) Hraw Hacc)
      as (d1 & Hstep & Hlist & Hpos & Hbyte & Hwi & Hraw1 & Hwo).
    rewrite Hstep. change (6 =? SUCCESS) with false in Hbyte. cbv iota in Hbyte.
    destruct (IH last rest d1 _ k Hfs Hlast ltac:(lia) ltac:(lia) Hwi Hraw1
                Hlist ltac:(lia)) as (d' & Hloop & Hlist' & Hwi' & Hwo').
    exists d'. split; [exact Hloop|].
    split; [|split; [exact Hwi' | lia]].
    rewrite Hlist', Hpos, numbered_from_app, <- app_assoc. reflexivity.
Qed.

(** A fragmented read from end to end.  The controller answers the requests
    of [read_array] with fragments of elements of one type, all but the last
    with general status 0x06 and the last with SUCCESS.  Then [read_array]
    returns the values the elements stand for, all of them, in the order of
    the fragments and numbered from 0; it has sent one request per fragment
    and consumed exactly those replies. *)
Theorem read_array_returns_what_was_sent (fragments : list Fragment.t)
    (last : Fragment.t) (rest : list (option bytes)) (d : Driver) :
  _target_is_connected d = true ->
  Forall (fragment_answer typ size unpack 0x06) fragments ->
  fragment_answer typ size unpack SUCCESS last ->
  len (concat (concat (map Fragment.elements fragments))) < 2 ^ 31 ->
  wire_in d
  = map (fun f => Some (Fragment.reply f)) (fragments ++ [last]) ++ rest ->
  exists d',
    read_array tag counts false d
    = (Ret (Some (TLList (numbered_from 0
                            (concat (map Fragment.values
                                       (fragments ++ [last])))))), d')
    /\ wire_in d' = rest
    /\ length (wire_out d')
       = (length (wire_out d) + S (length fragments))%nat.
Proof.
  intros Hconn Hall Hlast Hbound Hin.
  unfold read_array, clear.
  erewrite run_bind_ret by reflexivity.
  erewrite run_bind_ret by (apply ensure_connected_open; exact Hconn).
  do 5 (erewrite run_bind_ret by reflexivity).
  set (d0 := set_tag_list _ _).
  destruct (read_array_loop_receives fragments last rest d0 []
              (S (length (wire_in d0))) Hall Hlast ltac:(cbn; lia)
              ltac:(cbn; lia) Hin eq_refl eq_refl)
    as (d' & Hloop & Hlist & Hwi & Hwo).
  { subst d0. cbn [wire_in set_tag_list set_output_raw set_last_position
                   set_byte_offset set_status].
    rewrite Hin, length_app, length_map, length_app. lia. }
  erewrite run_bind_ret by exact Hloop.
  exists d'. unfold mbind, M_bind, gets. rewrite Hlist. cbn [app].
  split; [reflexivity|]. split; [exact Hwi | exact Hwo].
Qed.

End FragmentedRead.

(** Three DINTs, two in a first fragment and one in the last. *)
Lemma read_array_returns_what_was_sent_witness :
  let first := Logix.unit_reply 0xD2 6 [0xC4; 0; 1; 0; 0; 0; 2; 0; 0; 0] in
  let last := Logix.unit_reply 0xD2 0 [0xC4; 0; 3; 0; 0; 0] in
  fst (read_array (cb := Logix.tables) "Tbl" (PInt 3) false
         (Logix.session [Some first; Some last]))
  = Ret (Some (TLList [IValue 0 (PInt 1); IValue 1 (PInt 2);
                       IValue 2 (PInt 3)])).
Proof.
  cbv zeta.
  destruct (read_array_returns_what_was_sent (cb := Logix.tables)
              "DINT" 4%positive (Logix.unpack_signed 4) eq_refl eq_refl
              "Tbl" (PInt 3) (Logix.B [0x91; 3; 84; 98; 108; 0]) (Logix.B [3; 0])
              eq_refl ltac:(vm_compute; reflexivity) eq_refl
              (fun s => Z.mod_pos_bound (s + 1) 65536 eq_refl)
              [Fragment.mk
                 (Logix.unit_reply 0xD2 6 [0xC4; 0; 1; 0; 0; 0; 2; 0; 0; 0])
                 [Logix.B [1; 0; 0; 0]; Logix.B [2; 0; 0; 0]]
                 [PInt 1; PInt 2]]
              (Fragment.mk (Logix.unit_reply 0xD2 0 [0xC4; 0; 3; 0; 0; 0])
                 [Logix.B [3; 0; 0; 0]] [PInt 3])
              []
              (Logix.session
                 [Some (Logix.unit_reply 0xD2 6
                          [0xC4; 0; 1; 0; 0; 0; 2; 0; 0; 0]);
                  Some (Logix.unit_reply 0xD2 0 [0xC4; 0; 3; 0; 0; 0])])
              eq_refl)
    as (d' & -> & _).
  - constructor; [|constructor]. split.
    + exists 0x70, 0x6F. vm_compute. repeat split; congruence.
    + split; [exists 0xC4; split; reflexivity|]. split; [reflexivity|].
      repeat constructor.
  - split.
    + exists 0x70, 0x6F. vm_compute. repeat split; congruence.
    + split; [exists 0xC4; split; reflexivity|]. split; [reflexivity|].
      repeat constructor.
  - vm_compute. reflexivity.
  - reflexivity.
  - reflexivity.
Defined.

(** ** A template from end to end *)

Lemma pack_uint_fits (z : Z) :
  0 <= z < 2 ^ 16 -> pack_uint z = inr (le_encode 2 z).
Proof.
  intros Hz. unfold pack_uint, pack_unsigned.
  change (2 ^ (8 * Z.of_nat 2)) with (2 ^ 16).
  destruct (Z.leb_spec 0 z); [|lia].
  destruct (Z.ltb_spec z (2 ^ 16)); [reflexivity | lia].
Qed.

Lemma pack_dint_fits (z : Z) :
  - 2 ^ 31 <= z < 2 ^ 31 -> pack_dint z = inr (le_encode 4 (z mod 2 ^ 32)).
Proof.
  intros Hz. unfold pack_dint.
  destruct (Z.leb_spec (- 2 ^ 31) z); [|lia].
  destruct (Z.ltb_spec z (2 ^ 31)); [reflexivity | lia].
Qed.

Section TemplateRead.
Context {cb : CipBase}.

(** The reply code of Read Template is not one of those the dispatcher
    looks for first. *)
Hypothesis template_code_apart :
  I_TAG_SERVICES_REPLY "Read Template"
    <> I_TAG_SERVICES_REPLY "Read Tag Fragmented"
  /\ I_TAG_SERVICES_REPLY "Read Template"
       <> I_TAG_SERVICES_REPLY "Get Instance Attributes List"
  /\ I_TAG_SERVICES_REPLY "Read Template"
       <> I_TAG_SERVICES_REPLY "Get Attributes".
Hypothesis sequence_fits : forall s, 0 <= next_sequence s < 2 ^ 16.

Lemma check_reply_parses_template reply status d :
  _reply d = Some reply ->
  unit_data_reply reply (I_TAG_SERVICES_REPLY "Read Template") status ->
  _get_template_in_progress d = true ->
  _check_reply d
  = data_error_on_exception (_parse_template 50 status;; mret true)
      (set_more_packets_available false d).
Proof.
  intros Hreply (t & rr & Ht & Henc & Hrr & Hne & Hud & Hst & Hsv) Hprog.
  destruct template_code_apart as (N1 & N2 & N3).
  unfold _check_reply.
  erewrite run_bind_ret by reflexivity.
  unfold data_error_on_exception. f_equal.
  erewrite run_bind_ret by reflexivity.
  cbn [_reply set_more_packets_available]. rewrite Hreply, Ht.
  cbn [liftR]. erewrite run_bind_ret by reflexivity.
  rewrite Henc. cbn [liftR]. erewrite run_bind_ret by reflexivity.
  change (negb (SUCCESS =? SUCCESS)) with false. cbv iota.
  rewrite Hrr. cbn [liftR]. erewrite run_bind_ret by reflexivity.
  rewrite (proj2 (Z.eqb_neq t rr) Hne).
  rewrite Hud. cbn [liftR]. erewrite run_bind_ret by reflexivity.
  rewrite Z.eqb_refl. unfold check_unit_data_reply.
  rewrite Hst, Hsv. cbn [liftR].
  erewrite run_bind_ret by reflexivity. erewrite run_bind_ret by reflexivity.
  erewrite run_bind_ret by reflexivity.
  cbn [_get_template_in_progress set_more_packets_available]. rewrite Hprog.
  rewrite (proj2 (Z.eqb_neq _ _) N1), (proj2 (Z.eqb_neq _ _) N2),
    (proj2 (Z.eqb_neq _ _) N3), Z.eqb_refl.
  reflexivity.
Qed.

Lemma parse_template_run reply status d acc :
  _reply d = Some reply -> _buffer d = BufBytes acc ->
  status = SUCCESS \/ status = 0x06 ->
  _parse_template 50 status d
  = (Ret tt,
     if status =? SUCCESS
     then set_get_template_in_progress false
            (set_buffer (BufBytes (acc ++ slice_from 50 reply)) d)
     else set_byte_offset (_byte_offset d + len (slice_from 50 reply))
            (set_buffer (BufBytes (acc ++ slice_from 50 reply)) d)).
Proof.
  intros Hreply Hbuf Hstatus. unfold _parse_template.
  assert (Hr : reply_bytes d = (Ret reply, d))
    by (unfold reply_bytes, mbind, M_bind, gets; rewrite Hreply; reflexivity).
  erewrite run_bind_ret by exact Hr. cbv zeta.
  assert (Hadd : buffer_iadd (slice_from 50 reply) d
                 = (Ret tt, set_buffer (BufBytes (acc ++ slice_from 50 reply)) d))
    by (unfold buffer_iadd, mbind, M_bind, gets; rewrite Hbuf; reflexivity).
  erewrite run_bind_ret by exact Hadd.
  destruct Hstatus as [-> | ->]; reflexivity.
Qed.

Variables (instance_id object_definition_size : Z).
Hypothesis instance_fits : 0 <= instance_id < 2 ^ 16.

Lemma read_template_step_receives status reply rest d acc :
  0 <= _byte_offset d < 2 ^ 31 ->
  0 <= object_definition_size * 4 - 21 - _byte_offset d < 2 ^ 16 ->
  wire_in d = Some reply :: rest ->
  unit_data_reply reply (I_TAG_SERVICES_REPLY "Read Template") status ->
  status = SUCCESS \/ status = 0x06 ->
  _get_template_in_progress d = true -> _buffer d = BufBytes acc ->
  exists d',
    read_template_step instance_id object_definition_size d = (Ret None, d')
    /\ _buffer d' = BufBytes (acc ++ slice_from 50 reply)
    /\ _byte_offset d'
       = (if status =? SUCCESS then _byte_offset d
          else _byte_offset d + len (slice_from 50 reply))
    /\ _get_template_in_progress d' = negb (status =? SUCCESS)
    /\ wire_in d' = rest
    /\ _template_cache d' = _template_cache d
    /\ length (wire_out d') = S (length (wire_out d)).
Proof.
  intros Hoff Hask Hin Hreply Hstatus Hprog Hbuf.
  unfold read_template_step, template_request.
  assert (Hhead :
    (seq ← _get_sequence;
     s ← liftR (pack_uint seq);
     let service : bytes := [TAG_SERVICES_REQUEST "Read Template"] in
     three ← liftR (bytes_of_int 3);
     inst ← liftR (pack_uint instance_id);
     mret [s; service; three; CLASS_ID "8-bit"; CLASS_CODE "Template Object";
           INSTANCE_ID "16-bit"; [Byte.x00]; inst])
      d
    = (Ret [le_encode 2 (next_sequence (_sequence d));
            [TAG_SERVICES_REQUEST "Read Template"]; [byte_of_Z 3];
            CLASS_ID "8-bit"; CLASS_CODE "Template Object";
            INSTANCE_ID "16-bit"; [Byte.x00]; le_encode 2 instance_id],
       set_sequence (next_sequence (_sequence d)) d)).
  { erewrite run_bind_ret by apply get_sequence_run.
    rewrite (pack_uint_fits _ (sequence_fits _)), (pack_uint_fits _ instance_fits).
    reflexivity. }
  erewrite run_bind_ret by exact Hhead.
  erewrite run_bind_ret by reflexivity.
  cbn [_byte_offset set_sequence].
  rewrite (pack_dint_fits (_byte_offset d)) by lia.
  rewrite (pack_uint_fits _ Hask). cbn [liftR].
  erewrite run_bind_ret by reflexivity. erewrite run_bind_ret by reflexivity.
  match goal with
  | |- context [send_connected ?mr] => set (message_request := mr)
  end.
  set (d0 := set_sequence (next_sequence (_sequence d)) d).
  set (received :=
         set_more_packets_available false
           (set_reply (Some reply)
              (set_wire_in rest
                 (set_wire_out
                    (wire_out d0
                     ++ [connected_frame message_request (_target_cid d0)])
                    (set_message
                       (connected_frame message_request (_target_cid d0))
                       d0))))).
  pose proof (parse_template_run reply status received acc eq_refl Hbuf
                Hstatus) as Hparse.
  assert (Hsend : exists d',
            send_connected message_request d0 = (Ret (Some reply), d')
            /\ d' = (if status =? SUCCESS
                     then set_get_template_in_progress false
                            (set_buffer (BufBytes (acc ++ slice_from 50 reply))
                               received)
                     else set_byte_offset
                            (_byte_offset d + len (slice_from 50 reply))
                            (set_buffer (BufBytes (acc ++ slice_from 50 reply))
                               received))).
  { eexists. split; [|reflexivity].
    apply (send_connected_receives _ _ _ rest); [exact Hin|].
    rewrite (check_reply_parses_template _ status)
      by (reflexivity || exact Hreply || exact Hprog).
    unfold data_error_on_exception.
    erewrite run_bind_ret by exact Hparse. reflexivity. }
  destruct Hsend as (d' & Hsend & Hd').
  erewrite run_bind_ret by exact Hsend.
  assert (Hne : exists b r, reply = b :: r).
  { destruct Hreply as (t & _ & Ht & _). destruct reply as [|b r]; [|eauto].
    discriminate. }
  destruct Hne as (b & r & ->).
  exists d'. split; [reflexivity|]. subst d'.
  destruct Hstatus as [-> | ->]; cbn;
    (repeat split; try reflexivity); try exact Hprog;
    rewrite length_app; cbn; lia.
Qed.

Lemma read_template_loop_receives fragments :
  forall last rest d acc fuel,
    Forall (fun reply =>
              unit_data_reply reply (I_TAG_SERVICES_REPLY "Read Template") 0x06)
      fragments ->
    unit_data_reply last (I_TAG_SERVICES_REPLY "Read Template") SUCCESS ->
    0 <= _byte_offset d ->
    _byte_offset d + len (concat (map (slice_from 50) fragments))
      <= object_definition_size * 4 - 21 ->
    object_definition_size * 4 - 21 < 2 ^ 16 ->
    wire_in d = map Some (fragments ++ [last]) ++ rest ->
    _get_template_in_progress d = true -> _buffer d = BufBytes acc ->
    (length fragments < fuel)%nat ->
    exists d',
      while_loop fuel _get_template_in_progress
        (read_template_step instance_id object_definition_size) d
      = (Ret None, d')
      /\ _buffer d'
         = BufBytes (acc ++ concat (map (slice_from 50) (fragments ++ [last])))
      /\ wire_in d' = rest
      /\ _template_cache d' = _template_cache d
      /\ length (wire_out d')
         = (length (wire_out d) + S (length fragments))%nat.
Proof.
  induction fragments as [|f fs IH];
    intros last rest d acc fuel Hall Hlast Hoff Htotal Hask Hin Hprog Hbuf Hfuel;
    (destruct fuel as [|k]; [cbn in Hfuel; lia|]);
    cbn [while_loop]; rewrite Hprog.
  - cbn [map concat app length] in *.
    change (len []) with 0 in Htotal.
    destruct (read_template_step_receives SUCCESS last rest d acc
                ltac:(lia) ltac:(lia) Hin Hlast (or_introl eq_refl) Hprog Hbuf)
      as (d1 & Hstep & Hb & _ & Hp & Hwi & Hc & Hwo).
    rewrite Hstep. exists d1.
    split; [destruct k; cbn [while_loop]; rewrite Hp; reflexivity|].
    rewrite app_nil_r. auto with lia.
  - inversion Hall as [|? ? Hf Hfs]; subst.
    cbn [map concat app length] in *. rewrite len_app in Htotal.
    assert (Hn : 0 <= len (slice_from 50 f)) by (unfold len; lia).
    assert (Hn' : 0 <= len (concat (map (slice_from 50) fs)))
      by (unfold len; lia).
    destruct (read_template_step_receives 0x06 f _ d acc
                ltac:(lia) ltac:(lia) Hin Hf (or_intror eq_refl) Hprog Hbuf)
      as (d1 & Hstep & Hb & Hbyte & Hp & Hwi & Hc & Hwo).
    rewrite Hstep. change (6 =? SUCCESS) with false in Hbyte, Hp.
    cbv iota in Hbyte. cbn [negb] in Hp.
    destruct (IH last rest d1 _ k Hfs Hlast ltac:(lia) ltac:(lia) ltac:(lia)
                Hwi Hp Hb ltac:(lia))
      as (d' & Hloop & Hb' & Hwi' & Hc' & Hwo').
    exists d'. split; [exact Hloop|].
    split; [rewrite Hb', <- app_assoc; reflexivity|].
    split; [exact Hwi'|]. split; [congruence | lia].
Qed.

(** A template from end to end.  The controller answers the requests of
    [_read_template] for a template that is not cached with Read Template
    replies, all but the last with general status 0x06 and the last with
    SUCCESS.  Then [_read_template] returns the bytes those replies carry
    from byte 50 on, joined in order, and keeps them in the cache; it has
    sent one request per reply and consumed exactly those replies. *)
Theorem read_template_returns_what_was_sent (fragments : list bytes)
    (last : bytes) (rest : list (option bytes)) (d : Driver) :
  _target_is_connected d = true ->
  _template_cache d !! instance_id = None ->
  Forall (fun reply =>
            unit_data_reply reply (I_TAG_SERVICES_REPLY "Read Template") 0x06)
    fragments ->
  unit_data_reply last (I_TAG_SERVICES_REPLY "Read Template") SUCCESS ->
  len (concat (map (slice_from 50) fragments))
    <= object_definition_size * 4 - 21 < 2 ^ 16 ->
  wire_in d = map Some (fragments ++ [last]) ++ rest ->
  let template :=
    BufBytes (concat (map (slice_from 50) (fragments ++ [last]))) in
  exists d',
    _read_template instance_id object_definition_size d = (Ret template, d')
    /\ _template_cache d' !! instance_id = Some template
    /\ wire_in d' = rest
    /\ length (wire_out d')
       = (length (wire_out d) + S (length fragments))%nat.
Proof.
  intros Hconn Hmiss Hall Hlast Hsize Hin. cbv zeta.
  unfold _read_template.
  erewrite run_bind_ret by (apply ensure_connected_open; exact Hconn).
  erewrite run_bind_ret by reflexivity. rewrite Hmiss.
  set (d0 := set_get_template_in_progress true
               (set_buffer (BufBytes []) (set_byte_offset 0 d))).
  destruct (read_template_loop_receives fragments last rest d0 []
              (S (length (wire_in d0))) Hall Hlast ltac:(cbn; lia)
              ltac:(cbn; lia) ltac:(cbn; lia) Hin eq_refl eq_refl)
    as (d1 & Hloop & Hb & Hwi & Hc & Hwo).
  { subst d0. cbn [wire_in set_get_template_in_progress set_buffer
                   set_byte_offset].
    rewrite Hin, length_app, length_map, length_app. lia. }
  cbn [app] in Hb.
  assert (Hfetch :
    (modify (set_byte_offset 0);;
     modify (set_buffer (BufBytes []));;
     modify (set_get_template_in_progress true);;
     data_error_on_exception (
       fuel ← gets (fun d => S (length (wire_in d)));
       while_loop fuel _get_template_in_progress
         (read_template_step instance_id object_definition_size);;
       modify (set_get_template_in_progress false);;
       b ← gets _buffer;
       modify (fun d =>
                 set_template_cache (<[instance_id := b]> (_template_cache d)) d)))
      d
    = (Ret tt,
       set_template_cache
         (<[instance_id :=
              BufBytes (concat (map (slice_from 50) (fragments ++ [last])))]>
            (_template_cache d1))
         (set_get_template_in_progress false d1))).
  { do 3 (erewrite run_bind_ret by reflexivity). fold d0.
    unfold data_error_on_exception.
    erewrite run_bind_ret by reflexivity.
    erewrite run_bind_ret by exact Hloop.
    erewrite run_bind_ret by reflexivity.
    erewrite run_bind_ret by reflexivity.
    cbn [_buffer set_get_template_in_progress]. rewrite Hb. reflexivity. }
  erewrite run_bind_ret by exact Hfetch.
  erewrite run_bind_ret by reflexivity.
  cbn [_template_cache set_template_cache]. rewrite lookup_insert_eq.
  eexists. split; [reflexivity|].
  cbn [_template_cache set_template_cache wire_in wire_out
       set_get_template_in_progress].
  rewrite lookup_insert_eq. auto.
Qed.

End TemplateRead.

(** A template of eight words, answered in two replies of three and two
    bytes: [_read_template] returns the five bytes. *)
Lemma read_template_returns_what_was_sent_witness :
  let first := Logix.unit_reply 0xCB 6 [1; 2; 3] in
  let last := Logix.unit_reply 0xCB 0 [4; 5] in
  fst (_read_template (cb := Logix.tables) 5 8
         (Logix.session [Some first; Some last]))
  = Ret (BufBytes (Logix.B [1; 2; 3; 4; 5])).
Proof.
  cbv zeta.
  destruct (read_template_returns_what_was_sent (cb := Logix.tables)
              ltac:(vm_compute; repeat split; congruence)
              (fun s => Z.mod_pos_bound (s + 1) 65536 eq_refl)
              5 8 ltac:(lia)
              [Logix.unit_reply 0xCB 6 [1; 2; 3]]
              (Logix.unit_reply 0xCB 0 [4; 5]) []
              (Logix.session [Some (Logix.unit_reply 0xCB 6 [1; 2; 3]);
                              Some (Logix.unit_reply 0xCB 0 [4; 5])])
              eq_refl eq_refl)
    as (d' & -> & _).
  - constructor; [|constructor].
    exists 0x70, 0x6F. vm_compute. repeat split; congruence.
  - exists 0x70, 0x6F. vm_compute. repeat split; congruence.
  - vm_compute. split; congruence.
  - reflexivity.
  - reflexivity.
Defined.
